(** * Cozy Condo maintenance scripts: a shallow embedding

    The repository is a set of stand-alone Python scripts that talk to a
    hosted backend over HTTP (and, for one script, over a direct database
    connection) and print human-readable reports.  Each script is embedded
    as a finite interaction tree: a node issues one HTTP request, one
    database call, one file read or one [print], and continues with the
    reply.  Python exceptions, [try]/[except], [sys.exit] and the local
    variables that a [try] block mutates before raising are part of the
    tree, so that a script can be run against any behaviour of the outside
    world and its printed output, request log and result computed. *)

From stdpp Require Import base strings gmap list.

Set Warnings "-register-all".

Open Scope Z_scope.
Open Scope string_scope.
Open Scope list_scope.

(** ** Python values *)

(** Values decoded from a JSON body ([response.json()]).  [JNull] is
    Python's [None].  Numbers are kept integral: the scripts only test
    them for truth and compare them with [0]. *)
Inductive json : Type :=
| JNull
| JBool (b : bool)
| JNum (z : Z)
| JStr (s : string)
| JArr (l : list json)
| JObj (d : list (string * json)).

(** Python truth value: [None], [False], [0], the empty string, [[]] and [{}] are
    false. *)
Definition truthy (j : json) : bool :=
  match j with
  | JNull => false
  | JBool b => b
  | JNum z => negb (Z.eqb z 0)
  | JStr s => negb (String.eqb s EmptyString)
  | JArr l => match l with [] => false | _ => true end
  | JObj d => match d with [] => false | _ => true end
  end.

(** The name of the type of a value, as Python's error messages give it. *)
Definition type_name (j : json) : string :=
  match j with
  | JNull => "NoneType"
  | JBool _ => "bool"
  | JNum _ => "int"
  | JStr _ => "str"
  | JArr _ => "list"
  | JObj _ => "dict"
  end.

(** Text is held as its UTF-8 bytes, as the string literals of this
    development are, while Python counts and cuts characters: a byte
    [10xxxxxx] continues the character begun before it. *)
Definition continues (c : Ascii.ascii) : bool :=
  let n := Ascii.nat_of_ascii c in (128 <=? n)%nat && (n <? 192)%nat.

(** The number of characters of a text. *)
Fixpoint char_length (s : string) : nat :=
  match s with
  | EmptyString => O
  | String c s' => if continues c then char_length s' else S (char_length s')
  end.

(** The bytes that continue a character, at the head of [s]. *)
Fixpoint rest_of_char (s : string) : string :=
  match s with
  | EmptyString => EmptyString
  | String c s' => if continues c then String c (rest_of_char s') else EmptyString
  end.

(** The first [n] characters of a text. *)
Fixpoint take_chars (n : nat) (s : string) : string :=
  match s with
  | EmptyString => EmptyString
  | String c s' =>
      if continues c then String c (take_chars n s')
      else match n with
           | O => EmptyString
           | S n' => String c (take_chars n' s')
           end
  end.

(** [len(x)]: defined on strings, lists and dicts; [None] stands for the
    [TypeError] that the other values raise. *)
Definition py_len (j : json) : option Z :=
  match j with
  | JStr s => Some (Z.of_nat (char_length s))
  | JArr l => Some (Z.of_nat (length l))
  | JObj d => Some (Z.of_nat (length d))
  | _ => None
  end.

Definition sized (j : json) : bool :=
  match py_len j with Some _ => true | None => false end.

(** [d.get(key, default)] on a dict kept in insertion order. *)
Fixpoint dict_get (d : list (string * json)) (key : string) (default : json) : json :=
  match d with
  | [] => default
  | (k, v) :: d' => if String.eqb k key then v else dict_get d' key default
  end.

Fixpoint dict_lookup (d : list (string * json)) (key : string) : option json :=
  match d with
  | [] => None
  | (k, v) :: d' => if String.eqb k key then Some v else dict_lookup d' key
  end.

Definition dict_keys (d : list (string * json)) : list string := d.*1.

(** [s * n] on a string. *)
Fixpoint repeat_str (s : string) (n : nat) : string :=
  match n with
  | O => EmptyString
  | S n' => s +:+ repeat_str s n'
  end.

Definition nl : string := String (Ascii.ascii_of_nat 10) EmptyString.

(** [s.split(sep)] for a one-character separator: the fields between
    occurrences of [sep]; always at least one field. *)
Fixpoint split_on (sep : Ascii.ascii) (s : string) : list string :=
  match s with
  | EmptyString => [EmptyString]
  | String c s' =>
      if Ascii.eqb c sep then EmptyString :: split_on sep s'
      else match split_on sep s' with
           | [] => [String c EmptyString]
           | f :: fs => String c f :: fs
           end
  end.

(** ** Exceptions *)

(** The subclasses of [Exception] that the scripts can meet.
    [RequestException] stands for [requests.RequestException] and its
    network subclasses ([ConnectionError], [Timeout], ...);
    [JSONDecodeError] is [requests.exceptions.JSONDecodeError], itself a
    [RequestException]; [DatabaseError] is [psycopg2.Error]. *)
Inductive exn_class : Type :=
| RequestException
| JSONDecodeError
| IndexError
| KeyError
| TypeError
| ValueError
| AttributeError
| FileNotFoundError
| DatabaseError
| OtherException.

Record exn : Type := Exn { exn_cls : exn_class; exn_msg : string }.

(** What a [raise] carries up the stack: an [Exception], or the
    [SystemExit] of [sys.exit(code)], which [except Exception] lets
    through. *)
Inductive raised : Type :=
| Exc (e : exn)
| SysExit (code : Z).

Definition is_request_exception (c : exn_class) : bool :=
  match c with
  | RequestException | JSONDecodeError => true
  | _ => false
  end.

Definition is_psycopg2_error (c : exn_class) : bool :=
  match c with DatabaseError => true | _ => false end.

Definition is_file_not_found (c : exn_class) : bool :=
  match c with FileNotFoundError => true | _ => false end.

(** [except Exception]: every class above. *)
Definition is_exception (c : exn_class) : bool := true.

(** ** The outside world *)

Inductive method : Type := GET | POST | PUT.

Inductive api_key : Type := ANON_KEY | SERVICE_ROLE_KEY.

(** One call of [requests.get], [requests.post] or [requests.put]. *)
Record request : Type := Request {
  req_method : method;
  req_url : string;
  req_key : api_key;
  req_params : list (string * string);
  req_json : option json;
  req_timeout : option Z
}.

(** A [requests.Response].  [resp_json] is [None] when the body is not
    JSON, in which case [response.json()] raises; [resp_headers] is keyed
    by the lower-case header name (the library's header dict ignores
    case). *)
Record response : Type := Response {
  status_code : Z;
  resp_text : string;
  resp_json : option json;
  resp_headers : gmap string string
}.

(** What a request call does: raise, or return a response. *)
Inductive outcome : Type :=
| Failed (e : exn)
| Returned (r : response).

(** [open(path).read()]. *)
Inductive file_outcome : Type :=
| FileContent (s : string)
| FileFailed (e : exn).

(** The calls made on the [psycopg2] connection and cursor. *)
Inductive db_op : Type :=
| DbConnect
| DbSetIsolationLevel
| DbCursor
| DbExecute (sql : string)
| DbFetchAll
| DbFetchOne
| DbCursorClose
| DbConnClose.

(** What a database call does: raise, or return rows (empty for the calls
    that return nothing). *)
Inductive db_outcome : Type :=
| DbFailed (e : exn)
| DbRows (rows : list (list json)).

(** The environment of a run: the reply to the [k]-th HTTP request, the
    content of each file, the reply to the [k]-th database call. *)
Record env : Type := Env {
  http_reply : nat → outcome;
  file_reply : string → file_outcome;
  db_reply : nat → db_outcome
}.

(** ** Printed output *)

(** A printed line is kept as the pieces of its f-string: literal text,
    an integer, or [str()] of a decoded value. *)
Inductive piece : Type :=
| Lit (s : string)
| Num (z : Z)
| Val (j : json).

Definition line : Type := list piece.

(** ** Scripts as interaction trees *)

Section Prog.
Context {L : Type}.

(** [L] is the frame of local variables of the function being run. *)
Inductive prog (A : Type) : Type :=
| Ret (a : A)
| Raise (r : raised)
| Http (q : request) (k : outcome → prog A)
| Echo (l : line) (k : prog A)
| Load (k : L → prog A)
| Store (l : L) (k : prog A)
| ReadFile (path : string) (k : file_outcome → prog A)
| Db (op : db_op) (k : db_outcome → prog A).

Global Arguments Ret {A} a.
Global Arguments Raise {A} r.
Global Arguments Http {A} q k.
Global Arguments Echo {A} l k.
Global Arguments Load {A} k.
Global Arguments Store {A} l k.
Global Arguments ReadFile {A} path k.
Global Arguments Db {A} op k.

Fixpoint bind {A B} (p : prog A) (f : A → prog B) : prog B :=
  match p with
  | Ret a => f a
  | Raise r => Raise r
  | Http q k => Http q (λ o, bind (k o) f)
  | Echo l k => Echo l (bind k f)
  | Load k => Load (λ v, bind (k v) f)
  | Store v k => Store v (bind k f)
  | ReadFile path k => ReadFile path (λ o, bind (k o) f)
  | Db op k => Db op (λ o, bind (k o) f)
  end.

(** [try: p except <cls> as e: h e].  [SystemExit] is not an
    [Exception] and passes through. *)
Fixpoint try_except {A} (p : prog A) (cls : exn_class → bool)
    (h : exn → prog A) : prog A :=
  match p with
  | Ret a => Ret a
  | Raise (Exc e) => if cls (exn_cls e) then h e else Raise (Exc e)
  | Raise (SysExit c) => Raise (SysExit c)
  | Http q k => Http q (λ o, try_except (k o) cls h)
  | Echo l k => Echo l (try_except k cls h)
  | Load k => Load (λ v, try_except (k v) cls h)
  | Store v k => Store v (try_except k cls h)
  | ReadFile path k => ReadFile path (λ o, try_except (k o) cls h)
  | Db op k => Db op (λ o, try_except (k o) cls h)
  end.

(** [try: p except: h], the bare clause, which catches everything. *)
Fixpoint try_bare {A} (p : prog A) (h : prog A) : prog A :=
  match p with
  | Ret a => Ret a
  | Raise _ => h
  | Http q k => Http q (λ o, try_bare (k o) h)
  | Echo l k => Echo l (try_bare k h)
  | Load k => Load (λ v, try_bare (k v) h)
  | Store v k => Store v (try_bare k h)
  | ReadFile path k => ReadFile path (λ o, try_bare (k o) h)
  | Db op k => Db op (λ o, try_bare (k o) h)
  end.
End Prog.

Global Arguments prog : clear implicits.

Global Instance prog_ret {L} : MRet (prog L) := λ A a, Ret a.
Global Instance prog_bind {L} : MBind (prog L) := λ A B f p, bind p f.

(** Calling a function: [p] runs in a frame of its own, initially [l]. *)
Fixpoint call {L L' A} (p : prog L' A) (l : L') : prog L A :=
  match p with
  | Ret a => Ret a
  | Raise r => Raise r
  | Http q k => Http q (λ o, call (k o) l)
  | Echo ln k => Echo ln (call k l)
  | Load k => call (k l) l
  | Store l' k => call k l'
  | ReadFile path k => ReadFile path (λ o, call (k o) l)
  | Db op k => Db op (λ o, call (k o) l)
  end.

(** [for x in xs: body x]; an exception that escapes [body] ends the
    loop. *)
Fixpoint for_each {L X} (xs : list X) (body : X → prog L unit) : prog L unit :=
  match xs with
  | [] => Ret tt
  | x :: xs' => body x ;; for_each xs' body
  end.

(** ** Running a script *)

(** What a run leaves behind: the requests made with their replies, the
    database calls with theirs, the files read, and the printed lines. *)
Record world : Type := World {
  http_log : list (request * outcome);
  db_log : list (db_op * db_outcome);
  file_log : list (string * file_outcome);
  stdout : list line
}.

Definition world0 : world := World [] [] [] [].

Definition log_http (w : world) (q : request) (o : outcome) : world :=
  World (http_log w ++ [(q, o)]) (db_log w) (file_log w) (stdout w).
Definition log_db (w : world) (op : db_op) (o : db_outcome) : world :=
  World (http_log w) (db_log w ++ [(op, o)]) (file_log w) (stdout w).
Definition log_file (w : world) (path : string) (o : file_outcome) : world :=
  World (http_log w) (db_log w) (file_log w ++ [(path, o)]) (stdout w).
Definition emit (w : world) (ln : line) : world :=
  World (http_log w) (db_log w) (file_log w) (stdout w ++ [ln]).

Inductive result (A : Type) : Type :=
| Returns (a : A)
| Raises (r : raised).
Global Arguments Returns {A} a.
Global Arguments Raises {A} r.

Record run_result (L A : Type) : Type := RunResult {
  res : result A;
  frame : L;
  final : world
}.
Global Arguments RunResult {L A} res frame final.
Global Arguments res {L A} _.
Global Arguments frame {L A} _.
Global Arguments final {L A} _.

Fixpoint run {L A} (p : prog L A) (e : env) (l : L) (w : world) : run_result L A :=
  match p with
  | Ret a => RunResult (Returns a) l w
  | Raise r => RunResult (Raises r) l w
  | Http q k =>
      let o := http_reply e (length (http_log w)) in
      run (k o) e l (log_http w q o)
  | Echo ln k => run k e l (emit w ln)
  | Load k => run (k l) e l w
  | Store l' k => run k e l' w
  | ReadFile path k =>
      let o := file_reply e path in
      run (k o) e l (log_file w path o)
  | Db op k =>
      let o := db_reply e (length (db_log w)) in
      run (k o) e l (log_db w op o)
  end.

(** The exit status of the interpreter: [0] when the script ends
    normally, the code of [sys.exit], and [1] when an exception reaches
    the top level. *)
Definition exit_code {A} (r : result A) : Z :=
  match r with
  | Returns _ => 0
  | Raises (SysExit c) => c
  | Raises (Exc _) => 1
  end.

(** ** Primitive statements *)

Definition print {L} (ln : line) : prog L unit := Echo ln (Ret tt).
Definition load {L} : prog L L := Load Ret.
Definition store {L} (l : L) : prog L unit := Store l (Ret tt).
Definition raise {L A} (c : exn_class) (msg : string) : prog L A :=
  Raise (Exc (Exn c msg)).
Definition sys_exit {L A} (code : Z) : prog L A := Raise (SysExit code).

Definition send {L} (q : request) : prog L response :=
  Http q (λ o, match o with
               | Failed e => Raise (Exc e)
               | Returned r => Ret r
               end).

(** [response.json()].  A body that is not JSON raises [JSONDecodeError];
    its message is kept to the first words of Python's, which goes on
    with the place in the body where decoding stopped. *)
Definition response_json {L} (r : response) : prog L json :=
  match resp_json r with
  | Some j => Ret j
  | None => raise JSONDecodeError "Expecting value"
  end.

(** [x.get(key, default)] where [x] came out of [response.json()]: only a
    dict has the method. *)
Definition py_get {L} (x : json) (key : string) (default : json) : prog L json :=
  match x with
  | JObj d => Ret (dict_get d key default)
  | _ => raise AttributeError ("'" +:+ type_name x +:+ "' object has no attribute 'get'")
  end.

(** [x[key]] with a string key.  The text of a [KeyError] is the key as
    Python writes it, between quotes; the text for a string is that of
    Python 3.11 and later. *)
Definition py_item {L} (x : json) (key : string) : prog L json :=
  match x with
  | JObj d => match dict_lookup d key with
              | Some v => Ret v
              | None => raise KeyError ("'" +:+ key +:+ "'")
              end
  | JArr _ => raise TypeError "list indices must be integers or slices, not str"
  | JStr _ => raise TypeError "string indices must be integers, not 'str'"
  | _ => raise TypeError ("'" +:+ type_name x +:+ "' object is not subscriptable")
  end.

(** [len(x)]. *)
Definition len {L} (x : json) : prog L Z :=
  match py_len x with
  | Some n => Ret n
  | None => raise TypeError ("object of type '" +:+ type_name x +:+ "' has no len()")
  end.

(** [x[0]]. *)
Definition py_index0 {L} (x : json) : prog L json :=
  match x with
  | JArr (v :: _) => Ret v
  | JArr [] => raise IndexError "list index out of range"
  | JStr (String c s) => Ret (JStr (String c (rest_of_char s)))
  | JStr EmptyString => raise IndexError "string index out of range"
  | JObj _ => raise KeyError "0"
  | _ => raise TypeError ("'" +:+ type_name x +:+ "' object is not subscriptable")
  end.

(** The characters of a text, one string each. *)
Fixpoint chars (s : string) : list json :=
  match s with
  | EmptyString => []
  | String c s' =>
      if continues c then chars s' else JStr (String c (rest_of_char s')) :: chars s'
  end.

(** The items that [for x in v] visits. *)
Definition py_iter {L} (x : json) : prog L (list json) :=
  match x with
  | JArr l => Ret l
  | JObj d => Ret (JStr <$> dict_keys d)
  | JStr s => Ret (chars s)
  | _ => raise TypeError ("'" +:+ type_name x +:+ "' object is not iterable")
  end.

(** [x[:n]]: the first [n] characters of a string or items of a list.
    [None], a number and a boolean cannot be subscripted; a dict cannot
    be indexed by a slice (a [TypeError] up to Python 3.11, a [KeyError]
    from 3.12 on: the model takes the former). *)
Definition py_slice_to {L} (n : nat) (x : json) : prog L json :=
  match x with
  | JStr s => Ret (JStr (take_chars n s))
  | JArr l => Ret (JArr (take n l))
  | JObj _ => raise TypeError "unhashable type: 'slice'"
  | _ => raise TypeError ("'" +:+ type_name x +:+ "' object is not subscriptable")
  end.

(** ** verify_schema.py *)

Module VerifySchema.

Definition base_url : string := "https://pzrdkijtktgdwayjzbfu.supabase.co/rest/v1".

Definition tables_to_check : list string :=
  ["properties"; "property_photos"; "calendar_events"; "blog_posts"; "site_settings"].

(** [requests.get(url, headers=headers, timeout=10)] with the service
    key. *)
Definition get_request (url : string) : request :=
  Request GET url SERVICE_ROLE_KEY [] None (Some 10).

(** The existence request of the loop. *)
Definition existence_request (table : string) : request :=
  get_request (base_url +:+ "/" +:+ table +:+ "?limit=1").

(** The body of the [for table in tables_to_check] loop.  The frame is
    the local [all_tables_exist]. *)
Definition check_table (table : string) : prog bool unit :=
  try_except
    (response ← send (existence_request table);
     if Z.eqb (status_code response) 200 then
       print [Lit "✅ Table '"; Lit table; Lit "' exists and is accessible"];;
       data ← response_json response;
       if truthy data then
         n ← len data;
         print [Lit "   └── Contains "; Num n; Lit " record(s)"]
       else
         print [Lit "   └── Table is empty (expected for fresh installation)"]
     else
       print [Lit "❌ Table '"; Lit table; Lit "' - Error: "; Num (status_code response)];;
       try_bare
         (error_detail ← response_json response;
          m ← py_get error_detail "message" (JStr "Unknown error");
          print [Lit "   └── Details: "; Val m])
         (print [Lit "   └── HTTP Error: "; Lit (resp_text response)]);;
       store false)
    is_request_exception
    (λ e,
       print [Lit "❌ Table '"; Lit table; Lit "' - Connection error: "; Lit (exn_msg e)];;
       store false).

Definition check_tables : prog bool unit := for_each tables_to_check check_table.

Definition print_property (prop : json) : prog bool unit :=
  name ← py_get prop "name" (JStr "Unnamed");
  slug ← py_get prop "slug" (JStr "no-slug");
  print [Lit "   - "; Val name; Lit " ("; Val slug; Lit ")"].

Definition check_sample_data : prog bool unit :=
  print [Lit (nl +:+ "Checking sample data...")];;
  try_bare
    (properties_response ← send (get_request (base_url +:+ "/properties"));
     if Z.eqb (status_code properties_response) 200 then
       properties_data ← response_json properties_response;
       if truthy properties_data then
         n ← len properties_data;
         print [Lit "✅ Sample properties loaded: "; Num n; Lit " properties"];;
         props ← py_iter properties_data;
         for_each props print_property
       else
         print [Lit "ℹ️  No sample properties found (this is normal if you removed sample data)"]
     else Ret tt)
    (print [Lit "⚠️  Could not check sample data"]).

Definition check_site_settings : prog bool unit :=
  print [Lit (nl +:+ "Checking site settings...")];;
  try_bare
    (settings_response ← send (get_request (base_url +:+ "/site_settings"));
     if Z.eqb (status_code settings_response) 200 then
       settings_data ← response_json settings_response;
       if truthy settings_data then
         setting ← py_index0 settings_data;
         site_name ← py_get setting "site_name" (JStr "Unknown");
         print [Lit "✅ Site settings configured: "; Val site_name];;
         tagline ← py_get setting "tagline" (JStr "Not set");
         print [Lit "   - Tagline: "; Val tagline];;
         email ← py_get setting "email" (JStr "Not set");
         print [Lit "   - Email: "; Val email]
       else
         print [Lit "⚠️  No site settings found"]
     else Ret tt)
    (print [Lit "⚠️  Could not check site settings"]).

Definition verify_tables : prog bool bool :=
  print [Lit "Verifying Cozy Condo schema execution..."];;
  print [Lit (repeat_str "=" 50)];;
  store true;;
  check_tables;;
  print [Lit (nl +:+ repeat_str "=" 50)];;
  all_tables_exist ← load;
  if all_tables_exist : bool then
    print [Lit "🎉 Schema verification completed successfully!"];;
    print [Lit "All tables are created and accessible."];;
    check_sample_data;;
    check_site_settings;;
    Ret true
  else
    print [Lit "❌ Schema verification failed!"];;
    print [Lit "Some tables are missing or inaccessible."];;
    print [Lit (nl +:+ "To resolve this, please execute the schema manually:")];;
    print [Lit "1. Go to: https://supabase.com/dashboard/project/pzrdkijtktgdwayjzbfu"];;
    print [Lit "2. Navigate to SQL Editor"];;
    print [Lit "3. Copy and paste the contents of /mnt/m/AI/cozy-condo/supabase/schema.sql"];;
    print [Lit "4. Click 'Run' to execute"];;
    Ret false.

(** The [__main__] block. *)
Definition main : prog unit unit :=
  success ← call verify_tables true;
  sys_exit (if success : bool then 0 else 1).

(** How the loop body fares on a reply.  [handled]: no exception leaves
    the body, either because none is raised or because the one raised is
    a [RequestException].  [clean]: the reply is a 200 and nothing is
    raised at all, so that [all_tables_exist] is left as it was. *)
Definition handled (o : outcome) : bool :=
  match o with
  | Failed x => is_request_exception (exn_cls x)
  | Returned r =>
      if Z.eqb (status_code r) 200 then
        match resp_json r with
        | Some j => if truthy j then sized j else true
        | None => true
        end
      else true
  end.

Definition clean (o : outcome) : bool :=
  match o with
  | Failed x => false
  | Returned r =>
      Z.eqb (status_code r) 200 &&
        match resp_json r with
        | Some j => if truthy j then sized j else true
        | None => false
        end
  end.

(** The three outcomes of a request that the loop is written for: rows
    come back with a 200, another status comes back, or the call raises
    a network error. *)
Definition succeeds (o : outcome) : bool :=
  match o with
  | Returned r =>
      Z.eqb (status_code r) 200 &&
        match resp_json r with Some (JArr _) => true | _ => false end
  | Failed _ => false
  end.

Definition non_200 (o : outcome) : bool :=
  match o with
  | Returned r => negb (Z.eqb (status_code r) 200)
  | Failed _ => false
  end.

Definition network_error (o : outcome) : bool :=
  match o with
  | Failed x => is_request_exception (exn_cls x)
  | Returned _ => false
  end.

(** Existence requests among [qs] that go to [table]'s endpoint. *)
Definition is_existence_get (table : string) (q : request) : bool :=
  match req_method q with
  | GET => String.eqb (req_url q) (base_url +:+ "/" +:+ table +:+ "?limit=1")
  | _ => false
  end.

Definition existence_gets (table : string) (qs : list request) : nat :=
  length (filter (λ q, is_existence_get table q = true) qs).

End VerifySchema.

(** ** execute_schema_api.py *)

Definition read_file {L} (path : string) : prog L string :=
  ReadFile path (λ o, match o with
                      | FileContent s => Ret s
                      | FileFailed e => Raise (Exc e)
                      end).

Definition slash : Ascii.ascii := Ascii.ascii_of_nat 47.

(** [response.headers.get('Content-Range', '0').split('/')[1]]: the text
    after the first slash of the header, or of ['0'] when the header is
    absent.  Index [1] of a one-field split raises [IndexError]. *)
Definition content_range_count {L} (r : response) : prog L string :=
  match split_on slash (default "0" (resp_headers r !! "content-range")) !! 1%nat with
  | Some count => Ret count
  | None => raise IndexError "list index out of range"
  end.

Module ExecuteSchemaApi.

Definition schema_path : string := "/mnt/m/AI/cozy-condo/supabase/schema.sql".

Definition read_schema_file {L} : prog L string :=
  try_except (read_file schema_path) is_file_not_found
    (λ _, print [Lit "ERROR: Schema file not found at "; Lit schema_path];;
          sys_exit 1).

Definition manual_instructions (schema_sql : string) : list line :=
  [ [Lit "❌ Direct SQL execution via API is not available through public endpoints."];
    [Lit (nl +:+ "Since direct PostgreSQL connection is not available from this environment,")];
    [Lit "you'll need to execute the schema manually in one of these ways:"];
    [];
    [Lit "OPTION 1 - Supabase Dashboard (Recommended):"];
    [Lit "1. Go to: https://supabase.com/dashboard/project/pzrdkijtktgdwayjzbfu"];
    [Lit "2. Navigate to 'SQL Editor' in the sidebar"];
    [Lit "3. Copy the entire schema from: /mnt/m/AI/cozy-condo/supabase/schema.sql"];
    [Lit "4. Paste it into the SQL Editor"];
    [Lit "5. Click 'Run' to execute"];
    [];
    [Lit "OPTION 2 - Local psql client:"];
    [Lit "If you have PostgreSQL client installed locally, run:"];
    [Lit "psql -h db.pzrdkijtktgdwayjzbfu.supabase.co -p 5432 -U postgres -d postgres -f supabase/schema.sql"];
    [Lit "Password: Cozycondo1235813"];
    [];
    [Lit "OPTION 3 - Copy schema content:"];
    [Lit "Here's the schema content to copy:"];
    [Lit (repeat_str "-" 60)];
    [Lit schema_sql];
    [Lit (repeat_str "-" 60)] ].

Definition execute_schema_via_api : prog unit bool :=
  print [Lit "Reading schema file..."];;
  schema_sql ← read_schema_file;
  for_each (manual_instructions schema_sql) print;;
  Ret false.

Definition supabase_url : string := "https://pzrdkijtktgdwayjzbfu.supabase.co".

Definition tables_to_check : list string :=
  ["properties"; "property_photos"; "calendar_events"; "blog_posts"; "site_settings"].

(** [requests.get(f"{supabase_url}/rest/v1/{table}?select=count",
    headers=headers, params={'count': 'exact', 'limit': 0})]. *)
Definition count_request (table : string) : request :=
  Request GET (supabase_url +:+ "/rest/v1/" +:+ table +:+ "?select=count")
    SERVICE_ROLE_KEY [("count", "exact"); ("limit", "0")] None None.

(** The body of the loop; the frame is the local [existing_tables]. *)
Definition check_table (table : string) : prog (list (string * string)) unit :=
  try_except
    (response ← send (count_request table);
     if Z.eqb (status_code response) 200 then
       count ← content_range_count response;
       existing_tables ← load;
       store (existing_tables ++ [(table, count)]);;
       print [Lit "✓ Table '"; Lit table; Lit "' exists with "; Lit count; Lit " records"]
     else
       print [Lit "✗ Table '"; Lit table; Lit "' does not exist or is not accessible"])
    is_exception
    (λ e, print [Lit "✗ Error checking table '"; Lit table; Lit "': "; Lit (exn_msg e)]).

Section WithInt.
(** Python's [int] on a string: [None] when it raises [ValueError]. *)
Variable py_int : string → option Z.

(** The message of the [ValueError] ends with the text that was refused,
    between quotes. *)
Definition int {L} (s : string) : prog L Z :=
  match py_int s with
  | Some z => Ret z
  | None => raise ValueError ("invalid literal for int() with base 10: '" +:+ s +:+ "'")
  end.

(** [for table_name, count in existing_tables:] with its [break]. *)
Fixpoint report_sample_data {L} (existing_tables : list (string * string)) : prog L unit :=
  match existing_tables with
  | [] => Ret tt
  | (table_name, count) :: rest =>
      if String.eqb table_name "properties" then
        n ← int count;
        if Z.ltb 0 n then
          print [Lit "✓ Sample data exists: "; Lit count; Lit " properties found"]
        else report_sample_data rest
      else report_sample_data rest
  end.

Definition check_if_tables_exist : prog (list (string * string)) bool :=
  store [];;
  print [Lit "Checking if database schema has been set up..."];;
  for_each tables_to_check check_table;;
  existing_tables ← load;
  if Nat.eqb (length existing_tables) (length tables_to_check) then
    print [Lit (nl +:+ "🎉 All "); Num (Z.of_nat (length existing_tables));
           Lit " tables exist! Database schema appears to be set up."];;
    report_sample_data existing_tables;;
    Ret true
  else
    print [Lit (nl +:+ "❌ Only "); Num (Z.of_nat (length existing_tables));
           Lit " out of "; Num (Z.of_nat (length tables_to_check)); Lit " tables exist."];;
    print [Lit "The database schema needs to be set up."];;
    Ret false.

(** The [__main__] block. *)
Definition main : prog unit unit :=
  print [Lit "Cozy Condo Database Schema Setup Tool"];;
  print [Lit (repeat_str "=" 50)];;
  exist ← call check_if_tables_exist [];
  if exist : bool then
    print [Lit (nl +:+ "✅ Database schema is already set up and ready to use!")];;
    sys_exit 0
  else
    print [Lit (nl +:+ "⚠️  Database schema needs to be set up.")];;
    call execute_schema_via_api tt;;
    sys_exit 1.

End WithInt.
End ExecuteSchemaApi.

(** ** verify_setup.py *)

Module VerifySetup.

Definition supabase_url : string := "https://pzrdkijtktgdwayjzbfu.supabase.co".

(** [tables_to_verify.items()], in insertion order. *)
Definition tables_to_verify : list (string * string) :=
  [("properties", "Property listings");
   ("property_photos", "Property photos");
   ("calendar_events", "Calendar events");
   ("blog_posts", "Blog posts");
   ("site_settings", "Site settings")].

(** The locals that the loop updates. *)
Record locals : Type := Locals { all_tables_exist : bool; total_records : Z }.

Definition count_request (table : string) : request :=
  Request GET (supabase_url +:+ "/rest/v1/" +:+ table +:+ "?select=count")
    SERVICE_ROLE_KEY [("count", "exact"); ("limit", "0")] None None.

Definition set_all_tables_exist (b : bool) : prog locals unit :=
  l ← load; store (Locals b (total_records l)).

Definition add_total_records (n : Z) : prog locals unit :=
  l ← load; store (Locals (all_tables_exist l) (total_records l + n)).

Section WithInt.
Variable py_int : string → option Z.

Definition verify_table (item : string * string) : prog locals unit :=
  let '(table, description) := item in
  try_except
    (response ← send (count_request table);
     if Z.eqb (status_code response) 200 then
       count ← content_range_count response;
       n ← ExecuteSchemaApi.int py_int count;
       add_total_records n;;
       print [Lit "✓ "; Lit description; Lit ": "; Lit count; Lit " records"]
     else
       print [Lit "✗ "; Lit description; Lit ": Table not accessible (Status: ";
              Num (status_code response); Lit ")"];;
       set_all_tables_exist false)
    is_exception
    (λ e, print [Lit "✗ "; Lit description; Lit ": Error - "; Lit (exn_msg e)];;
          set_all_tables_exist false).

Definition print_property (prop : json) : prog locals unit :=
  name ← py_item prop "name";
  slug ← py_item prop "slug";
  location ← py_item prop "location";
  print [Lit "  • "; Val name; Lit " ("; Val slug; Lit ") - "; Val location].

Definition sample_properties : prog locals unit :=
  try_except
    (response ← send (Request GET (supabase_url +:+ "/rest/v1/properties?select=name,slug,location")
                        SERVICE_ROLE_KEY [("limit", "5")] None None);
     if Z.eqb (status_code response) 200 then
       properties ← response_json response;
       if truthy properties then
         print [Lit (nl +:+ "📝 Sample Properties Found:")];;
         props ← py_iter properties;
         for_each props print_property
       else print [Lit "ℹ️  No sample properties found (this is okay)"]
     else Ret tt)
    is_exception
    (λ e, print [Lit "⚠️  Could not fetch sample properties: "; Lit (exn_msg e)]).

Definition site_settings : prog locals unit :=
  try_except
    (response ← send (Request GET (supabase_url +:+ "/rest/v1/site_settings?select=site_name,tagline")
                        SERVICE_ROLE_KEY [("limit", "1")] None None);
     if Z.eqb (status_code response) 200 then
       settings ← response_json response;
       if truthy settings then
         print [Lit (nl +:+ "🏠 Site Configuration:")];;
         s0 ← py_index0 settings;
         site_name ← py_item s0 "site_name";
         print [Lit "  • Site Name: "; Val site_name];;
         s0' ← py_index0 settings;
         tagline ← py_item s0' "tagline";
         print [Lit "  • Tagline: "; Val tagline]
       else Ret tt
     else Ret tt)
    is_exception
    (λ e, print [Lit "⚠️  Could not fetch site settings: "; Lit (exn_msg e)]).

Definition verify_tables_loop : prog locals unit := for_each tables_to_verify verify_table.

Definition verify_database_setup : prog locals bool :=
  print [Lit "🔍 Verifying Cozy Condo Database Setup"];;
  print [Lit (repeat_str "=" 50)];;
  store (Locals true 0);;
  verify_tables_loop;;
  print [];;
  l ← load;
  if all_tables_exist l then
    print [Lit "🎉 DATABASE VERIFICATION SUCCESSFUL!"];;
    print [Lit "✓ All required tables are accessible"];;
    print [Lit "✓ Total records found: "; Num (total_records l)];;
    sample_properties;;
    site_settings;;
    print [Lit (nl +:+ "✅ Your Cozy Condo database is ready to use!")];;
    Ret true
  else
    print [Lit "❌ DATABASE VERIFICATION FAILED!"];;
    print [Lit "Some tables are missing or not accessible."];;
    print [Lit "Please ensure the schema has been properly executed."];;
    Ret false.

End WithInt.
End VerifySetup.

(** ** setup_storage.py *)

Module SetupStorage.

Definition base_url : string := "https://pzrdkijtktgdwayjzbfu.supabase.co".

(** An entry of the [buckets] list. *)
Record bucket : Type := Bucket {
  bucket_id : string;
  bucket_name : string;
  bucket_public : bool;
  file_size_limit : option Z;
  allowed_mime_types : list string
}.

Definition buckets : list bucket :=
  [ Bucket "property-photos" "property-photos" true None
      ["image/jpeg"; "image/png"; "image/webp"];
    Bucket "blog-images" "blog-images" true None
      ["image/jpeg"; "image/png"; "image/webp"] ].

(** The locals that the function updates. *)
Record locals : Type := Locals {
  existing_bucket_names : list json;
  success_count : Z
}.

Definition set_existing_bucket_names (names : list json) : prog locals unit :=
  l ← load; store (Locals names (success_count l)).

Definition incr_success_count : prog locals unit :=
  l ← load; store (Locals (existing_bucket_names l) (success_count l + 1)).

Definition list_request : request :=
  Request GET (base_url +:+ "/storage/v1/bucket") SERVICE_ROLE_KEY [] None (Some 10).

Definition create_payload (b : bucket) : json :=
  JObj [("id", JStr (bucket_id b)); ("name", JStr (bucket_name b));
        ("public", JBool (bucket_public b))].

Definition create_request (b : bucket) : request :=
  Request POST (base_url +:+ "/storage/v1/bucket") SERVICE_ROLE_KEY []
    (Some (create_payload b)) (Some 10).

Definition public_request (b : bucket) : request :=
  Request PUT (base_url +:+ "/storage/v1/bucket/" +:+ bucket_id b) SERVICE_ROLE_KEY []
    (Some (JObj [("public", JBool true)])) (Some 10).

(** [id in names]: a decoded value equals a string only if it is that
    string. *)
Definition name_in (id : string) (names : list json) : bool :=
  existsb (λ v, match v with JStr s => String.eqb id s | _ => false end) names.

(** [[bucket["name"] for bucket in existing_buckets]]. *)
Fixpoint bucket_names (items : list json) : prog locals (list json) :=
  match items with
  | [] => Ret []
  | b :: rest =>
      name ← py_item b "name";
      names ← bucket_names rest;
      Ret (name :: names)
  end.

Definition check_existing_buckets : prog locals unit :=
  print [Lit "Checking existing buckets..."];;
  try_except
    (response ← send list_request;
     if Z.eqb (status_code response) 200 then
       existing_buckets ← response_json response;
       items ← py_iter existing_buckets;
       names ← bucket_names items;
       set_existing_bucket_names names;;
       print [Lit "Existing buckets: "; Val (JArr names)]
     else
       print [Lit "Could not retrieve existing buckets: "; Num (status_code response)];;
       set_existing_bucket_names [])
    is_exception
    (λ e, print [Lit "Error checking buckets: "; Lit (exn_msg e)];;
          set_existing_bucket_names []).

Definition created (status : Z) : bool := Z.eqb status 200 || Z.eqb status 201.

(** The body of [for bucket in buckets]. *)
Definition setup_bucket (b : bucket) : prog locals unit :=
  print [Lit (nl +:+ "Creating bucket: "); Lit (bucket_id b)];;
  l ← load;
  if name_in (bucket_id b) (existing_bucket_names l) then
    print [Lit "✅ Bucket '"; Lit (bucket_id b); Lit "' already exists"];;
    incr_success_count
  else
    try_except
      (response ← send (create_request b);
       if created (status_code response) then
         print [Lit "✅ Successfully created bucket '"; Lit (bucket_id b); Lit "'"];;
         incr_success_count;;
         if bucket_public b then
           public_response ← send (public_request b);
           if Z.eqb (status_code public_response) 200 then
             print [Lit "   └── Set bucket to public access"]
           else
             print [Lit "   └── Warning: Could not set public access"]
         else Ret tt
       else
         print [Lit "❌ Failed to create bucket '"; Lit (bucket_id b); Lit "': ";
                Num (status_code response)];;
         try_bare
           (error ← response_json response;
            print [Lit "   └── Error: "; Val error])
           (print [Lit "   └── Error: "; Lit (resp_text response)]))
      is_exception
      (λ e, print [Lit "❌ Exception creating bucket '"; Lit (bucket_id b); Lit "': ";
                   Lit (exn_msg e)]).

Definition print_bucket_url (b : bucket) : prog locals unit :=
  print [Lit "- "; Lit (bucket_id b); Lit ": "; Lit base_url;
         Lit "/storage/v1/object/public/"; Lit (bucket_id b); Lit "/"].

Definition setup_storage_buckets : prog locals bool :=
  print [Lit "Setting up Supabase storage buckets..."];;
  print [Lit (repeat_str "=" 50)];;
  check_existing_buckets;;
  l0 ← load;
  store (Locals (existing_bucket_names l0) 0);;
  for_each buckets setup_bucket;;
  print [Lit (nl +:+ repeat_str "=" 50)];;
  l ← load;
  (if Z.eqb (success_count l) (Z.of_nat (length buckets)) then
     print [Lit "🎉 All storage buckets are ready!"];;
     print [Lit (nl +:+ "Bucket URLs:")];;
     for_each buckets print_bucket_url
   else
     print [Lit "⚠️  "; Num (success_count l); Lit "/"; Num (Z.of_nat (length buckets));
            Lit " buckets are ready."];;
     print [Lit (nl +:+ "You may need to create buckets manually in the Supabase Dashboard:")];;
     print [Lit "1. Go to Storage section in your Supabase Dashboard"];;
     print [Lit "2. Create buckets: 'property-photos' and 'blog-images'"];;
     print [Lit "3. Set both buckets to 'Public' access"]);;
  Ret (Z.eqb (success_count l) (Z.of_nat (length buckets))).

(** The listing, as [check_existing_buckets] reads it: the names it
    leaves in [existing_bucket_names].  Any failure leaves the empty
    list. *)
Definition item_name (b : json) : option json :=
  match b with
  | JObj d => dict_lookup d "name"
  | _ => None
  end.

Fixpoint names_of (items : list json) : option (list json) :=
  match items with
  | [] => Some []
  | b :: rest =>
      match item_name b, names_of rest with
      | Some n, Some ns => Some (n :: ns)
      | _, _ => None
      end
  end.

Definition items_of (j : json) : option (list json) :=
  match j with
  | JArr l => Some l
  | JObj d => Some (JStr <$> dict_keys d)
  | JStr s => Some (chars s)
  | _ => None
  end.

Definition listed (o : outcome) : list json :=
  match o with
  | Returned r =>
      if Z.eqb (status_code r) 200 then
        match resp_json r with
        | Some j =>
            match items_of j with
            | Some items => default [] (names_of items)
            | None => []
            end
        | None => []
        end
      else []
  | Failed _ => []
  end.

(** The creation request came back with status 200 or 201. *)
Definition outcome_created (o : outcome) : bool :=
  match o with
  | Returned r => created (status_code r)
  | Failed _ => false
  end.

(** What the loop body does for bucket [b] when the next request is
    number [k]: the requests it sends with their replies, and whether
    it counts the bucket as ready. *)
Definition bucket_step (b : bucket) (names : list json) (e : env) (k : nat)
    : list (request * outcome) * bool :=
  if name_in (bucket_id b) names then ([], true)
  else
    let o := http_reply e k in
    if outcome_created o then
      ((create_request b, o) ::
         (if bucket_public b then [(public_request b, http_reply e (S k))] else []),
       true)
    else ([(create_request b, o)], false).

Fixpoint provision (names : list json) (e : env) (k : nat) (bs : list bucket)
    : list (request * outcome) * Z :=
  match bs with
  | [] => ([], 0)
  | b :: bs' =>
      let s := bucket_step b names e k in
      let rest := provision names e (k + length s.1) bs' in
      (s.1 ++ rest.1, (if s.2 then 1 else 0) + rest.2)
  end.

(** Reading a request log. [creates id q]: [q] is the POST that creates
    bucket [id]; [makes_public id q]: [q] is the PUT that turns the
    public flag of [id] on; [carries_public q]: the JSON payload of [q]
    has ["public": true]. *)
Definition carries_public (q : request) : bool :=
  match req_json q with
  | Some (JObj d) =>
      match dict_lookup d "public" with
      | Some (JBool true) => true
      | _ => false
      end
  | _ => false
  end.

Definition creates (id : string) (q : request) : bool :=
  match req_method q, req_json q with
  | POST, Some (JObj d) =>
      match dict_lookup d "id" with
      | Some (JStr i) => String.eqb i id
      | _ => false
      end
  | _, _ => false
  end.

Definition makes_public (id : string) (q : request) : bool :=
  match req_method q with
  | PUT => String.eqb (req_url q) (base_url +:+ "/storage/v1/bucket/" +:+ id)
           && carries_public q
  | _ => false
  end.

Definition touches (id : string) (q : request) : bool :=
  creates id q || makes_public id q.

Definition sets_public_flag (id : string) (q : request) : bool :=
  creates id q && carries_public q || makes_public id q.

(** Bucket [b] was created in the exchange [log]: its POST is there and
    was answered 200 or 201. *)
Definition created_in (log : list (request * outcome)) (b : bucket) : bool :=
  existsb (λ qo, creates (bucket_id b) qo.1 && outcome_created qo.2) log.

(** Bucket [b] is ready: it is in the listing, or it was created. *)
Definition ready (names : list json) (log : list (request * outcome)) (b : bucket) : bool :=
  name_in (bucket_id b) names || created_in log b.

(** The listing could not be had: the request raised or came back with
    another status than 200, or something was raised after a 200, in
    [response.json()] (the body is not JSON) or in the comprehension
    (the body cannot be iterated, or an entry has no ["name"]). *)
Definition listing_failed (o : outcome) : bool :=
  match o with
  | Failed _ => true
  | Returned r =>
      negb (Z.eqb (status_code r) 200) ||
      match resp_json r with
      | None => true
      | Some j =>
          match items_of j with
          | None => true
          | Some items =>
              match names_of items with
              | None => true
              | Some _ => false
              end
          end
      end
  end.

End SetupStorage.

(** ** detailed_data_check.py *)

Module DetailedDataCheck.

Definition SUPABASE_URL : string := "https://pzrdkijtktgdwayjzbfu.supabase.co".

Definition table_request (table_name : string) : request :=
  Request GET (SUPABASE_URL +:+ "/rest/v1/" +:+ table_name) SERVICE_ROLE_KEY [] None None.

(** [get_data(table_name)]; the result [JNull] is Python's [None]. *)
Definition get_data {L} (table_name : string) : prog L json :=
  response ← send (table_request table_name);
  if Z.eqb (status_code response) 200 then
    response_json response
  else
    print [Lit "Error fetching "; Lit table_name; Lit ": "; Num (status_code response);
           Lit " - "; Lit (resp_text response)];;
    Ret JNull.

(** [enumerate(xs, start)]. *)
Fixpoint enumerate {X} (xs : list X) (start : Z) : list (Z * X) :=
  match xs with
  | [] => []
  | x :: xs' => (start, x) :: enumerate xs' (start + 1)
  end.

(** [print(f"<label>{x.get(key)}")]. *)
Definition print_field {L} (label : string) (x : json) (key : string) : prog L unit :=
  v ← py_get x key JNull;
  print [Lit label; Val v].

(** [print(f"  Description: {x.get('description', 'N/A')[:100]}...")]. *)
Definition print_description {L} (x : json) : prog L unit :=
  d ← py_get x "description" (JStr "N/A");
  d ← py_slice_to 100 d;
  print [Lit "  Description: "; Val d; Lit "..."].

(** The body of [for i, prop in enumerate(properties, 1)]. *)
Definition show_property (item : Z * json) : prog unit unit :=
  let '(i, prop) := item in
  print [Lit (nl +:+ "Property "); Num i; Lit ":"];;
  print_field "  ID: " prop "id";;
  print_field "  Name: " prop "name";;
  print_field "  Slug: " prop "slug";;
  print_description prop;;
  print_field "  Location: " prop "location";;
  print_field "  Amenities: " prop "amenities";;
  print_field "  Featured: " prop "featured";;
  print_field "  Active: " prop "active".

(** The body of [for setting in settings]. *)
Definition show_setting (setting : json) : prog unit unit :=
  print [Lit (nl +:+ "Site Settings:")];;
  print_field "  ID: " setting "id";;
  print_field "  Site Name: " setting "site_name";;
  print_field "  Tagline: " setting "tagline";;
  print_description setting;;
  print_field "  Phone: " setting "phone";;
  print_field "  Email: " setting "email";;
  print_field "  Hero Title: " setting "hero_title";;
  print_field "  Hero Subtitle: " setting "hero_subtitle".

Definition show_photo (photo : json) : prog unit unit :=
  a ← py_get photo "property_id" JNull;
  b ← py_get photo "url" JNull;
  print [Lit "  Property ID: "; Val a; Lit ", URL: "; Val b].

Definition show_event (event : json) : prog unit unit :=
  a ← py_get event "property_id" JNull;
  b ← py_get event "event_date" JNull;
  c ← py_get event "event_type" JNull;
  print [Lit "  Property ID: "; Val a; Lit ", Date: "; Val b; Lit ", Type: "; Val c].

Definition show_post (post : json) : prog unit unit :=
  a ← py_get post "title" JNull;
  b ← py_get post "status" JNull;
  print [Lit "  Title: "; Val a; Lit ", Status: "; Val b].

(** Lines 34 to 48 of [main]. *)
Definition properties_part : prog unit unit :=
  print [Lit (nl +:+ "1. PROPERTIES TABLE:")];;
  print [Lit (repeat_str "-" 30)];;
  properties ← get_data "properties";
  if truthy properties then
    n ← len properties;
    print [Lit "Total properties: "; Num n];;
    items ← py_iter properties;
    for_each (enumerate items 1) show_property
  else Ret tt.

(** Lines 51 to 65. *)
Definition settings_part : prog unit unit :=
  print [Lit (nl +:+ "2. SITE_SETTINGS TABLE:")];;
  print [Lit (repeat_str "-" 30)];;
  settings ← get_data "site_settings";
  if truthy settings then
    n ← len settings;
    print [Lit "Total settings records: "; Num n];;
    items ← py_iter settings;
    for_each items show_setting
  else Ret tt.

(** The three parts that end on an [else]: lines 68 to 76, 79 to 87 and
    90 to 98. *)
Definition listed_part (heading table total none : string)
    (show : json → prog unit unit) : prog unit unit :=
  print [Lit (nl +:+ heading)];;
  print [Lit (repeat_str "-" 30)];;
  rows ← get_data table;
  if truthy rows then
    n ← len rows;
    print [Lit total; Num n];;
    items ← py_iter rows;
    for_each items show
  else print [Lit none].

Definition photos_part : prog unit unit :=
  listed_part "3. PROPERTY_PHOTOS TABLE:" "property_photos" "Total photos: "
    "No photos found" show_photo.

Definition events_part : prog unit unit :=
  listed_part "4. CALENDAR_EVENTS TABLE:" "calendar_events" "Total events: "
    "No events found" show_event.

Definition posts_part : prog unit unit :=
  listed_part "5. BLOG_POSTS TABLE:" "blog_posts" "Total blog posts: "
    "No blog posts found" show_post.

Definition main : prog unit unit :=
  print [Lit "DETAILED DATA VERIFICATION"];;
  print [Lit (repeat_str "=" 50)];;
  properties_part;;
  settings_part;;
  photos_part;;
  events_part;;
  posts_part.

End DetailedDataCheck.

(** ** final_verification.py *)

Module FinalVerification.

Definition SUPABASE_URL : string := "https://pzrdkijtktgdwayjzbfu.supabase.co".

Definition tables : list string :=
  ["properties"; "property_photos"; "calendar_events"; "blog_posts"; "site_settings"].

Definition anon_request (table : string) : request :=
  Request GET (SUPABASE_URL +:+ "/rest/v1/" +:+ table) ANON_KEY [] None None.

(** The body of [for table in tables]. *)
Definition test_table (table : string) : prog unit unit :=
  try_except
    (response ← send (anon_request table);
     if Z.eqb (status_code response) 200 then
       data ← response_json response;
       n ← len data;
       print [Lit "✅ "; Lit table; Lit ": Anonymous can read "; Num n; Lit " records"]
     else
       print [Lit "❌ "; Lit table; Lit ": Anonymous access denied (Status: ";
              Num (status_code response); Lit ")"])
    is_exception
    (λ e, print [Lit "❌ "; Lit table; Lit ": Error - "; Lit (exn_msg e)]).

Definition test_anon_access : prog unit unit :=
  print [Lit (nl +:+ "TESTING ANONYMOUS ACCESS")];;
  print [Lit (repeat_str "=" 50)];;
  for_each tables test_table.

(** *** The storage check *)

Section WithStr.

(** [str(x)] of a decoded value, as an f-string writes it into a URL. *)
Variable py_str : json → string.

Definition storage_request : request :=
  Request GET (SUPABASE_URL +:+ "/storage/v1/bucket") SERVICE_ROLE_KEY [] None None.

(** [requests.post(files_url, headers=headers, json={})]. *)
Definition files_request (bucket_name : json) : request :=
  Request POST (SUPABASE_URL +:+ "/storage/v1/object/list/" +:+ py_str bucket_name)
    SERVICE_ROLE_KEY [] (Some (JObj [])) None.

(** The body of [for bucket in buckets]. *)
Definition check_bucket (bucket : json) : prog unit unit :=
  bucket_name ← py_get bucket "name" JNull;
  public ← py_get bucket "public" (JBool false);
  print [Lit "  - "; Val bucket_name; Lit ": ";
         Lit (if truthy public then "Public" else "Private")];;
  files_response ← send (files_request bucket_name);
  if Z.eqb (status_code files_response) 200 then
    files ← response_json files_response;
    n ← len files;
    print [Lit "    Files in bucket: "; Num n]
  else
    print [Lit "    Could not list files: "; Num (status_code files_response)].

Definition storage_error (e : exn) : line := [Lit "❌ Storage API error: "; Lit (exn_msg e)].

(** The [try] block of [check_storage_access]. *)
Definition list_buckets : prog unit unit :=
  response ← send storage_request;
  if Z.eqb (status_code response) 200 then
    buckets ← response_json response;
    n ← len buckets;
    print [Lit "✅ Storage API accessible - "; Num n; Lit " buckets found"];;
    items ← py_iter buckets;
    for_each items check_bucket
  else
    print [Lit "❌ Storage API not accessible: "; Num (status_code response)].

Definition check_storage_access : prog unit unit :=
  print [Lit (nl +:+ "TESTING STORAGE ACCESS")];;
  print [Lit (repeat_str "=" 50)];;
  try_except list_buckets is_exception (λ e, print (storage_error e)).

(** *** The summary of the sample data *)

Definition summary_request (table : string) : request :=
  Request GET (SUPABASE_URL +:+ "/rest/v1/" +:+ table) SERVICE_ROLE_KEY [] None None.

(** The body of [for prop in properties]. *)
Definition summarize_property (prop : json) : prog unit unit :=
  name ← py_item prop "name";
  location ← py_item prop "location";
  featured ← py_item prop "featured";
  print [Lit "  - "; Val name; Lit " ("; Val location; Lit ") - Featured: "; Val featured].

(** Lines 89 to 95. *)
Definition properties_summary : prog unit unit :=
  response ← send (summary_request "properties");
  if Z.eqb (status_code response) 200 then
    properties ← response_json response;
    n ← len properties;
    print [Lit "Properties: "; Num n; Lit " records"];;
    items ← py_iter properties;
    for_each items summarize_property
  else Ret tt.

(** Lines 98 to 108. *)
Definition settings_summary : prog unit unit :=
  response ← send (summary_request "site_settings");
  if Z.eqb (status_code response) 200 then
    settings ← response_json response;
    if truthy settings then
      setting ← py_index0 settings;
      print [Lit (nl +:+ "Site Settings: 1 record")];;
      site_name ← py_item setting "site_name";
      print [Lit "  - Site: "; Val site_name];;
      tagline ← py_item setting "tagline";
      print [Lit "  - Tagline: "; Val tagline];;
      email ← py_item setting "email";
      print [Lit "  - Email: "; Val email];;
      phone ← py_item setting "phone";
      print [Lit "  - Phone: "; Val phone]
    else Ret tt
  else Ret tt.

Definition get_sample_data_summary : prog unit unit :=
  print [Lit (nl +:+ "SAMPLE DATA SUMMARY")];;
  print [Lit (repeat_str "=" 50)];;
  properties_summary;;
  settings_summary.

(** The lines that close [main]. *)
Definition closing_lines : list line :=
  [[Lit (nl +:+ repeat_str "=" 60)];
   [Lit "VERIFICATION COMPLETE"];
   [Lit (repeat_str "=" 60)];
   [Lit (nl +:+ "✅ DATABASE SETUP STATUS:")];
   [Lit "- All 5 required tables exist"];
   [Lit "- Properties table has 3 sample properties"];
   [Lit "- Site settings table has default configuration"];
   [Lit "- Storage buckets (property-photos, blog-images) exist"];
   [Lit "- Public read access is enabled for all tables"];
   [Lit "- Schema matches expected structure"];
   [Lit (nl +:+ "🎉 Your Supabase database is ready for use!")]].

Definition main : prog unit unit :=
  print [Lit "FINAL SUPABASE DATABASE VERIFICATION"];;
  print [Lit (repeat_str "=" 60)];;
  print [Lit "Checking all aspects of your database setup..."];;
  call test_anon_access tt;;
  call check_storage_access tt;;
  call get_sample_data_summary tt;;
  for_each closing_lines print.

End WithStr.

End FinalVerification.

(** ** schema_verification.py *)

Module SchemaVerification.

Definition SUPABASE_URL : string := "https://pzrdkijtktgdwayjzbfu.supabase.co".

(** [s.upper()] on ASCII text. *)
Definition upper_char (c : Ascii.ascii) : Ascii.ascii :=
  let n := Ascii.nat_of_ascii c in
  if (Nat.leb 97 n && Nat.leb n 122)%bool then Ascii.ascii_of_nat (n - 32) else c.

Fixpoint upper (s : string) : string :=
  match s with
  | EmptyString => EmptyString
  | String c s' => String (upper_char c) (upper s')
  end.

Definition schema_request (table_name : string) : request :=
  Request GET (SUPABASE_URL +:+ "/rest/v1/" +:+ table_name +:+ "?limit=1")
    SERVICE_ROLE_KEY [] None None.

(** [check_table_schema(table_name)]: the first row of the table, or
    [None]. *)
Definition check_table_schema {L} (table_name : string) : prog L json :=
  response ← send (schema_request table_name);
  if Z.eqb (status_code response) 200 then
    data ← response_json response;
    if truthy data then py_index0 data else Ret JNull
  else Ret JNull.

(** [expected_schemas.items()], in insertion order. *)
Definition expected_schemas : list (string * list string) :=
  [ ("properties",
     ["id"; "name"; "slug"; "description"; "short_description";
      "location"; "address"; "map_url"; "airbnb_url"; "airbnb_ical_url";
      "amenities"; "featured"; "active"; "display_order"; "created_at"; "updated_at"]);
    ("property_photos",
     ["id"; "property_id"; "url"; "alt_text"; "display_order";
      "is_primary"; "created_at"; "updated_at"]);
    ("calendar_events",
     ["id"; "property_id"; "event_date"; "event_type"; "price";
      "notes"; "created_at"; "updated_at"]);
    ("blog_posts",
     ["id"; "title"; "slug"; "excerpt"; "content"; "featured_image_url";
      "author"; "status"; "published_at"; "created_at"; "updated_at"]);
    ("site_settings",
     ["id"; "site_name"; "tagline"; "description"; "phone"; "email";
      "facebook_url"; "messenger_url"; "address"; "logo_url";
      "hero_title"; "hero_subtitle"; "about_title"; "about_content";
      "created_at"; "updated_at"]) ].

(** [list(sample_row.keys())]: only a dict has the method. *)
Definition keys {L} (x : json) : prog L (list string) :=
  match x with
  | JObj d => Ret (dict_keys d)
  | _ => raise AttributeError ("'" +:+ type_name x +:+ "' object has no attribute 'keys'")
  end.

(** [set(xs) - set(ys)]. *)
Definition set_diff (xs ys : list string) : gset string :=
  list_to_set xs ∖ list_to_set ys.

Definition all_present : line := [Lit "✅ All expected columns present and no extras"].
Definition missing_line (missing_columns : list string) : line :=
  [Lit "❌ Missing columns: "; Val (JArr (JStr <$> missing_columns))].
Definition extra_line (extra_columns : list string) : line :=
  [Lit "⚠️  Extra columns: "; Val (JArr (JStr <$> extra_columns))].

Section WithSetOrder.

(** [list(set(xs) - set(ys))]: the elements of the difference, in the
    order in which Python iterates the set.  That order follows the
    hashes of the strings, which change with the hash seed of each
    process, and the history of the set; it is a parameter here, and
    [lists_difference] below says what can be relied on. *)
Variable set_listing : list string → list string → list string.

(** Lines 71 to 80 of [main]: the comparison of the two column lists. *)
Definition compare_columns {L} (expected_columns actual_columns : list string) : prog L unit :=
  let missing_columns := set_diff expected_columns actual_columns in
  let extra_columns := set_diff actual_columns expected_columns in
  if bool_decide (missing_columns = ∅) && bool_decide (extra_columns = ∅) then
    print all_present
  else
    (if bool_decide (missing_columns = ∅) then Ret tt
     else print (missing_line (set_listing expected_columns actual_columns)));;
    (if bool_decide (extra_columns = ∅) then Ret tt
     else print (extra_line (set_listing actual_columns expected_columns))).

(** The body of [for table_name, expected_columns in
    expected_schemas.items()]. *)
Definition check_table (item : string * list string) : prog unit unit :=
  let '(table_name, expected_columns) := item in
  print [Lit (nl +:+ "Checking "); Lit (upper table_name); Lit " table:"];;
  print [Lit (repeat_str "-" 40)];;
  sample_row ← check_table_schema table_name;
  if truthy sample_row then
    actual_columns ← keys sample_row;
    print [Lit "✅ Table exists with "; Num (Z.of_nat (length actual_columns)); Lit " columns"];;
    compare_columns expected_columns actual_columns;;
    print [Lit "Actual columns: "; Val (JArr (JStr <$> actual_columns))]
  else
    print [Lit "⚠️  Table exists but is empty - cannot verify full schema"].

Definition main : prog unit unit :=
  print [Lit "SCHEMA VERIFICATION"];;
  print [Lit (repeat_str "=" 60)];;
  for_each expected_schemas check_table.

End WithSetOrder.

(** What every Python guarantees of the order: the listing has each
    element of the difference once and nothing else. *)
Definition lists_difference (set_listing : list string → list string → list string) : Prop :=
  ∀ xs ys, NoDup (set_listing xs ys) ∧ ∀ c, c ∈ set_listing xs ys ↔ c ∈ xs ∧ c ∉ ys.

(** Two orders that a process can show. *)
Definition sorted_listing (xs ys : list string) : list string := elements (set_diff xs ys).
Definition reversed_listing (xs ys : list string) : list string :=
  reverse (elements (set_diff xs ys)).

End SchemaVerification.

(** ** execute_schema.py *)

Module ExecuteSchema.

(** A call on the connection or cursor: raises, or returns its rows. *)
Definition db {L} (op : db_op) : prog L (list (list json)) :=
  Db op (λ o, match o with
              | DbFailed e => Raise (Exc e)
              | DbRows rows => Ret rows
              end).

(** [row[i]] on a result tuple. *)
Definition column {L} (row : list json) (i : nat) : prog L json :=
  match row !! i with
  | Some v => Ret v
  | None => raise IndexError "tuple index out of range"
  end.

(** [cursor.fetchone()[0]]; [fetchone] yields [None] when no row is
    left. *)
Definition fetchone {L} : prog L (list json) :=
  rows ← db DbFetchOne;
  match rows with
  | row :: _ => Ret row
  | [] => raise TypeError "'NoneType' object is not subscriptable"
  end.

(** [x > 0]. *)
Definition positive {L} (x : json) : prog L bool :=
  match x with
  | JNum z => Ret (Z.ltb 0 z)
  | JBool b => Ret b
  | _ => raise TypeError ("'>' not supported between instances of '" +:+ type_name x +:+ "' and 'int'")
  end.

(** [print(f"    - {prop[0]} ({prop[1]})")]. *)
Definition print_property {L} (prop : list json) : prog L unit :=
  a ← column prop 0;
  b ← column prop 1;
  print [Lit "    - "; Val a; Lit " ("; Val b; Lit ")"].

(** [print(f"  - {row[0]} on {row[1]}")]. *)
Definition print_on {L} (row : list json) : prog L unit :=
  a ← column row 0;
  b ← column row 1;
  print [Lit "  - "; Val a; Lit " on "; Val b].

Definition select_tables : string := "
            SELECT table_name
            FROM information_schema.tables
            WHERE table_schema = 'public'
            AND table_type = 'BASE TABLE'
            ORDER BY table_name;
        ".

Definition select_indexes : string := "
            SELECT indexname, tablename
            FROM pg_indexes
            WHERE schemaname = 'public'
            AND indexname LIKE 'idx_%'
            ORDER BY tablename, indexname;
        ".

Definition select_triggers : string := "
            SELECT trigger_name, event_object_table
            FROM information_schema.triggers
            WHERE trigger_schema = 'public'
            ORDER BY event_object_table, trigger_name;
        ".

(** The [try] block of [execute_schema]. *)
Definition connect_and_execute (schema_sql : string) : prog unit bool :=
  print [Lit "Connecting to Supabase PostgreSQL database..."];;
  db DbConnect;;
  db DbSetIsolationLevel;;
  db DbCursor;;
  print [Lit "✓ Connection successful!"];;
  print [Lit "Executing schema..."];;
  db (DbExecute schema_sql);;
  print [Lit "✓ Schema executed successfully!"];;
  print [Lit (nl +:+ "Verifying table creation...")];;
  db (DbExecute select_tables);;
  tables ← db DbFetchAll;
  print [Lit "✓ Created "; Num (Z.of_nat (length tables)); Lit " tables:"];;
  for_each tables (λ table, t ← column table 0; print [Lit "  - "; Val t]);;
  print [Lit (nl +:+ "Verifying sample data...")];;
  db (DbExecute "SELECT COUNT(*) FROM properties;");;
  row ← fetchone;
  property_count ← column row 0;
  print [Lit "✓ Properties table: "; Val property_count; Lit " records"];;
  some ← positive property_count;
  (if some : bool then
     db (DbExecute "SELECT name, slug FROM properties ORDER BY display_order;");;
     properties ← db DbFetchAll;
     print [Lit "  Sample properties:"];;
     for_each properties print_property
   else Ret tt);;
  db (DbExecute "SELECT COUNT(*) FROM site_settings;");;
  row ← fetchone;
  settings_count ← column row 0;
  print [Lit "✓ Site settings table: "; Val settings_count; Lit " records"];;
  some ← positive settings_count;
  (if some : bool then
     db (DbExecute "SELECT site_name, tagline FROM site_settings LIMIT 1;");;
     settings ← fetchone;
     site_name ← column settings 0;
     print [Lit "  Site name: "; Val site_name];;
     tagline ← column settings 1;
     print [Lit "  Tagline: "; Val tagline]
   else Ret tt);;
  print [Lit (nl +:+ "Verifying indexes...")];;
  db (DbExecute select_indexes);;
  indexes ← db DbFetchAll;
  print [Lit "✓ Created "; Num (Z.of_nat (length indexes)); Lit " custom indexes:"];;
  for_each indexes print_on;;
  print [Lit (nl +:+ "Verifying triggers...")];;
  db (DbExecute select_triggers);;
  triggers ← db DbFetchAll;
  print [Lit "✓ Created "; Num (Z.of_nat (length triggers)); Lit " triggers:"];;
  for_each triggers print_on;;
  print [Lit (nl +:+ repeat_str "=" 60)];;
  print [Lit "🎉 DATABASE SETUP COMPLETED SUCCESSFULLY!"];;
  print [Lit (repeat_str "=" 60)];;
  print [Lit "✓ "; Num (Z.of_nat (length tables)); Lit " tables created"];;
  print [Lit "✓ "; Num (Z.of_nat (length indexes)); Lit " custom indexes created"];;
  print [Lit "✓ "; Num (Z.of_nat (length triggers)); Lit " update triggers created"];;
  print [Lit "✓ "; Val property_count; Lit " sample properties inserted"];;
  print [Lit "✓ "; Val settings_count; Lit " site settings record inserted"];;
  print [Lit "✓ Row Level Security enabled on all tables"];;
  print [Lit "✓ Public and service role policies created"];;
  print [Lit "✓ UUID extension enabled"];;
  print [Lit "✓ Update timestamp function created"];;
  db DbCursorClose;;
  db DbConnClose;;
  print [Lit (nl +:+ "Database connection closed.")];;
  Ret true.

Definition database_error (e : exn) : line := [Lit "❌ Database error: "; Lit (exn_msg e)].
Definition unexpected_error (e : exn) : line := [Lit "❌ Unexpected error: "; Lit (exn_msg e)].

(** [execute_schema()].  [read_schema_file] is the same function as in
    execute_schema_api.py.  The handlers: [except psycopg2.Error] first,
    [except Exception] second. *)
Definition execute_schema : prog unit bool :=
  print [Lit "Reading schema file..."];;
  schema_sql ← ExecuteSchemaApi.read_schema_file;
  try_except (connect_and_execute schema_sql) is_exception
    (λ e, if is_psycopg2_error (exn_cls e)
          then print (database_error e);; Ret false
          else print (unexpected_error e);; Ret false).

End ExecuteSchema.

(** ** verify_database.py *)

Module VerifyDatabase.

Definition SUPABASE_URL : string := "https://pzrdkijtktgdwayjzbfu.supabase.co".

(** The dict that [make_request] returns: [success], [data] and
    [status], or [success], [error] and [status]. *)
Inductive result : Type :=
| Success (data : json) (status : Z)
| Failure (error : string) (status : option Z).

Definition success (r : result) : bool :=
  match r with Success _ _ => true | Failure _ _ => false end.

(** [result.get("error")] on a failure. *)
Definition error_of (r : result) : json :=
  match r with Success _ _ => JNull | Failure error _ => JStr error end.

(** [result.get("status")]. *)
Definition status_of (r : result) : option Z :=
  match r with Success _ status => Some status | Failure _ status => status end.

(** The dict that [verify_table_structure] returns. *)
Inductive structure : Type :=
| Structure (columns : list string) (sample_row : json)
| NoStructure (error : json).

Section WithMessage.

(** [str(e)] of the [HTTPError] that [raise_for_status] raises: the
    status, the reason phrase and the URL. *)
Variable http_error_msg : response → string.

(** The statuses on which [raise_for_status] raises. *)
Definition http_error (r : response) : bool :=
  Z.leb 400 (status_code r) && Z.ltb (status_code r) 600.

(** [response.raise_for_status()]. *)
Definition raise_for_status {L} (r : response) : prog L unit :=
  if http_error r then raise RequestException (http_error_msg r) else Ret tt.

Definition rest_request (endpoint : string) (use_service_role : bool) : request :=
  Request GET (SUPABASE_URL +:+ "/rest/v1/" +:+ endpoint)
    (if use_service_role then SERVICE_ROLE_KEY else ANON_KEY) [] None None.

(** [make_request(endpoint, use_service_role)].  The handler reads
    [e.response]: it is the response for the [HTTPError] of
    [raise_for_status], and absent for what [requests.get] and
    [response.json()] raise; hence the two handlers, one for each side
    of the call of [requests.get]. *)
Definition make_request {L} (endpoint : string) (use_service_role : bool) : prog L result :=
  try_except
    (response ← send (rest_request endpoint use_service_role);
     try_except
       (raise_for_status response;;
        data ← response_json response;
        Ret (Success data (status_code response)))
       is_request_exception
       (λ e, Ret (Failure (exn_msg e)
                    (if http_error response then Some (status_code response) else None))))
    is_request_exception
    (λ e, Ret (Failure (exn_msg e) None)).

Definition limit_1 (table_name : string) : string := table_name +:+ "?limit=1".

(** [verify_table_exists(table_name)]. *)
Definition verify_table_exists {L} (table_name : string) : prog L bool :=
  print [Lit "Checking if table '"; Lit table_name; Lit "' exists..."];;
  result ← make_request (limit_1 table_name) true;
  if success result then
    print [Lit "✅ Table '"; Lit table_name; Lit "' exists"];;
    Ret true
  else
    print [Lit "❌ Table '"; Lit table_name; Lit "' does not exist or is not accessible"];;
    print [Lit "   Error: "; Val (error_of result)];;
    Ret false.

(** [verify_table_structure(table_name)]. *)
Definition verify_table_structure {L} (table_name : string) : prog L structure :=
  print [Lit (nl +:+ "Checking structure of table '"); Lit table_name; Lit "'..."];;
  result ← make_request (limit_1 table_name) true;
  match result with
  | Success data _ =>
      if truthy data then
        row ← py_index0 data;
        columns ← SchemaVerification.keys row;
        print [Lit "✅ Table '"; Lit table_name; Lit "' has ";
               Num (Z.of_nat (length columns)); Lit " columns: ";
               Val (JArr (JStr <$> columns))];;
        Ret (Structure columns row)
      else
        print [Lit "✅ Table '"; Lit table_name; Lit "' exists but is empty"];;
        Ret (Structure [] JNull)
  | Failure _ _ =>
      print [Lit "❌ Could not verify structure of table '"; Lit table_name; Lit "'"];;
      Ret (NoStructure (error_of result))
  end.

(** One block of [verify_sample_data]: the request of a table, the count
    of its rows, and what the block does with the rows after that. *)
Definition sample_block {L} (table what : string) (after : json → prog L unit) : prog L unit :=
  print [Lit (nl +:+ "Checking " +:+ table +:+ " table...")];;
  result ← make_request table true;
  match result with
  | Success data _ =>
      n ← len data;
      print [Lit "✅ Found "; Num n; Lit (" " +:+ what)];;
      after data
  | Failure _ _ =>
      print [Lit ("❌ Could not retrieve " +:+ what +:+ ": "); Val (error_of result)]
  end.

Definition show_property {L} (prop : json) : prog L unit :=
  title ← py_get prop "title" (JStr "Unknown");
  price ← py_get prop "price" (JStr "N/A");
  print [Lit "   - "; Val title; Lit ": $"; Val price; Lit "/night"].

Definition show_photo {L} (photo : json) : prog L unit :=
  property_id ← py_get photo "property_id" JNull;
  url ← py_get photo "url" (JStr "N/A");
  print [Lit "   - Photo for property "; Val property_id; Lit ": "; Val url].

Definition show_setting {L} (setting : json) : prog L unit :=
  key ← py_get setting "key" (JStr "Unknown");
  value ← py_get setting "value" (JStr "N/A");
  print [Lit "   - "; Val key; Lit ": "; Val value].

(** [for x in rows: show x]. *)
Definition show_each {L} (show : json → prog L unit) (rows : json) : prog L unit :=
  items ← py_iter rows;
  for_each items show.

Definition heading (title : string) : list line :=
  [[Lit (nl +:+ repeat_str "=" 50)]; [Lit title]; [Lit (repeat_str "=" 50)]].

(** [verify_sample_data()].  The photos are cut to the first five; the
    blocks of the calendar events and of the blog posts print the count
    alone. *)
Definition verify_sample_data {L} : prog L unit :=
  for_each (heading "VERIFYING SAMPLE DATA") print;;
  sample_block "properties" "properties" (show_each show_property);;
  sample_block "property_photos" "property photos"
    (λ photos, shown ← py_slice_to 5 photos; show_each show_photo shown);;
  sample_block "calendar_events" "calendar events" (λ _, Ret tt);;
  sample_block "site_settings" "site settings" (show_each show_setting);;
  sample_block "blog_posts" "blog posts" (λ _, Ret tt).

Definition tables_to_test : list string :=
  ["properties"; "property_photos"; "calendar_events"; "blog_posts"; "site_settings"].

(** The body of [for table in tables_to_test]. *)
Definition test_rls {L} (table : string) : prog L unit :=
  print [Lit (nl +:+ "Testing RLS for '"); Lit table; Lit "' table..."];;
  result ← make_request (limit_1 table) false;
  if success result then
    print [Lit "✅ Anon access to '"; Lit table; Lit "' is allowed (good for public reads)"]
  else if bool_decide (status_of result = Some 401) then
    print [Lit "🔒 Anon access to '"; Lit table; Lit "' is restricted (RLS is active)"]
  else
    print [Lit "⚠️  Unexpected response for '"; Lit table; Lit "': "; Val (error_of result)].

(** [verify_rls_policies()]. *)
Definition verify_rls_policies {L} : prog L unit :=
  for_each (heading "VERIFYING RLS POLICIES") print;;
  for_each tables_to_test test_rls.

Definition storage_request : request :=
  Request GET (SUPABASE_URL +:+ "/storage/v1/bucket") SERVICE_ROLE_KEY [] None None.

(** [[bucket.get("name") for bucket in buckets]]. *)
Fixpoint bucket_names {L} (items : list json) : prog L (list json) :=
  match items with
  | [] => Ret []
  | bucket :: rest =>
      name ← py_get bucket "name" JNull;
      names ← bucket_names rest;
      Ret (name :: names)
  end.

Definition expected_buckets : list string := ["property-photos"; "blog-images"].

(** The body of [for expected in expected_buckets]. *)
Definition check_expected {L} (bucket_names : list json) (expected : string) : prog L unit :=
  if SetupStorage.name_in expected bucket_names then
    print [Lit "✅ Required bucket '"; Lit expected; Lit "' exists"]
  else
    print [Lit "❌ Required bucket '"; Lit expected; Lit "' is missing"].

(** [verify_storage_buckets()]. *)
Definition verify_storage_buckets {L} : prog L unit :=
  for_each (heading "VERIFYING STORAGE BUCKETS") print;;
  try_except
    (response ← send storage_request;
     raise_for_status response;;
     buckets ← response_json response;
     items ← py_iter buckets;
     names ← bucket_names items;
     n ← len buckets;
     print [Lit "✅ Found "; Num n; Lit " storage buckets: "; Val (JArr names)];;
     for_each expected_buckets (check_expected names))
    is_request_exception
    (λ e, print [Lit "❌ Could not retrieve storage buckets: "; Lit (exn_msg e)]).

Definition expected_tables : list string :=
  ["properties"; "property_photos"; "calendar_events"; "blog_posts"; "site_settings"].

(** The first loop of [run_full_verification]: [table_results], in
    insertion order. *)
Fixpoint check_tables {L} (tables : list string) : prog L (list (string * bool)) :=
  match tables with
  | [] => Ret []
  | table :: rest =>
      exists_ ← verify_table_exists table;
      table_results ← check_tables rest;
      Ret ((table, exists_) :: table_results)
  end.

(** [table_results.get(table)], [None] being false. *)
Fixpoint found (table_results : list (string * bool)) (table : string) : bool :=
  match table_results with
  | [] => false
  | (t, exists_) :: rest => if String.eqb t table then exists_ else found rest table
  end.

(** The second loop: the structure of the tables that were found. *)
Definition check_structures {L} (table_results : list (string * bool)) : prog L unit :=
  for_each expected_tables
    (λ table, if found table_results table
              then verify_table_structure table;; Ret tt
              else Ret tt).

(** [all(table_results.values())]. *)
Definition all_tables_exist (table_results : list (string * bool)) : bool :=
  forallb snd table_results.

Definition verdict (table_results : list (string * bool)) : list line :=
  if all_tables_exist table_results then
    [[Lit (nl +:+ "🎉 Database verification completed successfully!")];
     [Lit "Your Supabase database appears to be set up correctly."]]
  else
    [[Lit (nl +:+ "⚠️  Some issues were found during verification.")];
     [Lit "Please check the errors above and ensure your schema was applied correctly."]].

(** Lines 224 to 240. *)
Definition summary {L} (table_results : list (string * bool)) : prog L unit :=
  for_each (heading "VERIFICATION SUMMARY") print;;
  print [Lit "All required tables exist: ";
         Lit (if all_tables_exist table_results then "✅ YES" else "❌ NO")];;
  for_each table_results
    (λ item, print [Lit (if item.2 then "✅" else "❌"); Lit " "; Lit item.1]);;
  for_each (verdict table_results) print.

(** [run_full_verification()]. *)
Definition run_full_verification : prog unit unit :=
  print [Lit (repeat_str "=" 60)];;
  print [Lit "SUPABASE DATABASE VERIFICATION"];;
  print [Lit (repeat_str "=" 60)];;
  for_each (heading "VERIFYING TABLE EXISTENCE") print;;
  table_results ← check_tables expected_tables;
  for_each (heading "VERIFYING TABLE STRUCTURES") print;;
  check_structures table_results;;
  call verify_sample_data tt;;
  call verify_rls_policies tt;;
  call verify_storage_buckets tt;;
  summary table_results.

Definition main : prog unit unit := call run_full_verification tt.

End WithMessage.

End VerifyDatabase.

(** ** Observations on runs *)

(** The replies a run has received from the outside world. *)
Definition received (w : world) : list outcome * list db_outcome * list file_outcome :=
  ((http_log w).*2, (db_log w).*2, (file_log w).*2).

(** The HTTP replies alone. *)
Definition responses (w : world) : list outcome := (http_log w).*2.

(** The replies that [n] requests get, the first being request number
    [start] of the process. *)
Definition replies (e : env) (start n : nat) : list outcome :=
  http_reply e <$> seq start n.

(** An environment that answers the HTTP requests with [os] in turn, then
    with [after]; no file can be read and no database reached. *)
Definition canned (os : list outcome) (after : outcome) : env :=
  Env (λ k, nth k os after)
      (λ _, FileFailed (Exn FileNotFoundError "No such file or directory"))
      (λ _, DbFailed (Exn DatabaseError "could not connect to server")).

(** A 200 response with a JSON body and no [Content-Range] header. *)
Definition ok_json (j : json) : outcome :=
  Returned (Response 200 EmptyString (Some j) ∅).

(** The requests a run has sent, in order. *)
Definition requests (w : world) : list request := (http_log w).*1.

(** The requests sent between [w] and a later [w']. *)
Definition issued (w w' : world) : list request :=
  drop (length (http_log w)) (requests w').

(** Every request is answered 200 with an empty JSON list and no
    [Content-Range] header; the schema file can be read. *)
Definition bare_200_env : env :=
  Env (λ _, ok_json (JArr []))
      (λ _, FileContent "CREATE TABLE properties ();")
      (λ _, DbFailed (Exn DatabaseError "could not connect to server")).

(** The first request is answered 200 with the JSON number 5, the others
    200 with an empty list. *)
Definition numeric_body_env : env := canned [ok_json (JNum 5)] (ok_json (JArr [])).

(** The second request fails with a connection error, the others are
    answered 200 with an empty list. *)
Definition one_timeout_env : env :=
  canned [ok_json (JArr []); Failed (Exn RequestException "Connection timed out")]
    (ok_json (JArr [])).

(** [w'] continues [w]: every log of [w] is an initial segment of the
    log of [w']. *)
Definition extends (w w' : world) : Prop :=
  http_log w `prefix_of` http_log w' ∧
  db_log w `prefix_of` db_log w' ∧
  file_log w `prefix_of` file_log w' ∧
  stdout w `prefix_of` stdout w'.

(** Scripts whose only contact with the outside world is HTTP. *)
Inductive http_only {L A} : prog L A → Prop :=
| http_only_Ret a : http_only (Ret a)
| http_only_Raise r : http_only (Raise r)
| http_only_Http q k : (∀ o, http_only (k o)) → http_only (Http q k)
| http_only_Echo ln k : http_only k → http_only (Echo ln k)
| http_only_Load k : (∀ v, http_only (k v)) → http_only (Load k)
| http_only_Store v k : http_only k → http_only (Store v k).

(** The exchange between [w] and a later [w']: requests and replies. *)
Definition exchanged (w w' : world) : list (request * outcome) :=
  drop (length (http_log w)) (http_log w').

(** The listing names both required buckets; anything else is answered
    with a connection error. *)
Definition both_listed_env : env :=
  canned [ok_json (JArr [JObj [("id", JStr "property-photos"); ("name", JStr "property-photos");
                               ("public", JBool false)];
                         JObj [("id", JStr "blog-images"); ("name", JStr "blog-images");
                               ("public", JBool false)]])]
    (Failed (Exn RequestException "Connection refused")).

(** The listing is refused with a 503; every later request is answered
    200 with an empty object. *)
Definition listing_down_env : env :=
  canned [Returned (Response 503 "Service Unavailable" None ∅)] (ok_json (JObj [])).

(** The lines printed between [w] and a later [w']. *)
Definition printed (w w' : world) : list line := drop (length (stdout w)) (stdout w').

(** The schema file can be read, the database cannot be reached. *)
Definition db_down_env : env :=
  Env (λ _, ok_json (JArr []))
      (λ _, FileContent "CREATE TABLE properties ();")
      (λ _, DbFailed (Exn DatabaseError "could not connect to server")).

(** The table has one row, with the columns of [calendar_events] in
    another order, [notes] left out and [status] added. *)
Definition reordered_row_env : env :=
  canned [] (ok_json (JArr [JObj [("updated_at", JNull); ("created_at", JNull);
                                  ("status", JStr "open"); ("price", JNum 100);
                                  ("event_type", JStr "booked"); ("event_date", JNull);
                                  ("property_id", JNum 1); ("id", JNum 7)]])).

(** Seven requests are answered 200 with an empty list, every later one
    fails; no file can be read and no database reached. *)
Definition seven_ok_env : env :=
  canned (replicate 7 (ok_json (JArr []))) (Failed (Exn RequestException "Connection reset")).

(** [c in s]. *)
Fixpoint has_char (c : Ascii.ascii) (s : string) : bool :=
  match s with
  | EmptyString => false
  | String c' s' => Ascii.eqb c' c || has_char c s'
  end.

(** The single request is answered 206 (Partial Content) with one row. *)
Definition partial_content_env : env :=
  canned [] (Returned (Response 206 "[{id: 1}]"
                         (Some (JArr [JObj [("id", JNum 1)]])) ∅)).

(** The first request is answered 200 with a [Content-Range] header that
    has no slash; the others 200 with the header [0-0/3]. *)
Definition no_slash_env : env :=
  canned [Returned (Response 200 "[]" (Some (JArr [])) {[ "content-range" := "0-24" ]})]
    (Returned (Response 200 "[]" (Some (JArr [])) {[ "content-range" := "0-0/3" ]})).

(** ** Shapes of scripts *)

(** Pieces of script that neither send a request, nor call the database,
    nor read a file. *)
Inductive offline {L A} : prog L A → Prop :=
| offline_Ret a : offline (Ret a)
| offline_Raise r : offline (Raise r)
| offline_Echo ln k : offline k → offline (Echo ln k)
| offline_Load k : (∀ v, offline (k v)) → offline (Load k)
| offline_Store v k : offline k → offline (Store v k).

(** Pieces of script that never call [sys.exit]: what they raise is an
    [Exception]. *)
Inductive no_exit {L A} : prog L A → Prop :=
| no_exit_Ret a : no_exit (Ret a)
| no_exit_Raise x : no_exit (Raise (Exc x))
| no_exit_Http q k : (∀ o, no_exit (k o)) → no_exit (Http q k)
| no_exit_Echo ln k : no_exit k → no_exit (Echo ln k)
| no_exit_Load k : (∀ v, no_exit (k v)) → no_exit (Load k)
| no_exit_Store v k : no_exit k → no_exit (Store v k)
| no_exit_ReadFile path k : (∀ o, no_exit (k o)) → no_exit (ReadFile path k)
| no_exit_Db op k : (∀ o, no_exit (k o)) → no_exit (Db op k).

(** The seven requests of a successful [verify_tables] are answered 200
    with one row. *)
Definition one_row_env : env :=
  canned [] (ok_json (JArr [JObj [("name", JStr "Cozy Loft"); ("slug", JStr "cozy-loft")]])).

(** ** Reading the replies to the count requests *)

(** The text that [content_range_count] takes out of a reply to a count
    request, when the request is answered 200 and the header has a field
    after its first slash. *)
Definition count_text (o : outcome) : option string :=
  match o with
  | Returned r =>
      if Z.eqb (status_code r) 200
      then split_on slash (default "0" (resp_headers r !! "content-range")) !! 1%nat
      else None
  | Failed _ => None
  end.

(** The number of records that the loop of [verify_database_setup] adds
    for a reply, when it adds one. *)
Definition record_count (py_int : string → option Z) (o : outcome) : option Z :=
  count_text o ≫= py_int.

(** A 200 response whose [Content-Range] header is [h]. *)
Definition ranged (h : string) : outcome :=
  Returned (Response 200 "[]" (Some (JArr [])) {[ "content-range" := h ]}).

(** Decimal numerals of one digit, enough for the sample runs. *)
Definition digit_int (s : string) : option Z :=
  match s with
  | String c EmptyString =>
      let n := Ascii.nat_of_ascii c in
      if (Nat.leb 48 n && Nat.leb n 57)%bool then Some (Z.of_nat (n - 48)) else None
  | _ => None
  end.

(** The five count requests are answered with 3, 0, 2, 1 and 1 records;
    later requests get an empty list. *)
Definition counted_env : env :=
  canned [ranged "0-2/3"; ranged "*/0"; ranged "0-1/2"; ranged "0-0/1"; ranged "0-0/1"]
    (ok_json (JArr [])).

(** The five count requests are answered 200, the count of the first
    being [*]. *)
Definition star_count_env : env :=
  Env (λ _, ranged "0-24/*")
      (λ _, FileContent "CREATE TABLE properties ();")
      (λ _, DbFailed (Exn DatabaseError "could not connect to server")).

(** A count was read. *)
Definition counted {A} (c : option A) : bool :=
  match c with Some _ => true | None => false end.

Fixpoint sum_counts (cs : list (option Z)) : Z :=
  match cs with
  | [] => 0
  | c :: cs' => default 0 c + sum_counts cs'
  end.

(** The entries that the loop of [check_if_tables_exist] appends to
    [existing_tables] for the tables [ts] answered by [os]. *)
Fixpoint found_tables (ts : list string) (os : list outcome) : list (string * string) :=
  match ts, os with
  | t :: ts', o :: os' =>
      match count_text o with
      | Some c => (t, c) :: found_tables ts' os'
      | None => found_tables ts' os'
      end
  | _, _ => []
  end.

(** The schema file is missing; requests are answered 503. *)
Definition no_schema_env : env :=
  canned [] (Returned (Response 503 "Service Unavailable" None ∅)).

(** The schema file cannot be read for lack of permission. *)
Definition unreadable_schema_env : env :=
  Env (λ _, Returned (Response 503 "Service Unavailable" None ∅))
      (λ _, FileFailed (Exn OtherException "Permission denied"))
      (λ _, DbRows []).

(** The listing is answered 200 with two entries, the second without a
    name; every later request is answered 201. *)
Definition nameless_entry_env : env :=
  canned [ok_json (JArr [JObj [("id", JStr "property-photos"); ("name", JStr "property-photos")];
                         JObj [("id", JStr "blog-images")]])]
    (Returned (Response 201 "{}" (Some (JObj [])) ∅)).

(** The listing is empty, each creation is answered 201 and each request
    for the public flag fails. *)
Definition put_fails_env : env :=
  canned [ok_json (JArr []);
          Returned (Response 201 "{}" (Some (JObj [])) ∅);
          Failed (Exn RequestException "Read timed out");
          Returned (Response 201 "{}" (Some (JObj [])) ∅);
          Returned (Response 500 "Internal Server Error" None ∅)]
    (Failed (Exn RequestException "Connection refused")).

(** Every request is answered 404. *)
Definition not_found_env : env :=
  canned [] (Returned (Response 404 "Not Found" (Some (JObj [("message", JStr "Not Found")])) ∅)).

(** Every request fails with a connection error. *)
Definition offline_env : env :=
  canned [] (Failed (Exn RequestException "Connection refused")).

(** ** Replies that leave a report empty *)

(** A reply after which [get_data] gives a false value: another status
    than 200, or a 200 whose body decodes to a false value (an empty
    list, say). *)
Definition nothing_to_show (o : outcome) : bool :=
  match o with
  | Failed _ => false
  | Returned r =>
      if Z.eqb (status_code r) 200
      then match resp_json r with Some j => negb (truthy j) | None => false end
      else true
  end.

(** The line that [get_data] prints for such a reply. *)
Definition fetch_error (table_name : string) (o : outcome) : list line :=
  match o with
  | Failed _ => []
  | Returned r =>
      if Z.eqb (status_code r) 200 then []
      else [[Lit "Error fetching "; Lit table_name; Lit ": "; Num (status_code r);
             Lit " - "; Lit (resp_text r)]]
  end.

(** The first property has no description; the other tables are empty. *)
Definition null_description_env : env :=
  canned [ok_json (JArr [JObj [("id", JNum 1); ("name", JStr "Cozy Loft");
                               ("slug", JStr "cozy-loft"); ("description", JNull)]])]
         (ok_json (JArr [])).

(** A reply with another status than 200. *)
Definition refused (o : outcome) : bool :=
  match o with
  | Failed _ => false
  | Returned r => negb (Z.eqb (status_code r) 200)
  end.

(** [str(x)] on the values that name a bucket here. *)
Definition str_of_name (x : json) : string :=
  match x with
  | JStr s => s
  | _ => "None"
  end.

(** The storage API lists two buckets; every other request fails. *)
Definition files_down_env : env :=
  canned [ok_json (JArr [JObj [("name", JStr "property-photos"); ("public", JBool true)];
                         JObj [("name", JStr "blog-images"); ("public", JBool false)]])]
         (Failed (Exn RequestException "Connection refused")).

(** The first property has no [location]. *)
Definition no_location_env : env :=
  canned [ok_json (JArr [JObj [("name", JStr "Cozy Loft"); ("featured", JBool true)]])]
         (ok_json (JArr [])).

(** ** Whether the database connection was closed *)

(** The database calls made between [w] and a later [w'], with their
    replies. *)
Definition db_calls (w w' : world) : list (db_op * db_outcome) :=
  drop (length (db_log w)) (db_log w').

(** [conn.close()] was called and returned. *)
Definition closed_ok (call : db_op * db_outcome) : bool :=
  match call with
  | (DbConnClose, DbRows _) => true
  | _ => false
  end.

(** [tracks post c p]: on every path of [p], started with [c] telling
    whether the connection has been closed, an exception is raised only
    while it has not been, [sys.exit] is not called, and a result [a]
    comes with [post c' a] for the flag [c'] at that point. *)
Inductive tracks {L A} (post : bool → A → Prop) : bool → prog L A → Prop :=
| tracks_Ret c a : post c a → tracks post c (Ret a)
| tracks_Raise x : tracks post false (Raise (Exc x))
| tracks_Http c q k : (∀ o, tracks post c (k o)) → tracks post c (Http q k)
| tracks_Echo c ln k : tracks post c k → tracks post c (Echo ln k)
| tracks_Load c k : (∀ v, tracks post c (k v)) → tracks post c (Load k)
| tracks_Store c v k : tracks post c k → tracks post c (Store v k)
| tracks_ReadFile c path k : (∀ o, tracks post c (k o)) → tracks post c (ReadFile path k)
| tracks_Db c op k :
    (∀ o, tracks post (c || closed_ok (op, o)) (k o)) → tracks post c (Db op k).

(** The connection is still open when [p] ends, however it ends. *)
Definition stays_open {L A} (p : prog L A) : Prop := tracks (λ c _, c = false) false p.

(** The schema file can be read and every database call returns one row
    of two zeros. *)
Definition db_up_env : env :=
  Env (λ _, ok_json (JArr []))
      (λ _, FileContent "CREATE TABLE properties ();")
      (λ _, DbRows [[JNum 0; JNum 0]]).

(** ** Replies as verify_database.py reads them *)

(** A reply that [make_request] turns into a success: a response with a
    status outside 400 to 599 and a JSON body. *)
Definition usable (o : outcome) : bool :=
  match o with
  | Failed _ => false
  | Returned r =>
      negb (VerifyDatabase.http_error r) &&
      match resp_json r with Some _ => true | None => false end
  end.

(** What [make_request] makes of a reply; [None] when the request raises
    something else than a [RequestException]. *)
Definition result_of (http_error_msg : response → string) (o : outcome) :
    option VerifyDatabase.result :=
  match o with
  | Failed x =>
      if is_request_exception (exn_cls x)
      then Some (VerifyDatabase.Failure (exn_msg x) None)
      else None
  | Returned r =>
      Some (if VerifyDatabase.http_error r
            then VerifyDatabase.Failure (http_error_msg r) (Some (status_code r))
            else match resp_json r with
                 | Some data => VerifyDatabase.Success data (status_code r)
                 | None => VerifyDatabase.Failure "Expecting value" None
                 end)
  end.

(** What the server says of a failed request, for the examples. *)
Definition reason (r : response) : string := resp_text r.

(** Every request is answered 401. *)
Definition unauthorized_env : env :=
  canned [] (Returned (Response 401 "Unauthorized" None ∅)).

(** The first two tables are found, the third is forbidden; then empty
    lists. *)
Definition two_found_env : env :=
  canned [ok_json (JArr []); ok_json (JArr []);
          Returned (Response 403 "Forbidden" None ∅)]
         (ok_json (JArr [])).

(** ** Output that differs in the order of a listing only *)

(** Two pieces that print the same thing, except that a list may show
    its items in another order. *)
Inductive same_piece : piece → piece → Prop :=
| same_piece_refl p : same_piece p p
| same_piece_perm xs ys : xs ≡ₚ ys → same_piece (Val (JArr xs)) (Val (JArr ys)).

Definition same_line : line → line → Prop := Forall2 same_piece.

Definition same_output : list line → list line → Prop := Forall2 same_line.

(** Two scripts that do the same thing at every step and print lines
    that are the same up to such orders. *)
Inductive sim {L A} : prog L A → prog L A → Prop :=
| sim_Ret a : sim (Ret a) (Ret a)
| sim_Raise r : sim (Raise r) (Raise r)
| sim_Http q k1 k2 : (∀ o, sim (k1 o) (k2 o)) → sim (Http q k1) (Http q k2)
| sim_Echo ln1 ln2 k1 k2 : same_line ln1 ln2 → sim k1 k2 → sim (Echo ln1 k1) (Echo ln2 k2)
| sim_Load k1 k2 : (∀ v, sim (k1 v) (k2 v)) → sim (Load k1) (Load k2)
| sim_Store v k1 k2 : sim k1 k2 → sim (Store v k1) (Store v k2)
| sim_ReadFile path k1 k2 : (∀ o, sim (k1 o) (k2 o)) → sim (ReadFile path k1) (ReadFile path k2)
| sim_Db op k1 k2 : (∀ o, sim (k1 o) (k2 o)) → sim (Db op k1) (Db op k2).

(** The HTTP replies received between [w] and a later [w']. *)
Definition received_since (w w' : world) : list outcome :=
  drop (length (http_log w)) (responses w').

(** The sampled row of every table is the empty object. *)
Definition empty_row_env : env := canned [] (ok_json (JArr [JObj []])).

(** The sampled row has the columns of [property_photos], in another
    order. *)
Definition shuffled_row_env : env :=
  canned [] (ok_json (JArr [JObj [("url", JStr "a.jpg"); ("id", JNum 1);
                                  ("updated_at", JNull); ("is_primary", JBool true);
                                  ("alt_text", JNull); ("property_id", JNum 1);
                                  ("created_at", JNull); ("display_order", JNum 0)]])).

(** The sampled row of every table has the column [id] alone. *)
Definition id_only_env : env := canned [] (ok_json (JArr [JObj [("id", JNum 1)]])).

(** The listing is answered 200 with a body that is not a list of
    buckets; every later request is answered 200 with an empty object. *)
Definition odd_listing_env : env :=
  canned [ok_json (JArr [JObj [("id", JStr "property-photos")]])] (ok_json (JObj [])).

(** ** Counting requests *)

(** A script that sends the request [q], whatever happens, and nothing
    after it. *)
Inductive asks {L A} (q : request) : prog L A → Prop :=
| asks_Http k : (∀ o, offline (k o)) → asks q (Http q k)
| asks_Echo ln k : asks q k → asks q (Echo ln k)
| asks_Load k : (∀ v, asks q (k v)) → asks q (Load k)
| asks_Store v k : asks q k → asks q (Store v k).

(** A script that has sent the requests [qs], in this order, whenever it
    returns. *)
Definition sends {L A} (qs : list request) (p : prog L A) : Prop :=
  ∀ e l w a, res (run p e l w) = Returns a →
    requests (final (run p e l w)) = requests w ++ qs.

(** The tables whose structure [run_full_verification] goes on to
    check. *)
Definition structure_tables (table_results : list (string * bool)) : list string :=
  filter (λ table, VerifyDatabase.found table_results table = true)
    VerifyDatabase.expected_tables.

(** * Properties *)

(** ** Running composed scripts *)

Section RunLemmas.
Context {L : Type}.
Implicit Types (e : env) (l : L) (w : world).

Lemma run_bind {A B} (p : prog L A) (f : A → prog L B) e l w :
  run (p ≫= f) e l w =
  match res (run p e l w) with
  | Returns a => run (f a) e (frame (run p e l w)) (final (run p e l w))
  | Raises x => RunResult (Raises x) (frame (run p e l w)) (final (run p e l w))
  end.
Proof.
  unfold mbind, prog_bind. revert l w.
  induction p as [a|r|q k IH|ln k IH|k IH|v k IH|path k IH|op k IH];
    intros l w; simpl; auto.
Qed.

Lemma run_try_except {A} (p : prog L A) cls h e l w :
  run (try_except p cls h) e l w =
  match res (run p e l w) with
  | Raises (Exc x) =>
      if cls (exn_cls x)
      then run (h x) e (frame (run p e l w)) (final (run p e l w))
      else run p e l w
  | _ => run p e l w
  end.
Proof.
  revert l w.
  induction p as [a|r|q k IH|ln k IH|k IH|v k IH|path k IH|op k IH];
    intros l w; simpl; auto.
  destruct r as [x|c]; simpl; auto. destruct (cls (exn_cls x)); auto.
Qed.

Lemma run_try_bare {A} (p h : prog L A) e l w :
  run (try_bare p h) e l w =
  match res (run p e l w) with
  | Raises _ => run h e (frame (run p e l w)) (final (run p e l w))
  | Returns _ => run p e l w
  end.
Proof.
  revert l w.
  induction p as [a|r|q k IH|ln k IH|k IH|v k IH|path k IH|op k IH];
    intros l w; simpl; auto.
Qed.

Lemma run_call {L' A} (p : prog L' A) (l' : L') e l w :
  run (call p l') e l w =
  RunResult (res (run p e l' w)) l (final (run p e l' w)).
Proof.
  revert l' w.
  induction p as [a|r|q k IH|ln k IH|k IH|v k IH|path k IH|op k IH];
    intros l' w; simpl; auto.
Qed.

Lemma run_for_each_nil {X} (body : X → prog L unit) e l w :
  run (for_each [] body) e l w = RunResult (Returns tt) l w.
Proof. reflexivity. Qed.

Lemma run_for_each_cons {X} (x : X) xs (body : X → prog L unit) e l w :
  run (for_each (x :: xs) body) e l w =
  match res (run (body x) e l w) with
  | Returns _ =>
      run (for_each xs body) e (frame (run (body x) e l w)) (final (run (body x) e l w))
  | Raises r =>
      RunResult (Raises r) (frame (run (body x) e l w)) (final (run (body x) e l w))
  end.
Proof.
  change (for_each (x :: xs) body) with (body x ≫= λ _, for_each xs body).
  apply run_bind.
Qed.

Lemma run_print ln e l w : run (print ln) e l w = RunResult (Returns tt) l (emit w ln).
Proof. reflexivity. Qed.

Lemma run_send q e l w :
  run (send q) e l w =
  let o := http_reply e (length (http_log w)) in
  RunResult (match o with Failed x => Raises (Exc x) | Returned r => Returns r end)
    l (log_http w q o).
Proof. simpl. destruct (http_reply e (length (http_log w))); reflexivity. Qed.

End RunLemmas.

(** ** A run only adds to the logs *)

Global Instance extends_preorder : PreOrder extends.
Proof.
  split.
  - intros w. repeat split; reflexivity.
  - intros w1 w2 w3 (?&?&?&?) (?&?&?&?). repeat split; etrans; eauto.
Qed.

Lemma extends_log_http w q o : extends w (log_http w q o).
Proof. repeat split; simpl; try reflexivity. by apply prefix_app_r. Qed.

Lemma extends_log_db w op o : extends w (log_db w op o).
Proof. repeat split; simpl; try reflexivity. by apply prefix_app_r. Qed.

Lemma extends_log_file w path o : extends w (log_file w path o).
Proof. repeat split; simpl; try reflexivity. by apply prefix_app_r. Qed.

Lemma extends_emit w ln : extends w (emit w ln).
Proof. repeat split; simpl; try reflexivity. by apply prefix_app_r. Qed.

Lemma run_extends {L A} (p : prog L A) e l w : extends w (final (run p e l w)).
Proof.
  revert l w.
  induction p as [a|r|q k IH|ln k IH|k IH|v k IH|path k IH|op k IH];
    intros l w; simpl; try reflexivity; auto.
  - etrans; [apply extends_log_http|apply IH].
  - etrans; [apply extends_emit|apply IH].
  - etrans; [apply extends_log_file|apply IH].
  - etrans; [apply extends_log_db|apply IH].
Qed.

(** ** A run is determined by the replies it receives *)

Lemma snd_log_inv {X Y} (l k1 k2 : list (X * Y)) x1 x2 y1 y2 :
  (l ++ [(x1, y1)]) `prefix_of` k1 → (l ++ [(x2, y2)]) `prefix_of` k2 →
  k1.*2 = k2.*2 → y1 = y2.
Proof.
  intros [r1 ->] [r2 ->] Heq.
  rewrite !fmap_app in Heq. simpl in Heq.
  rewrite <- !(assoc_L (++)) in Heq.
  apply app_inv_head in Heq. simpl in Heq. congruence.
Qed.

Theorem run_determined {L A} (p : prog L A) e1 e2 l w :
  received (final (run p e1 l w)) = received (final (run p e2 l w)) →
  run p e1 l w = run p e2 l w.
Proof.
  revert l w.
  induction p as [a|r|q k IH|ln k IH|k IH|v k IH|path k IH|op k IH];
    intros l w Heq; simpl in *; auto.
  - assert (http_reply e1 (length (http_log w)) = http_reply e2 (length (http_log w))) as Ho.
    { unfold received in Heq.
      assert (Hh : (http_log (final (run (k (http_reply e1 (length (http_log w)))) e1 l
                     (log_http w q (http_reply e1 (length (http_log w))))))).*2 =
                   (http_log (final (run (k (http_reply e2 (length (http_log w)))) e2 l
                     (log_http w q (http_reply e2 (length (http_log w))))))).*2)
        by congruence.
      eapply (snd_log_inv (http_log w)); [| |exact Hh];
        apply (run_extends _ _ _ (log_http w q _)). }
    rewrite <- Ho in *. by apply IH.
  - assert (file_reply e1 path = file_reply e2 path) as Ho.
    { unfold received in Heq.
      assert (Hh : (file_log (final (run (k (file_reply e1 path)) e1 l
                     (log_file w path (file_reply e1 path))))).*2 =
                   (file_log (final (run (k (file_reply e2 path)) e2 l
                     (log_file w path (file_reply e2 path))))).*2)
        by congruence.
      eapply (snd_log_inv (file_log w)); [| |exact Hh];
        apply (run_extends _ _ _ (log_file w path _)). }
    rewrite <- Ho in *. by apply IH.
  - assert (db_reply e1 (length (db_log w)) = db_reply e2 (length (db_log w))) as Ho.
    { unfold received in Heq.
      assert (Hh : (db_log (final (run (k (db_reply e1 (length (db_log w)))) e1 l
                     (log_db w op (db_reply e1 (length (db_log w))))))).*2 =
                   (db_log (final (run (k (db_reply e2 (length (db_log w)))) e2 l
                     (log_db w op (db_reply e2 (length (db_log w))))))).*2)
        by congruence.
      eapply (snd_log_inv (db_log w)); [| |exact Hh];
        apply (run_extends _ _ _ (log_db w op _)). }
    rewrite <- Ho in *. by apply IH.
Qed.

(** ** Scripts that only use HTTP *)

Section HttpOnly.
Context {L : Type}.

Lemma http_only_bind {A B} (p : prog L A) (f : A → prog L B) :
  http_only p → (∀ a, http_only (f a)) → http_only (p ≫= f).
Proof.
  unfold mbind, prog_bind. intros Hp Hf.
  induction Hp; simpl; auto; by constructor.
Qed.

Lemma http_only_try_except {A} (p : prog L A) cls h :
  http_only p → (∀ x, http_only (h x)) → http_only (try_except p cls h).
Proof.
  intros Hp Hh. induction Hp; simpl; auto; try by constructor.
  destruct r as [x|c]; [destruct (cls (exn_cls x))|]; auto; constructor.
Qed.

Lemma http_only_try_bare {A} (p h : prog L A) :
  http_only p → http_only h → http_only (try_bare p h).
Proof. intros Hp Hh. induction Hp; simpl; auto; by constructor. Qed.

Lemma http_only_call {L' A} (p : prog L' A) (l' : L') :
  http_only p → http_only (call (L:=L) p l').
Proof.
  intros Hp. revert l'. induction Hp; intros l'; simpl; auto; by constructor.
Qed.

Lemma http_only_for_each {X} (xs : list X) (body : X → prog L unit) :
  (∀ x, http_only (body x)) → http_only (for_each xs body).
Proof.
  intros Hb. induction xs as [|x xs IH]; simpl; [constructor|].
  apply http_only_bind; auto.
Qed.

Lemma http_only_print ln : http_only (print (L:=L) ln).
Proof. repeat constructor. Qed.

Lemma http_only_load : http_only (load (L:=L)).
Proof. repeat constructor. Qed.

Lemma http_only_store v : http_only (store (L:=L) v).
Proof. repeat constructor. Qed.

Lemma http_only_send q : http_only (send (L:=L) q).
Proof. constructor. intros [x|r]; constructor. Qed.

Lemma http_only_response_json r : http_only (response_json (L:=L) r).
Proof. unfold response_json. destruct (resp_json r); constructor. Qed.

Lemma http_only_len x : http_only (len (L:=L) x).
Proof. unfold len. destruct (py_len x); constructor. Qed.

Lemma http_only_py_get x key d : http_only (py_get (L:=L) x key d).
Proof. destruct x; constructor. Qed.

Lemma http_only_py_index0 x : http_only (py_index0 (L:=L) x).
Proof. destruct x as [| | |[|c s]|[|v l]|]; constructor. Qed.

Lemma http_only_py_iter x : http_only (py_iter (L:=L) x).
Proof. destruct x; constructor. Qed.

Lemma http_only_content_range_count r : http_only (content_range_count (L:=L) r).
Proof. unfold content_range_count. destruct (_ !! _); constructor. Qed.

Lemma http_only_int py_int s : http_only (ExecuteSchemaApi.int (L:=L) py_int s).
Proof. unfold ExecuteSchemaApi.int. destruct (py_int s); constructor. Qed.

Lemma http_only_logs {A} (p : prog L A) e l w :
  http_only p →
  db_log (final (run p e l w)) = db_log w ∧ file_log (final (run p e l w)) = file_log w.
Proof.
  intros Hp. revert l w. induction Hp as [a|r|q k _ IH|ln k _ IH|k _ IH|v k _ IH];
    intros l w; simpl; auto.
  - apply (IH _ l (log_http w q _)).
  - apply (IH l (emit w ln)).
Qed.

(** A script of this kind is determined by the HTTP replies alone. *)
Lemma http_only_determined {A} (p : prog L A) e1 e2 l w :
  http_only p →
  responses (final (run p e1 l w)) = responses (final (run p e2 l w)) →
  run p e1 l w = run p e2 l w.
Proof.
  intros Hp Hr. apply run_determined. unfold received.
  destruct (http_only_logs p e1 l w Hp) as [-> ->].
  destruct (http_only_logs p e2 l w Hp) as [-> ->].
  unfold responses in Hr. by rewrite Hr.
Qed.

End HttpOnly.

Create HintDb http_only.
#[export] Hint Resolve http_only_bind http_only_try_except http_only_try_bare
  http_only_call http_only_for_each http_only_print http_only_load http_only_store
  http_only_send http_only_response_json http_only_len http_only_py_get
  http_only_py_index0 http_only_py_iter http_only_content_range_count
  http_only_int http_only_Ret http_only_Raise : http_only.

(** Decides [http_only] for a script written with the statements above. *)
Ltac http_only_step :=
  match goal with
  | |- ∀ _, _ => intro
  | |- http_only (if ?b then _ else _) => destruct b
  | |- http_only (match ?x with _ => _ end) => destruct x
  | |- http_only (_ ≫= _) => apply http_only_bind
  | |- http_only (try_except _ _ _) => apply http_only_try_except
  | |- http_only (try_bare _ _) => apply http_only_try_bare
  | |- http_only (for_each _ _) => apply http_only_for_each
  | |- http_only (call _ _) => apply http_only_call
  | |- http_only _ => solve [auto with http_only]
  end.
Ltac http_only_tac := repeat http_only_step.

Lemma verify_tables_http_only : http_only VerifySchema.verify_tables.
Proof.
  unfold VerifySchema.verify_tables, VerifySchema.check_tables, VerifySchema.check_table,
    VerifySchema.check_sample_data, VerifySchema.check_site_settings,
    VerifySchema.print_property, raise.
  http_only_tac.
Qed.

Lemma report_sample_data_http_only {L} py_int (xs : list (string * string)) :
  http_only (ExecuteSchemaApi.report_sample_data (L:=L) py_int xs).
Proof.
  induction xs as [|[t c] xs IH]; simpl; [constructor|].
  destruct (String.eqb t "properties"); auto.
  apply http_only_bind; [apply http_only_int|].
  intros n. destruct (Z.ltb 0 n); auto with http_only.
Qed.

Lemma check_if_tables_exist_http_only py_int :
  http_only (ExecuteSchemaApi.check_if_tables_exist py_int).
Proof.
  pose proof (@report_sample_data_http_only (list (string * string)) py_int).
  unfold ExecuteSchemaApi.check_if_tables_exist, ExecuteSchemaApi.check_table.
  http_only_tac.
Qed.


(** ** verify_schema.py: the loop and the exit status *)

Lemma replies_S e start n : replies e start (S n) = http_reply e start :: replies e (S start) n.
Proof. reflexivity. Qed.

Lemma run_check_table t e l w :
  let o := http_reply e (length (http_log w)) in
  let r := run (VerifySchema.check_table t) e l w in
  http_log (final r) = http_log w ++ [(VerifySchema.existence_request t, o)] ∧
  (if VerifySchema.handled o
   then res r = Returns tt ∧ frame r = (if VerifySchema.clean o then l else false)
   else ∃ x, res r = Raises (Exc x) ∧ is_request_exception (exn_cls x) = false).
Proof.
  intros o r. subst o r. unfold VerifySchema.check_table.
  unfold mbind, prog_bind. simpl.
  destruct (http_reply e (length (http_log w))) as [x|[st txt js hd]]; simpl.
  - destruct (is_request_exception (exn_cls x)) eqn:Hx; simpl; eauto.
  - destruct (Z.eqb st 200) eqn:Hst; simpl.
    + destruct js as [j|]; simpl.
      * destruct (truthy j) eqn:Hj; simpl; auto.
        unfold len, sized. destruct (py_len j) eqn:Hlen; simpl; eauto.
      * auto.
    + destruct js as [j|]; simpl; [destruct j; simpl; auto|auto].
Qed.

Lemma run_check_tables ts e l w :
  let os := replies e (length (http_log w)) (length ts) in
  let r := run (for_each ts VerifySchema.check_table) e l w in
  (∃ n, (n ≤ length ts)%nat ∧
        http_log (final r) =
        http_log w ++ zip (VerifySchema.existence_request <$> take n ts) os) ∧
  (if forallb VerifySchema.handled os
   then res r = Returns tt ∧ frame r = (l && forallb VerifySchema.clean os)%bool ∧
        http_log (final r) = http_log w ++ zip (VerifySchema.existence_request <$> ts) os
   else ∃ x, res r = Raises (Exc x) ∧ is_request_exception (exn_cls x) = false).
Proof.
  revert l w. induction ts as [|t ts IH]; intros l w; simpl length.
  - simpl. split; [exists 0%nat; by rewrite app_nil_r|].
    rewrite andb_true_r, app_nil_r. auto.
  - rewrite replies_S. cbv zeta. rewrite run_for_each_cons.
    destruct (run_check_table t e l w) as [Hlog Hres]. cbv zeta in Hlog, Hres.
    simpl forallb.
    destruct (VerifySchema.handled (http_reply e (length (http_log w)))) eqn:Hh.
    + destruct Hres as [-> Hfr].
      specialize (IH (frame (run (VerifySchema.check_table t) e l w))
                     (final (run (VerifySchema.check_table t) e l w))).
      cbv zeta in IH. rewrite Hlog in IH. rewrite length_app in IH. simpl length in IH.
      replace (length (http_log w) + 1)%nat with (S (length (http_log w))) in IH by lia.
      destruct IH as [[n [Hn IHlog]] IHres]. split.
      * exists (S n). split; [lia|]. rewrite IHlog. simpl. by rewrite <- app_assoc.
      * simpl andb. destruct (forallb VerifySchema.handled _).
        -- destruct IHres as (-> & -> & ->). rewrite Hfr. split; [done|]. split.
           ++ destruct (VerifySchema.clean _); simpl; [done|]. by rewrite andb_false_r.
           ++ simpl. by rewrite <- app_assoc.
        -- done.
    + destruct Hres as [x [-> Hx]]. split; [|simpl; eauto].
      exists 1%nat. split; [lia|]. cbn [final]. rewrite Hlog. simpl. by destruct ts.
Qed.

Lemma run_try_bare_print {L} (p : prog L unit) ln e l w :
  res (run (try_bare p (print ln)) e l w) = Returns tt.
Proof.
  rewrite run_try_bare. destruct (res (run p e l w)) as [[]|x] eqn:Hp; simpl; auto.
Qed.

Lemma check_sample_data_returns e l w :
  res (run VerifySchema.check_sample_data e l w) = Returns tt.
Proof.
  unfold VerifySchema.check_sample_data. rewrite run_bind, run_print. cbn [res frame final].
  apply run_try_bare_print.
Qed.

Lemma check_site_settings_returns e l w :
  res (run VerifySchema.check_site_settings e l w) = Returns tt.
Proof.
  unfold VerifySchema.check_site_settings. rewrite run_bind, run_print. cbn [res frame final].
  apply run_try_bare_print.
Qed.

Lemma clean_handled o : VerifySchema.clean o = true → VerifySchema.handled o = true.
Proof.
  destruct o as [x|r]; simpl; [done|].
  destruct (Z.eqb (status_code r) 200); simpl; [|done].
  destruct (resp_json r); done.
Qed.

Lemma forallb_clean_handled os : forallb VerifySchema.clean os = true → forallb VerifySchema.handled os = true.
Proof.
  induction os as [|o os IH]; simpl; [done|].
  intros [Ho Hos]%andb_true_iff. rewrite clean_handled, IH; auto.
Qed.

Lemma run_verify_tables e l w :
  let os := replies e (length (http_log w)) 5 in
  let r := run VerifySchema.verify_tables e l w in
  if forallb VerifySchema.handled os
  then res r = Returns (forallb VerifySchema.clean os)
  else ∃ x, res r = Raises (Exc x) ∧ is_request_exception (exn_cls x) = false.
Proof.
  intros os r. subst r. unfold VerifySchema.verify_tables.
  rewrite run_bind, run_print. cbn [res frame final].
  rewrite run_bind, run_print. cbn [res frame final].
  rewrite run_bind. cbn [run store res frame final].
  rewrite run_bind. unfold VerifySchema.check_tables.
  pose proof (run_check_tables VerifySchema.tables_to_check e true
    (emit (emit w [Lit "Verifying Cozy Condo schema execution..."]) [Lit (repeat_str "=" 50)]))
    as [_ Hloop].
  cbv zeta in Hloop. cbn [http_log emit] in Hloop.
  change (length VerifySchema.tables_to_check) with 5%nat in Hloop. fold os in Hloop.
  clearbody os.
  destruct (forallb VerifySchema.handled os).
  - destruct Hloop as (-> & Hfr & _).
    rewrite run_bind, run_print. cbn [res frame final].
    rewrite run_bind. cbn [run load res frame final]. rewrite Hfr, andb_true_l.
    destruct (forallb VerifySchema.clean os); cbv beta iota.
    + rewrite run_bind, run_print. cbn [res frame final].
      rewrite run_bind, run_print. cbn [res frame final].
      rewrite run_bind, check_sample_data_returns.
      rewrite run_bind, check_site_settings_returns. reflexivity.
    + reflexivity.
  - destruct Hloop as [x [-> Hx]]. eauto.
Qed.

Lemma verify_schema_exit_code e w :
  exit_code (res (run VerifySchema.main e tt w)) = 0 ↔
  forallb VerifySchema.clean (replies e (length (http_log w)) 5) = true.
Proof.
  unfold VerifySchema.main. rewrite run_bind, run_call. cbn [res frame final].
  pose proof (run_verify_tables e true w) as H. cbv zeta in H.
  destruct (forallb VerifySchema.handled _) eqn:Hh.
  - rewrite H. destruct (forallb VerifySchema.clean _); cbn; split; done.
  - destruct H as [x [-> _]]. cbn [exit_code]. split; [done|].
    intros Hc%forallb_clean_handled. congruence.
Qed.

(** ** verify_schema.py: no request is repeated *)

Lemma issued_app w w' new : http_log w' = http_log w ++ new → issued w w' = new.*1.
Proof.
  intros H. unfold issued, requests. rewrite H, fmap_app.
  rewrite <- (length_fmap fst (http_log w)). by rewrite drop_app_length.
Qed.

Lemma length_replies e start n : length (replies e start n) = n.
Proof. unfold replies. by rewrite length_fmap, length_seq. Qed.

Lemma expected_handled o :
  VerifySchema.succeeds o || VerifySchema.non_200 o || VerifySchema.network_error o = true →
  VerifySchema.handled o = true.
Proof.
  destruct o as [x|r]; simpl; [done|].
  destruct (Z.eqb (status_code r) 200); simpl; [|done].
  destruct (resp_json r) as [[]|]; simpl; try done.
  by destruct l.
Qed.

Lemma run_check_tables_stop ts k e l w :
  (k < length ts)%nat →
  (∀ i, (i < k)%nat → VerifySchema.handled (http_reply e (length (http_log w) + i)) = true) →
  VerifySchema.handled (http_reply e (length (http_log w) + k)) = false →
  let r := run (for_each ts VerifySchema.check_table) e l w in
  (∃ x, res r = Raises (Exc x) ∧ is_request_exception (exn_cls x) = false) ∧
  http_log (final r) =
    http_log w ++ zip (VerifySchema.existence_request <$> take (S k) ts)
                      (replies e (length (http_log w)) (S k)).
Proof.
  revert k l w. induction ts as [|t ts IH]; intros k l w Hk Hbefore Hat; [simpl in Hk; lia|].
  cbv zeta. rewrite run_for_each_cons.
  destruct (run_check_table t e l w) as [Hlog Hres]. cbv zeta in Hlog, Hres.
  destruct k as [|k].
  - rewrite Nat.add_0_r in Hat. rewrite Hat in Hres. destruct Hres as [x [-> Hx]].
    cbn [res final]. split; [by eauto|]. by rewrite Hlog.
  - pose proof (Hbefore 0%nat ltac:(lia)) as H0. rewrite Nat.add_0_r in H0.
    rewrite H0 in Hres. destruct Hres as [-> _].
    specialize (IH k (frame (run (VerifySchema.check_table t) e l w))
                     (final (run (VerifySchema.check_table t) e l w))).
    cbv zeta in IH. rewrite Hlog, length_app in IH. cbn [length] in IH.
    replace (length (http_log w) + 1)%nat with (S (length (http_log w))) in IH by lia.
    destruct IH as [Hraise Hfin].
    + simpl in Hk. lia.
    + intros i Hi. replace (S (length (http_log w)) + i)%nat
        with (length (http_log w) + S i)%nat by lia. apply Hbefore. lia.
    + by replace (S (length (http_log w)) + k)%nat
        with (length (http_log w) + S k)%nat by lia.
    + split; [exact Hraise|]. rewrite Hfin, <- app_assoc.
      rewrite (replies_S e (length (http_log w)) (S k)). reflexivity.
Qed.




(** ** Exceptions inside the verification loops *)

Lemma run_check_table_network_error table e l w x :
  http_reply e (length (http_log w)) = Failed x →
  is_request_exception (exn_cls x) = true →
  run (VerifySchema.check_table table) e l w =
  RunResult (Returns tt) false
    (emit (log_http w (VerifySchema.existence_request table) (Failed x))
       [Lit "❌ Table '"; Lit table; Lit "' - Connection error: "; Lit (exn_msg x)]).
Proof.
  intros Ho Hx. unfold VerifySchema.check_table, mbind, prog_bind. simpl.
  rewrite Ho. simpl. rewrite Hx. reflexivity.
Qed.

Lemma run_test_table_exception table e l w x :
  http_reply e (length (http_log w)) = Failed x →
  run (FinalVerification.test_table table) e l w =
  RunResult (Returns tt) l
    (emit (log_http w (FinalVerification.anon_request table) (Failed x))
       [Lit "❌ "; Lit table; Lit ": Error - "; Lit (exn_msg x)]).
Proof.
  intros Ho. unfold FinalVerification.test_table, mbind, prog_bind. simpl.
  rewrite Ho. reflexivity.
Qed.

Lemma run_test_table table e l w :
  let o := http_reply e (length (http_log w)) in
  let r := run (FinalVerification.test_table table) e l w in
  res r = Returns tt ∧
  http_log (final r) = http_log w ++ [(FinalVerification.anon_request table, o)].
Proof.
  intros o r. subst o r. unfold FinalVerification.test_table, mbind, prog_bind. simpl.
  destruct (http_reply e (length (http_log w))) as [x|[st txt js hd]]; simpl; [done|].
  destruct (Z.eqb st 200); simpl; [|done].
  destruct js as [j|]; simpl; [|done].
  unfold len. destruct (py_len j); simpl; done.
Qed.

Lemma run_test_tables ts e l w :
  let r := run (for_each ts FinalVerification.test_table) e l w in
  res r = Returns tt ∧
  http_log (final r) =
  http_log w ++ zip (FinalVerification.anon_request <$> ts)
                    (replies e (length (http_log w)) (length ts)).
Proof.
  revert l w. induction ts as [|t ts IH]; intros l w; cbv zeta.
  - simpl. by rewrite app_nil_r.
  - rewrite run_for_each_cons.
    destruct (run_test_table t e l w) as [Hres Hlog]. cbv zeta in Hres, Hlog.
    rewrite Hres.
    destruct (IH (frame (run (FinalVerification.test_table t) e l w))
                 (final (run (FinalVerification.test_table t) e l w))) as [IHres IHlog].
    split; [done|]. rewrite IHlog, Hlog, length_app. simpl length.
    replace (length (http_log w) + 1)%nat with (S (length (http_log w))) by lia.
    rewrite replies_S. simpl. by rewrite <- app_assoc.
Qed.

(** C4, as the claim has it, fails for [verify_tables]: the first table
    is answered 200 with the JSON number 5, [len(data)] raises a
    [TypeError], which [except requests.RequestException] does not
    catch, and the four tables after it are never requested. *)
Lemma C4_counterexample :
  let r := run VerifySchema.check_tables numeric_body_env true world0 in
  res r = Raises (Exc (Exn TypeError "object of type 'int' has no len()")) ∧
  requests (final r) = [VerifySchema.existence_request "properties"].
Proof. vm_compute. split; reflexivity. Qed.

(** C4, amended.  A network error ([requests.RequestException]) raised
    by the request of a table is caught and printed, and the loop goes on
    with the tables that remain, in [verify_tables] and in
    [test_anon_access] alike.  [test_anon_access] catches every
    exception, whatever its class: its loop always ends normally, having
    requested all five tables. *)
Theorem C4_network_error_caught_and_loop_continues :
  (∀ e l w table rest x,
     http_reply e (length (http_log w)) = Failed x →
     is_request_exception (exn_cls x) = true →
     run (for_each (table :: rest) VerifySchema.check_table) e l w =
     run (for_each rest VerifySchema.check_table) e false
       (emit (log_http w (VerifySchema.existence_request table) (Failed x))
          [Lit "❌ Table '"; Lit table; Lit "' - Connection error: "; Lit (exn_msg x)])) ∧
  (∀ e l w table rest x,
     http_reply e (length (http_log w)) = Failed x →
     run (for_each (table :: rest) FinalVerification.test_table) e l w =
     run (for_each rest FinalVerification.test_table) e l
       (emit (log_http w (FinalVerification.anon_request table) (Failed x))
          [Lit "❌ "; Lit table; Lit ": Error - "; Lit (exn_msg x)])) ∧
  (∀ e w,
     res (run FinalVerification.test_anon_access e tt w) = Returns tt ∧
     issued w (final (run FinalVerification.test_anon_access e tt w)) =
     FinalVerification.anon_request <$> FinalVerification.tables).
Proof.
  split; [|split].
  - intros e l w table rest x Ho Hx.
    by rewrite run_for_each_cons, (run_check_table_network_error _ _ _ _ _ Ho Hx).
  - intros e l w table rest x Ho.
    by rewrite run_for_each_cons, (run_test_table_exception _ _ _ _ _ Ho).
  - intros e w. unfold FinalVerification.test_anon_access.
    rewrite run_bind, run_print. cbn [res frame final].
    rewrite run_bind, run_print. cbn [res frame final].
    destruct (run_test_tables FinalVerification.tables e tt
      (emit (emit w [Lit (nl +:+ "TESTING ANONYMOUS ACCESS")]) [Lit (repeat_str "=" 50)]))
      as [Hres Hlog].
    split; [exact Hres|].
    rewrite (issued_app w _ _ Hlog).
    rewrite fst_zip; [done|]. by rewrite length_fmap, length_replies.
Qed.

Lemma C4_network_error_caught_and_loop_continues_witness :
  http_reply one_timeout_env (length (http_log (log_http world0
    (VerifySchema.existence_request "properties") (ok_json (JArr []))))) =
    Failed (Exn RequestException "Connection timed out") ∧
  is_request_exception RequestException = true ∧
  run (for_each ["property_photos"; "calendar_events"] VerifySchema.check_table)
    one_timeout_env true
    (log_http world0 (VerifySchema.existence_request "properties") (ok_json (JArr []))) =
  run (for_each ["calendar_events"] VerifySchema.check_table) one_timeout_env false
    (emit (log_http (log_http world0
             (VerifySchema.existence_request "properties") (ok_json (JArr [])))
             (VerifySchema.existence_request "property_photos")
             (Failed (Exn RequestException "Connection timed out")))
       [Lit "❌ Table '"; Lit "property_photos"; Lit "' - Connection error: ";
        Lit "Connection timed out"]) ∧
  run (for_each ["property_photos"; "calendar_events"] FinalVerification.test_table)
    one_timeout_env tt
    (log_http world0 (FinalVerification.anon_request "properties") (ok_json (JArr []))) =
  run (for_each ["calendar_events"] FinalVerification.test_table) one_timeout_env tt
    (emit (log_http (log_http world0
             (FinalVerification.anon_request "properties") (ok_json (JArr [])))
             (FinalVerification.anon_request "property_photos")
             (Failed (Exn RequestException "Connection timed out")))
       [Lit "❌ "; Lit "property_photos"; Lit ": Error - "; Lit "Connection timed out"]).
Proof.
  split; [reflexivity|]. split; [reflexivity|]. split.
  - apply (proj1 C4_network_error_caught_and_loop_continues
             one_timeout_env true _ "property_photos" ["calendar_events"]
             (Exn RequestException "Connection timed out")); reflexivity.
  - apply (proj1 (proj2 C4_network_error_caught_and_loop_continues)
             one_timeout_env tt _ "property_photos" ["calendar_events"]
             (Exn RequestException "Connection timed out")); reflexivity.
Defined.

(** ** The exit status of the two schema checks *)

(** [verify_schema.py] exits with status 0 exactly when each of the five
    existence requests is answered 200 and nothing is raised while the
    table is handled. *)
Lemma verify_schema_exits_0_iff e w :
  exit_code (res (run VerifySchema.main e tt w)) = 0 ↔
  ∀ o, o ∈ replies e (length (http_log w)) 5 → VerifySchema.clean o = true.
Proof.
  rewrite verify_schema_exit_code, forallb_forall.
  split; intros H o Ho; apply H; by apply list_elem_of_In.
Qed.

(** On five 200 replies without a [Content-Range] header
    [verify_schema.py] exits with status 0. *)
Lemma verify_schema_exit_on_bare_200 :
  exit_code (res (run VerifySchema.main bare_200_env tt world0)) = 0.
Proof. apply verify_schema_exit_code. reflexivity. Qed.

(** C1, at the failing input.  All five tables answer 200, with a JSON
    list and no [Content-Range] header.  [execute_schema_api.py] takes
    ['0'] for the header, finds no field after a slash in it, reports
    each table as an error and exits with status 1, whatever [int]
    does. *)
Theorem C1_execute_schema_api_exit_on_bare_200 py_int :
  let r := run (ExecuteSchemaApi.main py_int) bare_200_env tt world0 in
  requests (final r) = ExecuteSchemaApi.count_request <$> ExecuteSchemaApi.tables_to_check ∧
  responses (final r) = replicate 5 (ok_json (JArr [])) ∧
  [Lit "✗ Error checking table '"; Lit "properties"; Lit "': ";
   Lit "list index out of range"] ∈ stdout (final r) ∧
  exit_code (res r) = 1.
Proof.
  cbv zeta. split; [|split; [|split]].
  - vm_compute. reflexivity.
  - vm_compute. reflexivity.
  - vm_compute. do 3 apply list_elem_of_further. apply list_elem_of_here.
  - vm_compute. reflexivity.
Qed.

(** ** detailed_data_check.py: which statuses count as success *)

(** C3, as the claim has it, fails: a 206 reply is a 2xx reply, and
    [get_data] prints the error line for it and returns [None]. *)
Lemma C3_counterexample :
  let r := run (DetailedDataCheck.get_data "properties") partial_content_env tt world0 in
  responses (final r) =
    [Returned (Response 206 "[{id: 1}]" (Some (JArr [JObj [("id", JNum 1)]])) ∅)] ∧
  res r = Returns JNull ∧
  stdout (final r) =
    [[Lit "Error fetching "; Lit "properties"; Lit ": "; Num 206; Lit " - "; Lit "[{id: 1}]"]].
Proof. vm_compute. repeat split; reflexivity. Qed.

(** C3, amended.  For every response, [get_data] gives back
    [response.json()] and prints nothing when the status is 200, and
    otherwise prints one line with the table name, the status code and
    the body and returns [None]: the error branch is taken exactly for
    the statuses other than 200. *)
Theorem C3_get_data_succeeds_on_200_only e (l : unit) w table_name r :
  http_reply e (length (http_log w)) = Returned r →
  let out := run (DetailedDataCheck.get_data table_name) e l w in
  requests (final out) = requests w ++ [DetailedDataCheck.table_request table_name] ∧
  (status_code r = 200 →
     stdout (final out) = stdout w ∧
     res out = match resp_json r with
               | Some j => Returns j
               | None => Raises (Exc (Exn JSONDecodeError "Expecting value"))
               end) ∧
  (status_code r ≠ 200 →
     res out = Returns JNull ∧
     stdout (final out) =
       stdout w ++ [[Lit "Error fetching "; Lit table_name; Lit ": "; Num (status_code r);
                     Lit " - "; Lit (resp_text r)]]).
Proof.
  intros Ho. cbv zeta. unfold DetailedDataCheck.get_data, mbind, prog_bind. simpl.
  rewrite Ho. simpl. unfold requests.
  destruct (Z.eqb_spec (status_code r) 200) as [Hst|Hst]; simpl.
  - unfold response_json. destruct (resp_json r) as [j|]; simpl;
      rewrite fmap_app; repeat split; try done.
  - rewrite fmap_app. repeat split; try done.
Qed.

Lemma C3_get_data_succeeds_on_200_only_witness :
  http_reply partial_content_env (length (http_log world0)) =
    Returned (Response 206 "[{id: 1}]" (Some (JArr [JObj [("id", JNum 1)]])) ∅) ∧
  let out := run (DetailedDataCheck.get_data "blog_posts") partial_content_env tt world0 in
  requests (final out) = requests world0 ++ [DetailedDataCheck.table_request "blog_posts"] ∧
  (206 = 200 →
     stdout (final out) = stdout world0 ∧
     res out = Returns (JArr [JObj [("id", JNum 1)]])) ∧
  (206 ≠ 200 →
     res out = Returns JNull ∧
     stdout (final out) =
       stdout world0 ++ [[Lit "Error fetching "; Lit "blog_posts"; Lit ": "; Num 206;
                          Lit " - "; Lit "[{id: 1}]"]]).
Proof.
  split; [reflexivity|].
  exact (C3_get_data_succeeds_on_200_only partial_content_env tt world0 "blog_posts"
           (Response 206 "[{id: 1}]" (Some (JArr [JObj [("id", JNum 1)]])) ∅) eq_refl).
Defined.

(** ** verify_setup.py: a 200 without a usable Content-Range *)

Lemma split_on_no_sep sep s : has_char sep s = false → split_on sep s = [s].
Proof.
  induction s as [|c s IH]; simpl; [done|].
  intros [Hc Hs]%orb_false_iff. rewrite Hc, (IH Hs). done.
Qed.

Lemma content_range_count_no_slash {L} (r : response) e (l : L) w :
  (resp_headers r !! "content-range" = None ∨
   ∃ h, resp_headers r !! "content-range" = Some h ∧ has_char slash h = false) →
  run (content_range_count r) e l w =
  RunResult (Raises (Exc (Exn IndexError "list index out of range"))) l w.
Proof.
  intros H. unfold content_range_count.
  destruct H as [->|[h [-> Hh]]]; simpl.
  - reflexivity.
  - by rewrite (split_on_no_sep _ _ Hh).
Qed.

(** Whatever it is answered, the loop body of [verify_database_setup]
    ends normally after one request, and it never sets
    [all_tables_exist] back to true. *)
Lemma run_verify_table py_int item e l w :
  let r := run (VerifySetup.verify_table py_int item) e l w in
  res r = Returns tt ∧
  length (http_log (final r)) = S (length (http_log w)) ∧
  (VerifySetup.all_tables_exist l = false → VerifySetup.all_tables_exist (frame r) = false).
Proof.
  destruct item as [table description]. cbv zeta.
  unfold VerifySetup.verify_table, mbind, prog_bind. simpl.
  assert (∀ (q : request) (o : outcome),
    length (http_log w ++ [(q, o)]) = S (length (http_log w))) as Hlen
    by (intros; rewrite length_app; simpl; lia).
  destruct (http_reply e (length (http_log w))) as [x|r]; simpl; [by rewrite Hlen|].
  destruct (Z.eqb (status_code r) 200); simpl; [|by rewrite Hlen].
  unfold content_range_count. destruct (_ !! 1%nat) as [count|]; simpl; [|by rewrite Hlen].
  unfold ExecuteSchemaApi.int. destruct (py_int count); simpl; by rewrite Hlen.
Qed.

Lemma run_verify_tables_loop py_int items e l w :
  let r := run (for_each items (VerifySetup.verify_table py_int)) e l w in
  res r = Returns tt ∧
  (VerifySetup.all_tables_exist l = false → VerifySetup.all_tables_exist (frame r) = false).
Proof.
  revert l w. induction items as [|item items IH]; intros l w; cbv zeta; [done|].
  rewrite run_for_each_cons.
  destruct (run_verify_table py_int item e l w) as (Hres & _ & Hfr). cbv zeta in Hres, Hfr.
  rewrite Hres.
  destruct (IH (frame (run (VerifySetup.verify_table py_int item) e l w))
               (final (run (VerifySetup.verify_table py_int item) e l w))) as [IHres IHfr].
  split; [done|]. auto.
Qed.

Lemma run_verify_table_no_slash py_int table description e l w r :
  http_reply e (length (http_log w)) = Returned r →
  status_code r = 200 →
  (resp_headers r !! "content-range" = None ∨
   ∃ h, resp_headers r !! "content-range" = Some h ∧ has_char slash h = false) →
  run (VerifySetup.verify_table py_int (table, description)) e l w =
    RunResult (Returns tt)
      (VerifySetup.Locals false (VerifySetup.total_records l))
      (emit (log_http w (VerifySetup.count_request table) (Returned r))
         [Lit "✗ "; Lit description; Lit ": Error - "; Lit "list index out of range"]).
Proof.
  intros Ho Hst Hcr. unfold VerifySetup.verify_table.
  rewrite run_try_except, run_bind, run_send. cbv zeta. rewrite Ho.
  cbn [res frame final]. rewrite Hst. cbn [Z.eqb Pos.eqb].
  rewrite run_bind, content_range_count_no_slash by done.
  cbn [res frame final is_exception exn_cls]. reflexivity.
Qed.

Lemma no_slash_makes_loop_false py_int items k table description e l w r :
  items !! k = Some (table, description) →
  http_reply e (length (http_log w) + k) = Returned r →
  status_code r = 200 →
  (resp_headers r !! "content-range" = None ∨
   ∃ h, resp_headers r !! "content-range" = Some h ∧ has_char slash h = false) →
  VerifySetup.all_tables_exist
    (frame (run (for_each items (VerifySetup.verify_table py_int)) e l w)) = false.
Proof.
  intros Hk Ho Hst Hcr. revert k l w Hk Ho.
  induction items as [|item items IH]; intros k l w Hk Ho; [done|].
  rewrite run_for_each_cons. destruct k as [|k]; simpl in Hk.
  - injection Hk as ->. rewrite Nat.add_0_r in Ho.
    rewrite (run_verify_table_no_slash _ _ _ _ _ _ _ Ho Hst Hcr). cbn [res frame final].
    by apply run_verify_tables_loop.
  - destruct (run_verify_table py_int item e l w) as (Hres & Hlen & _).
    cbv zeta in Hres, Hlen. rewrite Hres.
    apply (IH k); [done|]. rewrite Hlen.
    by replace (S (length (http_log w)) + k)%nat with (length (http_log w) + S k)%nat by lia.
Qed.



(** ** setup_storage.py *)

Section SetupStorageFacts.
Import SetupStorage.

Lemma run_bucket_names items e l w :
  ∃ rs, run (bucket_names items) e l w = RunResult rs l w ∧
        match names_of items with
        | Some ns => rs = Returns ns
        | None => ∃ x, rs = Raises (Exc x)
        end.
Proof.
  revert l w. induction items as [|b items IH]; intros l w; [by eexists|].
  cbn [bucket_names names_of]. rewrite run_bind.
  destruct b as [| | | | |d]; simpl; eauto.
  destruct (dict_lookup d "name") as [n|]; simpl; eauto.
  rewrite run_bind. destruct (IH l w) as (rs & -> & Hrs). cbn [res frame final].
  destruct (names_of items) as [ns|].
  - subst rs. by eexists.
  - destruct Hrs as [x ->]. eauto.
Qed.

Lemma run_check_existing_buckets e l w :
  let o := http_reply e (length (http_log w)) in
  let r := run check_existing_buckets e l w in
  res r = Returns tt ∧
  frame r = Locals (listed o) (success_count l) ∧
  http_log (final r) = http_log w ++ [(list_request, o)].
Proof.
  cbv zeta. unfold check_existing_buckets.
  rewrite run_bind, run_print. cbn [res frame final].
  rewrite run_try_except, run_bind, run_send. cbv zeta.
  change (http_log (emit w _)) with (http_log w).
  destruct (http_reply e (length (http_log w))) as [x|r]; cbn [res frame final is_exception].
  - simpl. done.
  - destruct (Z.eqb (status_code r) 200) eqn:Hst; simpl listed; rewrite ?Hst.
    + rewrite run_bind. unfold response_json.
      destruct (resp_json r) as [j|]; [|simpl; done].
      cbn [run res frame final]. rewrite run_bind.
      destruct j as [| | |s|items|d]; simpl items_of; cbn [py_iter raise run res frame final];
        try (simpl; done).
      all: rewrite run_bind;
        match goal with |- context [run (bucket_names ?its) ?e ?l ?w] =>
          destruct (run_bucket_names its e l w) as (rs & -> & Hrs) end;
        cbn [res frame final];
        destruct (names_of _) as [ns|]; [subst rs|destruct Hrs as [x ->]]; simpl; done.
    + simpl. done.
Qed.

Lemma run_setup_bucket b e l w :
  let s := bucket_step b (existing_bucket_names l) e (length (http_log w)) in
  let r := run (setup_bucket b) e l w in
  res r = Returns tt ∧
  frame r = Locals (existing_bucket_names l) (success_count l + if s.2 then 1 else 0) ∧
  http_log (final r) = http_log w ++ s.1.
Proof.
  cbv zeta. unfold setup_bucket, bucket_step, mbind, prog_bind.
  destruct l as [names sc]. simpl.
  destruct (name_in (bucket_id b) names); simpl.
  { rewrite app_nil_r, Z.add_0_r || rewrite app_nil_r. done. }
  destruct (http_reply e (length (http_log w))) as [x|r] eqn:Ho; simpl.
  { by rewrite Z.add_0_r. }
  destruct (created (status_code r)) eqn:Hc; simpl.
  - destruct (bucket_public b); simpl.
    + rewrite length_app. simpl length.
      replace (length (http_log w) + 1)%nat with (S (length (http_log w))) by lia.
      destruct (http_reply e (S (length (http_log w)))) as [x'|r'] eqn:Ho'; simpl.
      * by rewrite <- app_assoc.
      * destruct (Z.eqb (status_code r') 200); simpl; by rewrite <- app_assoc.
    + done.
  - unfold response_json. destruct (resp_json r); simpl; by rewrite Z.add_0_r.
Qed.

Lemma run_setup_buckets bs e l w :
  let p := provision (existing_bucket_names l) e (length (http_log w)) bs in
  let r := run (for_each bs setup_bucket) e l w in
  res r = Returns tt ∧
  frame r = Locals (existing_bucket_names l) (success_count l + p.2) ∧
  http_log (final r) = http_log w ++ p.1.
Proof.
  revert l w. induction bs as [|b bs IH]; intros l w; cbv zeta.
  - simpl. rewrite app_nil_r, Z.add_0_r. by destruct l.
  - rewrite run_for_each_cons.
    destruct (run_setup_bucket b e l w) as (Hres & Hfr & Hlog). cbv zeta in Hres, Hfr, Hlog.
    rewrite Hres.
    destruct (IH (frame (run (setup_bucket b) e l w)) (final (run (setup_bucket b) e l w)))
      as (IHres & IHfr & IHlog).
    cbv zeta in IHres, IHfr, IHlog.
    rewrite Hfr, Hlog in IHfr, IHlog. cbn [existing_bucket_names success_count] in IHfr, IHlog.
    rewrite length_app in IHfr, IHlog.
    split; [done|]. cbn [provision]. cbv zeta. cbn [fst snd].
    rewrite Hfr, IHfr, IHlog. split; [f_equal; lia|]. by rewrite <- app_assoc.
Qed.

Lemma run_setup_storage_buckets e l w :
  let o := http_reply e (length (http_log w)) in
  let p := provision (listed o) e (S (length (http_log w))) buckets in
  let r := run setup_storage_buckets e l w in
  res r = Returns (Z.eqb p.2 2) ∧
  http_log (final r) = http_log w ++ (list_request, o) :: p.1.
Proof.
  cbv zeta. unfold setup_storage_buckets.
  rewrite run_bind, run_print. cbn [res frame final].
  rewrite run_bind, run_print. cbn [res frame final].
  rewrite run_bind.
  match goal with |- context [run check_existing_buckets e l ?w0] =>
    destruct (run_check_existing_buckets e l w0) as (Hres & Hfr & Hlog) end.
  cbv zeta in Hres, Hfr, Hlog. cbn [emit http_log] in Hfr, Hlog.
  rewrite Hres, Hfr. rewrite run_bind. cbn [run load res frame final].
  rewrite run_bind. cbn [run store res frame final existing_bucket_names].
  rewrite run_bind.
  match goal with |- context [run (for_each buckets setup_bucket) e ?l0 ?w0] =>
    destruct (run_setup_buckets buckets e l0 w0) as (Lres & Lfr & Llog) end.
  cbv zeta in Lres, Lfr, Llog. rewrite Hlog in Lfr, Llog.
  cbn [existing_bucket_names success_count] in Lfr, Llog.
  rewrite length_app in Lfr, Llog. simpl length in Lfr, Llog.
  replace (length (http_log w) + 1)%nat with (S (length (http_log w))) in Lfr, Llog by lia.
  rewrite Lres, Lfr. rewrite run_bind, run_print. cbn [res frame final].
  rewrite run_bind. cbn [run load res frame final success_count].
  change (Z.of_nat (length buckets)) with 2. rewrite Z.add_0_l.
  set (p := provision _ e _ buckets) in *.
  assert (∀ (q : prog locals unit) l1 w1,
            (∃ w2, run q e l1 w1 = RunResult (Returns tt) l1 w2 ∧ http_log w2 = http_log w1) →
            let r := run (q ≫= λ _, Ret (Z.eqb p.2 2)) e l1 w1 in
            res r = Returns (Z.eqb p.2 2) ∧ http_log (final r) = http_log w1) as Hend.
  { intros q l1 w1 (w2 & Hq & Hw2). cbv zeta. rewrite run_bind, Hq. simpl. done. }
  match goal with |- context [run (?q ≫= _) e ?l1 ?w1] =>
    destruct (Hend q l1 w1) as [Eres Elog] end.
  { destruct (Z.eqb p.2 2); simpl; eauto. }
  cbv zeta in Eres, Elog. rewrite Eres, Elog. split; [done|].
  cbn [emit http_log]. rewrite Llog. by rewrite <- app_assoc.
Qed.

Lemma exchanged_app w w' new : http_log w' = http_log w ++ new → exchanged w w' = new.
Proof. intros H. unfold exchanged. by rewrite H, drop_app_length. Qed.

Ltac bucket_cases names e w :=
  unfold provision, bucket_step, buckets;
  cbn [bucket_id bucket_public bucket_name fst snd length];
  destruct (name_in "property-photos" names) eqn:Hin1;
  [|destruct (outcome_created (http_reply e (S (length (http_log w))))) eqn:Hc1];
  cbn [fst snd length app Nat.add];
  (destruct (name_in "blog-images" names) eqn:Hin2;
   [|match goal with |- context [outcome_created ?o] =>
       destruct (outcome_created o) eqn:Hc2 end]);
  cbn [fst snd length app Nat.add].




Lemma listing_failed_listed o : listing_failed o = true → listed o = [].
Proof.
  destruct o as [x|r]; simpl; [done|].
  destruct (Z.eqb (status_code r) 200); simpl; [|done].
  destruct (resp_json r) as [j|]; [|done].
  destruct (items_of j) as [items|]; [|done].
  by destruct (names_of items).
Qed.

(** C10. When the buckets cannot be listed (the listing request raises
    or comes back with another status than 200, or anything is raised
    after a 200: a body that is not JSON, that cannot be iterated, or an
    entry without a name), the list of existing names is empty and the
    function still ends normally.  The first request sent is the listing
    GET, and for each of the two required buckets exactly one request
    after it is the creation POST of that bucket: a POST to
    [/storage/v1/bucket] whose JSON payload carries the id and the name
    of the bucket and the public flag.  None is skipped. *)
Theorem C10_listing_failure_skips_no_bucket e l w :
  listing_failed (http_reply e (length (http_log w))) = true →
  let out := run setup_storage_buckets e l w in
  let new := issued w (final out) in
  existing_bucket_names (frame (run check_existing_buckets e l w)) = [] ∧
  (∃ ok, res out = Returns ok) ∧
  head new =
    Some (Request GET "https://pzrdkijtktgdwayjzbfu.supabase.co/storage/v1/bucket"
            SERVICE_ROLE_KEY [] None (Some 10)) ∧
  ∀ id, id ∈ ["property-photos"; "blog-images"] →
    Request POST "https://pzrdkijtktgdwayjzbfu.supabase.co/storage/v1/bucket"
      SERVICE_ROLE_KEY []
      (Some (JObj [("id", JStr id); ("name", JStr id); ("public", JBool true)]))
      (Some 10) ∈ new ∧
    length (filter (λ q, creates id q = true) new) = 1%nat.
Proof.
  intros Hfail%listing_failed_listed. cbv zeta. split; [|split; [|split]].
  - destruct (run_check_existing_buckets e l w) as (_ & -> & _). by rewrite Hfail.
  - destruct (run_setup_storage_buckets e l w) as [-> _]. eauto.
  - destruct (run_setup_storage_buckets e l w) as [_ Hlog]. cbv zeta in Hlog.
    by rewrite (issued_app _ _ _ Hlog).
  - destruct (run_setup_storage_buckets e l w) as [_ Hlog]. cbv zeta in Hlog.
    rewrite (issued_app _ _ _ Hlog), Hfail. clear Hlog.
    unfold provision, bucket_step, buckets.
    intros id [->|[->|[]%elem_of_nil]%elem_of_cons]%elem_of_cons.
    all: cbn [name_in existsb bucket_id bucket_public fst snd].
    all: destruct (outcome_created (http_reply e (S (length (http_log w)))));
      cbn [fst snd length app Nat.add];
      match goal with |- context [outcome_created ?o] => destruct (outcome_created o) end;
      cbn [fst snd length app fmap list_fmap].
    all: split; [vm_compute; by repeat constructor|vm_compute; reflexivity].
Qed.

Lemma C10_listing_failure_skips_no_bucket_witness :
  listing_failed (http_reply listing_down_env (length (http_log world0))) = true ∧
  listing_failed (http_reply odd_listing_env (length (http_log world0))) = true ∧
  issued world0 (final (run setup_storage_buckets listing_down_env (Locals [] 0) world0)) =
    [list_request; create_request (Bucket "property-photos" "property-photos" true None
                                     ["image/jpeg"; "image/png"; "image/webp"]);
     public_request (Bucket "property-photos" "property-photos" true None
                       ["image/jpeg"; "image/png"; "image/webp"]);
     create_request (Bucket "blog-images" "blog-images" true None
                       ["image/jpeg"; "image/png"; "image/webp"]);
     public_request (Bucket "blog-images" "blog-images" true None
                       ["image/jpeg"; "image/png"; "image/webp"])] ∧
  length (filter (λ q, creates "blog-images" q = true)
            (issued world0 (final (run setup_storage_buckets odd_listing_env
                                     (Locals [] 0) world0)))) = 1%nat.
Proof.
  split; [reflexivity|]. split; [reflexivity|]. split; [vm_compute; reflexivity|].
  destruct (C10_listing_failure_skips_no_bucket odd_listing_env (Locals [] 0) world0 eq_refl)
    as (_ & _ & _ & H).
  exact (proj2 (H "blog-images" ltac:(repeat constructor))).
Defined.

End SetupStorageFacts.

(** ** schema_verification.py: the column comparison *)

Section SchemaVerificationFacts.
Import SchemaVerification.

Lemma run_check_table_schema {L} t e (l : L) w :
  ∃ rs, ∀ w', http_log w' = http_log w →
    run (check_table_schema t) e l w' =
    RunResult rs l (log_http w' (schema_request t) (http_reply e (length (http_log w)))).
Proof.
  unfold check_table_schema, mbind, prog_bind. simpl.
  destruct (http_reply e (length (http_log w))) as [x|r] eqn:Ho.
  { eexists. intros w' ->. rewrite Ho. reflexivity. }
  destruct (Z.eqb (status_code r) 200) eqn:Hst.
  2:{ eexists. intros w' ->. rewrite Ho. simpl. rewrite Hst. reflexivity. }
  destruct (resp_json r) as [j|] eqn:Hj.
  2:{ eexists. intros w' ->. rewrite Ho. simpl. rewrite Hst. unfold response_json.
      rewrite Hj. reflexivity. }
  destruct (truthy j) eqn:Ht.
  2:{ eexists. intros w' ->. rewrite Ho. simpl. rewrite Hst. unfold response_json.
      rewrite Hj. simpl. rewrite Ht. reflexivity. }
  assert (∃ rs, ∀ w1, run (py_index0 (L:=L) j) e l w1 = RunResult rs l w1) as [rs Hrs].
  { destruct j as [| | |[|c s]|[|v vs]|d]; simpl; eauto. }
  exists rs. intros w' ->. rewrite Ho. simpl. rewrite Hst. unfold response_json.
  rewrite Hj. simpl. rewrite Ht. apply Hrs.
Qed.

Lemma set_diff_both_empty (xs ys : list string) :
  set_diff xs ys = ∅ ∧ set_diff ys xs = ∅ ↔
  list_to_set xs =@{gset string} list_to_set ys.
Proof.
  unfold set_diff. split.
  - intros [H1 H2]. apply set_eq. intros x. split; intros Hx.
    + destruct (decide (x ∈ (list_to_set ys : gset string))) as [|Hn]; [done|].
      assert (x ∈ (list_to_set xs ∖ list_to_set ys : gset string)) as Hd
        by (by apply elem_of_difference).
      rewrite H1 in Hd. by apply not_elem_of_empty in Hd.
    + destruct (decide (x ∈ (list_to_set xs : gset string))) as [|Hn]; [done|].
      assert (x ∈ (list_to_set ys ∖ list_to_set xs : gset string)) as Hd
        by (by apply elem_of_difference).
      rewrite H2 in Hd. by apply not_elem_of_empty in Hd.
  - intros ->. split; apply difference_diag_L.
Qed.

Lemma set_diff_perm (xs xs' ys ys' : list string) :
  xs ≡ₚ xs' → ys ≡ₚ ys' → set_diff xs ys = set_diff xs' ys'.
Proof.
  intros Hx Hy. unfold set_diff. apply set_eq. intros c.
  rewrite !elem_of_difference, !elem_of_list_to_set. by rewrite Hx, Hy.
Qed.

Ltac printed_lines_simpl :=
  unfold printed; simpl; rewrite <- ?app_assoc; simpl; rewrite drop_app_length.

Ltac printed_lines :=
  unfold printed; cbn [stdout emit log_http final run print];
  rewrite <- ?app_assoc; cbn [app]; rewrite drop_app_length.

Ltac not_printed H :=
  repeat (apply elem_of_cons in H as [H|H];
          [first [discriminate H | injection H as H; cbv in H; discriminate H]|]);
  by apply elem_of_nil in H.

Ltac in_printed :=
  solve [repeat first [apply list_elem_of_here | apply list_elem_of_further]].

Lemma set_diff_nonempty (xs ys : list string) :
  set_diff xs ys ≠ ∅ ↔ ∃ c, c ∈ xs ∧ c ∉ ys.
Proof.
  unfold set_diff. split.
  - intros [c Hc]%set_choose_L. exists c.
    apply elem_of_difference in Hc. by rewrite !elem_of_list_to_set in Hc.
  - intros (c & Hx & Hy) H.
    assert (c ∈ (list_to_set xs ∖ list_to_set ys : gset string)) as Hc.
    { apply elem_of_difference. by rewrite !elem_of_list_to_set. }
    rewrite H in Hc. by apply not_elem_of_empty in Hc.
Qed.

Lemma fmap_JStr_inj (xs ys : list string) : JStr <$> xs = JStr <$> ys → xs = ys.
Proof.
  revert ys. induction xs as [|x xs IH]; intros [|y ys]; simpl; try done.
  intros [= -> H]. by rewrite (IH _ H).
Qed.

Lemma run_compare_columns {L} set_listing expected actual e (l : L) w :
  run (compare_columns set_listing expected actual) e l w =
  RunResult (Returns tt) l
    (World (http_log w) (db_log w) (file_log w)
       (stdout w ++
        if bool_decide (set_diff expected actual = ∅) &&
           bool_decide (set_diff actual expected = ∅)
        then [[Lit "✅ All expected columns present and no extras"]]
        else (if bool_decide (set_diff expected actual = ∅) then []
              else [[Lit "❌ Missing columns: ";
                     Val (JArr (JStr <$> set_listing expected actual))]]) ++
             (if bool_decide (set_diff actual expected = ∅) then []
              else [[Lit "⚠️  Extra columns: ";
                     Val (JArr (JStr <$> set_listing actual expected))]]))).
Proof.
  unfold compare_columns.
  destruct (bool_decide (set_diff expected actual = ∅));
    destruct (bool_decide (set_diff actual expected = ∅)); cbn [andb].
  all: rewrite ?run_bind, ?run_print; cbn [run res frame final print];
    unfold emit; cbn [http_log db_log file_log stdout];
    rewrite <- ?app_assoc, ?app_nil_r; try reflexivity.
  all: by destruct w.
Qed.

Lemma printed_check_table set_listing e (l : unit) w table_name expected row :
  res (run (check_table_schema table_name) e l w) = Returns (JObj row) →
  row ≠ [] →
  printed w (final (run (check_table set_listing (table_name, expected)) e l w)) =
  [[Lit (nl +:+ "Checking "); Lit (upper table_name); Lit " table:"];
   [Lit (repeat_str "-" 40)];
   [Lit "✅ Table exists with "; Num (Z.of_nat (length row.*1)); Lit " columns"]] ++
  (if bool_decide (set_diff expected row.*1 = ∅) &&
      bool_decide (set_diff row.*1 expected = ∅)
   then [[Lit "✅ All expected columns present and no extras"]]
   else (if bool_decide (set_diff expected row.*1 = ∅) then []
         else [[Lit "❌ Missing columns: ";
                Val (JArr (JStr <$> set_listing expected row.*1))]]) ++
        (if bool_decide (set_diff row.*1 expected = ∅) then []
         else [[Lit "⚠️  Extra columns: ";
                Val (JArr (JStr <$> set_listing row.*1 expected))]])) ++
  [[Lit "Actual columns: "; Val (JArr (JStr <$> row.*1))]].
Proof.
  intros Hrow Hne.
  destruct (run_check_table_schema table_name e l w) as [rs Hrs].
  assert (rs = Returns (JObj row)) as -> by (by rewrite <- Hrow, (Hrs w eq_refl)).
  unfold check_table.
  rewrite run_bind, run_print. cbn [res frame final].
  rewrite run_bind, run_print. cbn [res frame final].
  rewrite run_bind, Hrs by reflexivity. cbn [res frame final].
  destruct row as [|kv row']; [done|]. cbn [truthy].
  rewrite run_bind. cbn [keys run res frame final].
  rewrite run_bind, run_print. cbn [res frame final].
  rewrite run_bind, run_compare_columns. cbn [res frame final].
  rewrite run_print. unfold printed, dict_keys.
  cbn [final emit log_http stdout http_log db_log file_log].
  rewrite <- !app_assoc. cbn [app]. by rewrite drop_app_length.
Qed.

Lemma listing_perm set_listing (xs xs' ys ys' : list string) :
  lists_difference set_listing → xs ≡ₚ xs' → ys ≡ₚ ys' →
  set_listing xs ys ≡ₚ set_listing xs' ys'.
Proof.
  intros Hsl Hx Hy.
  destruct (Hsl xs ys) as [Hnd Hin]. destruct (Hsl xs' ys') as [Hnd' Hin'].
  apply NoDup_Permutation; [done|done|].
  intros c. rewrite Hin, Hin'. by rewrite Hx, Hy.
Qed.

Lemma sorted_listing_ok : lists_difference sorted_listing.
Proof.
  intros xs ys. unfold sorted_listing, set_diff. split; [apply NoDup_elements|].
  intros c. by rewrite elem_of_elements, elem_of_difference, !elem_of_list_to_set.
Qed.

Lemma reversed_listing_ok : lists_difference reversed_listing.
Proof.
  intros xs ys. unfold reversed_listing, set_diff. split.
  - rewrite reverse_Permutation. apply NoDup_elements.
  - intros c.
    by rewrite elem_of_reverse, elem_of_elements, elem_of_difference, !elem_of_list_to_set.
Qed.

(** C5, as the claim has it, fails.  The sampled row of the run below
    is the empty object: its set of keys is not the set of expected
    columns, and yet neither the missing nor the extra columns are
    printed.  [if sample_row:] takes the empty row for no row, and the
    table is reported as empty. *)
Lemma C5_counterexample :
  let expected := ["id"; "title"] in
  let out := printed world0 (final (run (check_table sorted_listing ("blog_posts", expected))
                                      empty_row_env tt world0)) in
  res (run (check_table_schema "blog_posts") empty_row_env tt world0) = Returns (JObj []) ∧
  list_to_set ([] : list (string * json)).*1 ≠@{gset string} list_to_set expected ∧
  out = [[Lit (nl +:+ "Checking "); Lit "BLOG_POSTS"; Lit " table:"];
         [Lit (repeat_str "-" 40)];
         [Lit "⚠️  Table exists but is empty - cannot verify full schema"]] ∧
  (∀ ms, [Lit "❌ Missing columns: "; Val (JArr (JStr <$> ms))] ∉ out) ∧
  (∀ xs, [Lit "⚠️  Extra columns: "; Val (JArr (JStr <$> xs))] ∉ out).
Proof.
  cbv zeta.
  assert (printed world0 (final (run (check_table sorted_listing ("blog_posts", ["id"; "title"]))
                                   empty_row_env tt world0)) =
          [[Lit (nl +:+ "Checking "); Lit "BLOG_POSTS"; Lit " table:"];
           [Lit (repeat_str "-" 40)];
           [Lit "⚠️  Table exists but is empty - cannot verify full schema"]]) as Hout
    by (vm_compute; reflexivity).
  split; [reflexivity|]. split; [|split; [exact Hout|]].
  - intros H. assert ("id" ∈ (list_to_set ["id"; "title"] : gset string)) as Hid
      by (apply elem_of_list_to_set; repeat constructor).
    rewrite <- H in Hid. by apply not_elem_of_empty in Hid.
  - rewrite Hout. split; intros ms H; not_printed H.
Qed.

(** C5, amended.  In the loop of [main], for a table whose sampled row is
    not the empty object: the line "All expected columns present and no
    extras" is printed if and only if the set of the keys of the row is
    the set of expected columns.  A line "Missing columns" is printed
    exactly when some expected column is not a key of the row, and it
    lists the columns that are expected and not in the row, each once; a
    line "Extra columns" is printed exactly when some key of the row is
    not expected, and it lists those keys, each once.  The order inside
    these two lines is that of a Python set and is left open.  The
    comparison depends on the two column lists as sets only: with the
    columns given in another order it prints the same lines, up to the
    order inside the lists. *)
Theorem C5_columns_compared_as_sets set_listing e (l : unit) w table_name expected_columns row :
  lists_difference set_listing →
  res (run (check_table_schema table_name) e l w) = Returns (JObj row) →
  row ≠ [] →
  let out :=
    printed w (final (run (check_table set_listing (table_name, expected_columns)) e l w)) in
  let actual := row.*1 in
  ([Lit "✅ All expected columns present and no extras"] ∈ out ↔
     list_to_set actual =@{gset string} list_to_set expected_columns) ∧
  ((∃ ms, [Lit "❌ Missing columns: "; Val (JArr (JStr <$> ms))] ∈ out) ↔
     ∃ c, c ∈ expected_columns ∧ c ∉ actual) ∧
  (∀ ms, [Lit "❌ Missing columns: "; Val (JArr (JStr <$> ms))] ∈ out →
     NoDup ms ∧ ∀ c, c ∈ ms ↔ c ∈ expected_columns ∧ c ∉ actual) ∧
  ((∃ xs, [Lit "⚠️  Extra columns: "; Val (JArr (JStr <$> xs))] ∈ out) ↔
     ∃ c, c ∈ actual ∧ c ∉ expected_columns) ∧
  (∀ xs, [Lit "⚠️  Extra columns: "; Val (JArr (JStr <$> xs))] ∈ out →
     NoDup xs ∧ ∀ c, c ∈ xs ↔ c ∈ actual ∧ c ∉ expected_columns) ∧
  (∀ expected' actual' (l' : unit) w',
     expected_columns ≡ₚ expected' → actual ≡ₚ actual' →
     same_output
       (printed w' (final (run (compare_columns set_listing expected_columns actual) e l' w')))
       (printed w' (final (run (compare_columns set_listing expected' actual') e l' w')))).
Proof.
  intros Hsl Hrow Hne. cbv zeta.
  rewrite (printed_check_table set_listing e l w table_name expected_columns row Hrow Hne).
  pose proof (set_diff_both_empty expected_columns row.*1) as Hboth.
  rewrite <- !set_diff_nonempty.
  split; [|split; [|split; [|split; [|split]]]].
  6:{ intros expected' actual' l' w' He Ha.
      rewrite !run_compare_columns. unfold printed. cbn [final stdout].
      rewrite !drop_app_length.
      rewrite <- (set_diff_perm _ _ _ _ He Ha), <- (set_diff_perm _ _ _ _ Ha He).
      destruct (bool_decide (set_diff expected_columns row.*1 = ∅));
        destruct (bool_decide (set_diff row.*1 expected_columns = ∅)); cbn [andb app].
      all: repeat first
        [ apply Forall2_nil_2 | apply Forall2_cons_2
        | apply same_piece_refl
        | apply same_piece_perm, fmap_Permutation, listing_perm; done ]. }
  all: destruct (decide (set_diff expected_columns row.*1 = ∅)) as [Hm|Hm];
    destruct (decide (set_diff row.*1 expected_columns = ∅)) as [Hx|Hx].
  all: rewrite ?(bool_decide_eq_true_2 _ Hm), ?(bool_decide_eq_false_2 _ Hm),
         ?(bool_decide_eq_true_2 _ Hx), ?(bool_decide_eq_false_2 _ Hx).
  all: cbn [andb app].
  - split; [intros _; symmetry; by apply Hboth|intros _; in_printed].
  - split; [intros H; not_printed H|]. intros Hs. symmetry in Hs. by apply Hboth in Hs as [_ ?].
  - split; [intros H; not_printed H|]. intros Hs. symmetry in Hs. by apply Hboth in Hs as [? _].
  - split; [intros H; not_printed H|]. intros Hs. symmetry in Hs. by apply Hboth in Hs as [? _].
  - split; [intros [ms H]; not_printed H|done].
  - split; [intros [ms H]; not_printed H|done].
  - split; [done|]. intros _. eexists. in_printed.
  - split; [done|]. intros _. eexists. in_printed.
  - intros ms H. not_printed H.
  - intros ms H. not_printed H.
  - intros ms H.
    assert (ms = set_listing expected_columns row.*1) as ->; [|done].
    repeat (apply elem_of_cons in H as [H|H];
      [first [discriminate H | injection H as H; first [by apply fmap_JStr_inj | cbv in H; discriminate H]]|]).
    by apply elem_of_nil in H.
  - intros ms H.
    assert (ms = set_listing expected_columns row.*1) as ->; [|done].
    repeat (apply elem_of_cons in H as [H|H];
      [first [discriminate H | injection H as H; first [by apply fmap_JStr_inj | cbv in H; discriminate H]]|]).
    by apply elem_of_nil in H.
  - split; [intros [ms H]; not_printed H|done].
  - split; [done|]. intros _. eexists. in_printed.
  - split; [intros [ms H]; not_printed H|done].
  - split; [done|]. intros _. eexists. in_printed.
  - intros ms H. not_printed H.
  - intros ms H.
    assert (ms = set_listing row.*1 expected_columns) as ->; [|done].
    repeat (apply elem_of_cons in H as [H|H];
      [first [discriminate H | injection H as H; first [by apply fmap_JStr_inj | cbv in H; discriminate H]]|]).
    by apply elem_of_nil in H.
  - intros ms H. not_printed H.
  - intros ms H.
    assert (ms = set_listing row.*1 expected_columns) as ->; [|done].
    repeat (apply elem_of_cons in H as [H|H];
      [first [discriminate H | injection H as H; first [by apply fmap_JStr_inj | cbv in H; discriminate H]]|]).
    by apply elem_of_nil in H.
Qed.

Lemma C5_columns_compared_as_sets_witness :
  let photos := ["id"; "property_id"; "url"; "alt_text"; "display_order"; "is_primary";
                 "created_at"; "updated_at"] in
  let events := ["id"; "property_id"; "event_date"; "event_type"; "price"; "notes";
                 "created_at"; "updated_at"] in
  lists_difference sorted_listing ∧
  [Lit "✅ All expected columns present and no extras"] ∈
    printed world0 (final (run (check_table sorted_listing ("property_photos", photos))
                             shuffled_row_env tt world0)) ∧
  [Lit "❌ Missing columns: "; Val (JArr [JStr "notes"])] ∈
    printed world0 (final (run (check_table sorted_listing ("calendar_events", events))
                             reordered_row_env tt world0)) ∧
  [Lit "⚠️  Extra columns: "; Val (JArr [JStr "status"])] ∈
    printed world0 (final (run (check_table sorted_listing ("calendar_events", events))
                             reordered_row_env tt world0)).
Proof.
  cbv zeta. split; [exact sorted_listing_ok|]. split; [|split].
  - refine (proj2 (proj1 (C5_columns_compared_as_sets sorted_listing shuffled_row_env tt world0
      "property_photos" _ _ sorted_listing_ok eq_refl _)) _); [discriminate|].
    apply set_eq. intros c. rewrite !elem_of_list_to_set.
    cbn [fmap list_fmap fst]. rewrite !elem_of_cons, !elem_of_nil. tauto.
  - vm_compute. repeat constructor.
  - vm_compute. repeat constructor.
Defined.

End SchemaVerificationFacts.

(** ** What a run depends on *)

Section Determined.
Context {L : Type}.

Lemma since_log_http w q o w' :
  extends (log_http w q o) w' →
  received_since w w' = o :: received_since (log_http w q o) w' ∧
  issued w w' = q :: issued (log_http w q o) w' ∧
  printed w w' = printed (log_http w q o) w'.
Proof.
  intros ([rest Hrest] & _). unfold received_since, responses, issued, requests, printed.
  rewrite Hrest. cbn [log_http http_log stdout]. rewrite !fmap_app.
  cbn [fmap list_fmap fst snd]. split; [|split; [|done]].
  - rewrite <- (length_fmap snd (http_log w)), <- app_assoc, drop_app_length.
    rewrite <- (length_fmap snd (http_log w ++ [(q, o)])), fmap_app. cbn [fmap list_fmap snd].
    by rewrite (app_assoc _ [o]), drop_app_length.
  - rewrite <- (length_fmap fst (http_log w)), <- app_assoc, drop_app_length.
    rewrite <- (length_fmap fst (http_log w ++ [(q, o)])), fmap_app. cbn [fmap list_fmap fst].
    by rewrite (app_assoc _ [q]), drop_app_length.
Qed.

Lemma since_emit w ln w' :
  extends (emit w ln) w' →
  received_since w w' = received_since (emit w ln) w' ∧
  issued w w' = issued (emit w ln) w' ∧
  printed w w' = ln :: printed (emit w ln) w'.
Proof.
  intros (_ & _ & _ & [rest Hrest]). unfold received_since, issued, printed.
  rewrite Hrest. cbn [emit http_log stdout]. rewrite <- !app_assoc, drop_app_length.
  by rewrite app_assoc, drop_app_length.
Qed.

(** A script whose only contact with the outside world is HTTP does
    the same thing in two runs that receive the same replies, wherever
    the runs start and whatever the files and the database hold. *)
Lemma http_only_determined_since {A} (p : prog L A) e1 e2 l w1 w2 :
  http_only p →
  received_since w1 (final (run p e1 l w1)) = received_since w2 (final (run p e2 l w2)) →
  res (run p e1 l w1) = res (run p e2 l w2) ∧
  frame (run p e1 l w1) = frame (run p e2 l w2) ∧
  printed w1 (final (run p e1 l w1)) = printed w2 (final (run p e2 l w2)) ∧
  issued w1 (final (run p e1 l w1)) = issued w2 (final (run p e2 l w2)).
Proof.
  intros Hp. revert l w1 w2.
  induction Hp as [a|r|q k _ IH|ln k _ IH|k _ IH|v k _ IH]; intros l w1 w2; cbn [run];
    cbn [res frame final].
  - intros _. unfold printed, issued, requests.
    by rewrite !drop_all, <- !(length_fmap fst), !drop_all.
  - intros _. unfold printed, issued, requests.
    by rewrite !drop_all, <- !(length_fmap fst), !drop_all.
  - set (o1 := http_reply e1 (length (http_log w1))).
    set (o2 := http_reply e2 (length (http_log w2))).
    destruct (since_log_http w1 q o1 _ (run_extends (k o1) e1 l (log_http w1 q o1)))
      as (-> & -> & ->).
    destruct (since_log_http w2 q o2 _ (run_extends (k o2) e2 l (log_http w2 q o2)))
      as (-> & -> & ->).
    intros [= Ho Hrest]. rewrite <- Ho in Hrest |- *.
    destruct (IH o1 l (log_http w1 q o1) (log_http w2 q o1) Hrest) as (-> & -> & -> & ->).
    done.
  - destruct (since_emit w1 ln _ (run_extends k e1 l (emit w1 ln))) as (-> & -> & ->).
    destruct (since_emit w2 ln _ (run_extends k e2 l (emit w2 ln))) as (-> & -> & ->).
    intros Hrest.
    destruct (IH l (emit w1 ln) (emit w2 ln) Hrest) as (-> & -> & -> & ->). done.
  - apply IH.
  - apply IH.
Qed.

End Determined.

Section Sim.
Context {L : Type}.

Lemma same_line_refl ln : same_line ln ln.
Proof. induction ln; constructor; [apply same_piece_refl|done]. Qed.

Lemma same_output_refl lines : same_output lines lines.
Proof. induction lines; constructor; [apply same_line_refl|done]. Qed.

Lemma sim_refl {A} (p : prog L A) : sim p p.
Proof. induction p; constructor; auto using same_line_refl. Qed.

Lemma sim_bind {A B} (p1 p2 : prog L A) (f1 f2 : A → prog L B) :
  sim p1 p2 → (∀ a, sim (f1 a) (f2 a)) → sim (p1 ≫= f1) (p2 ≫= f2).
Proof.
  unfold mbind, prog_bind. intros Hp Hf. induction Hp; simpl; auto; by constructor.
Qed.

Lemma sim_for_each {X} (xs : list X) (body1 body2 : X → prog L unit) :
  (∀ x, sim (body1 x) (body2 x)) → sim (for_each xs body1) (for_each xs body2).
Proof.
  intros Hb. induction xs as [|x xs IH]; simpl; [constructor|].
  apply sim_bind; auto.
Qed.

(** Such scripts end alike, with the same logs and with the same output
    up to the order inside the lists. *)
Lemma sim_run {A} (p1 p2 : prog L A) e l w1 w2 :
  sim p1 p2 →
  http_log w1 = http_log w2 → db_log w1 = db_log w2 → file_log w1 = file_log w2 →
  same_output (stdout w1) (stdout w2) →
  res (run p1 e l w1) = res (run p2 e l w2) ∧
  frame (run p1 e l w1) = frame (run p2 e l w2) ∧
  http_log (final (run p1 e l w1)) = http_log (final (run p2 e l w2)) ∧
  db_log (final (run p1 e l w1)) = db_log (final (run p2 e l w2)) ∧
  file_log (final (run p1 e l w1)) = file_log (final (run p2 e l w2)) ∧
  same_output (stdout (final (run p1 e l w1))) (stdout (final (run p2 e l w2))).
Proof.
  intros Hp. revert l w1 w2.
  induction Hp as [a|r|q k1 k2 _ IH|ln1 ln2 k1 k2 Hln _ IH|k1 k2 _ IH|v k1 k2 _ IH
                  |path k1 k2 _ IH|op k1 k2 _ IH];
    intros l w1 w2 Hh Hd Hf Hs; cbn [run]; cbn [res frame final].
  - done.
  - done.
  - rewrite Hh. apply IH; cbn [log_http http_log db_log file_log stdout]; congruence.
  - apply IH; cbn [emit http_log db_log file_log stdout]; try done.
    apply Forall2_app; [done|by constructor].
  - by apply IH.
  - by apply IH.
  - apply IH; cbn [log_file http_log db_log file_log stdout]; congruence.
  - rewrite Hd. apply IH; cbn [log_db http_log db_log file_log stdout]; congruence.
Qed.

End Sim.

Section Determinism.
Import SchemaVerification.

Lemma listings_agree sl1 sl2 (xs ys : list string) :
  lists_difference sl1 → lists_difference sl2 → sl1 xs ys ≡ₚ sl2 xs ys.
Proof.
  intros H1 H2. destruct (H1 xs ys) as [Hnd1 Hin1]. destruct (H2 xs ys) as [Hnd2 Hin2].
  apply NoDup_Permutation; [done|done|]. intros c. by rewrite Hin1, Hin2.
Qed.

Lemma sim_compare_columns {L} sl1 sl2 expected actual :
  lists_difference sl1 → lists_difference sl2 →
  sim (compare_columns (L:=L) sl1 expected actual) (compare_columns sl2 expected actual).
Proof.
  intros H1 H2. unfold compare_columns, missing_line, extra_line.
  destruct (bool_decide (set_diff expected actual = ∅));
    destruct (bool_decide (set_diff actual expected = ∅)); cbn [andb].
  all: repeat first
    [ apply sim_refl
    | apply sim_bind; [|intros ?]
    | apply sim_Echo; [|apply sim_refl];
      repeat first [ apply Forall2_nil_2 | apply Forall2_cons_2 | apply same_piece_refl
                   | apply same_piece_perm, fmap_Permutation, listings_agree; done ] ].
Qed.

Lemma sim_main sl1 sl2 :
  lists_difference sl1 → lists_difference sl2 → sim (main sl1) (main sl2).
Proof.
  intros H1 H2. unfold main.
  do 2 (apply sim_bind; [apply sim_refl|intros _]).
  apply sim_for_each. intros [table_name expected_columns]. unfold check_table.
  do 2 (apply sim_bind; [apply sim_refl|intros _]).
  apply sim_bind; [apply sim_refl|intros sample_row].
  destruct (truthy sample_row); [|apply sim_refl].
  apply sim_bind; [apply sim_refl|intros actual_columns].
  apply sim_bind; [apply sim_refl|intros _].
  apply sim_bind; [by apply sim_compare_columns|intros _]. apply sim_refl.
Qed.

Lemma verify_tables_own_frame e l w :
  run VerifySchema.verify_tables e l w = run VerifySchema.verify_tables e true w.
Proof.
  unfold VerifySchema.verify_tables.
  rewrite !(run_bind (print _)), !run_print. cbn [res frame final].
  rewrite !(run_bind (store _)). cbn [run store res frame final]. reflexivity.
Qed.

Lemma check_if_tables_exist_own_frame py_int e l w :
  run (ExecuteSchemaApi.check_if_tables_exist py_int) e l w =
  run (ExecuteSchemaApi.check_if_tables_exist py_int) e [] w.
Proof.
  unfold ExecuteSchemaApi.check_if_tables_exist.
  rewrite !(run_bind (store _)). cbn [run store res frame final]. reflexivity.
Qed.




End Determinism.

(** ** The schema applier: execute_schema.py and execute_schema_api.py *)

Lemma run_for_each_print {L} (lines : list line) e (l : L) w :
  run (for_each lines print) e l w =
  RunResult (Returns tt) l
    (World (http_log w) (db_log w) (file_log w) (stdout w ++ lines)).
Proof.
  revert w. induction lines as [|ln lines IH]; intros w.
  - simpl. rewrite app_nil_r. by destruct w.
  - rewrite run_for_each_cons, run_print. cbn [res frame final].
    rewrite IH. simpl. by rewrite <- app_assoc.
Qed.

Lemma run_read_schema_file {L} e (l : L) w sql :
  file_reply e ExecuteSchemaApi.schema_path = FileContent sql →
  run ExecuteSchemaApi.read_schema_file e l w =
  RunResult (Returns sql) l
    (log_file w ExecuteSchemaApi.schema_path (FileContent sql)).
Proof. intros Hf. unfold ExecuteSchemaApi.read_schema_file. simpl. by rewrite Hf. Qed.

(** C6, as the claim has it, fails: the schema file is read, the
    connection attempt raises, and [execute_schema] prints the error
    and returns [False]; none of the lines of the manual instructions
    is printed. *)
Lemma C6_counterexample :
  let r := run ExecuteSchema.execute_schema db_down_env tt world0 in
  db_log (final r) =
    [(DbConnect, DbFailed (Exn DatabaseError "could not connect to server"))] ∧
  res r = Returns false ∧
  stdout (final r) =
    [[Lit "Reading schema file..."];
     [Lit "Connecting to Supabase PostgreSQL database..."];
     [Lit "❌ Database error: "; Lit "could not connect to server"]] ∧
  ∀ ln, ln ∈ ExecuteSchemaApi.manual_instructions "CREATE TABLE properties ();" →
        ln ∉ stdout (final r).
Proof.
  cbv zeta. split; [by vm_compute|]. split; [by vm_compute|]. split; [by vm_compute|].
  intros ln Hin Hout. vm_compute in Hout.
  repeat (apply elem_of_cons in Hout as [->|Hout];
          [vm_compute in Hin;
           repeat (apply elem_of_cons in Hin as [Hin|Hin]; [discriminate Hin|]);
           by apply elem_of_nil in Hin|]).
  by apply elem_of_nil in Hout.
Qed.

(** C6, amended.  Once the schema file has been read:
    when the connection attempt raises, [execute_schema] prints that
    error on one line and returns [False], having printed no manual
    instructions and made no other database call;
    [execute_schema_via_api], whatever the state of the network and of
    the database, prints the manual instructions with the schema text
    and returns [False], without any HTTP request or database call. *)
Theorem C6_connection_error_printed_instructions_elsewhere e (l : unit) w sql :
  file_reply e ExecuteSchemaApi.schema_path = FileContent sql →
  (∀ x, db_reply e (length (db_log w)) = DbFailed x →
     let r := run ExecuteSchema.execute_schema e l w in
     res r = Returns false ∧
     printed w (final r) =
       [[Lit "Reading schema file..."];
        [Lit "Connecting to Supabase PostgreSQL database..."];
        (if is_psycopg2_error (exn_cls x)
         then ExecuteSchema.database_error x
         else ExecuteSchema.unexpected_error x)] ∧
     db_log (final r) = db_log w ++ [(DbConnect, DbFailed x)] ∧
     http_log (final r) = http_log w) ∧
  (let r := run ExecuteSchemaApi.execute_schema_via_api e l w in
   res r = Returns false ∧
   printed w (final r) =
     [Lit "Reading schema file..."] :: ExecuteSchemaApi.manual_instructions sql ∧
   http_log (final r) = http_log w ∧
   db_log (final r) = db_log w).
Proof.
  intros Hf. split.
  - intros x Hx. cbv zeta. unfold ExecuteSchema.execute_schema.
    rewrite run_bind, run_print. cbn [res frame final].
    rewrite run_bind, (run_read_schema_file _ _ _ _ Hf). cbn [res frame final].
    unfold ExecuteSchema.connect_and_execute, ExecuteSchema.db, mbind, prog_bind.
    simpl. rewrite Hx. simpl. unfold printed.
    destruct (is_psycopg2_error (exn_cls x)); simpl;
      rewrite <- !app_assoc; simpl; by rewrite drop_app_length.
  - cbv zeta. unfold ExecuteSchemaApi.execute_schema_via_api.
    rewrite run_bind, run_print. cbn [res frame final].
    rewrite run_bind, (run_read_schema_file _ _ _ _ Hf). cbn [res frame final].
    rewrite run_bind, run_for_each_print. cbn [res frame final run].
    unfold printed. simpl. rewrite <- app_assoc. simpl. by rewrite drop_app_length.
Qed.

Lemma C6_connection_error_printed_instructions_elsewhere_witness :
  file_reply db_down_env ExecuteSchemaApi.schema_path =
    FileContent "CREATE TABLE properties ();" ∧
  db_reply db_down_env (length (db_log world0)) =
    DbFailed (Exn DatabaseError "could not connect to server") ∧
  res (run ExecuteSchema.execute_schema db_down_env tt world0) = Returns false ∧
  res (run ExecuteSchemaApi.execute_schema_via_api db_down_env tt world0) = Returns false ∧
  printed world0 (final (run ExecuteSchemaApi.execute_schema_via_api db_down_env tt world0)) =
    [Lit "Reading schema file..."] ::
    ExecuteSchemaApi.manual_instructions "CREATE TABLE properties ();".
Proof.
  split; [reflexivity|]. split; [reflexivity|].
  destruct (C6_connection_error_printed_instructions_elsewhere db_down_env tt world0
              "CREATE TABLE properties ();" eq_refl) as [Ha Hb].
  destruct (Ha (Exn DatabaseError "could not connect to server") eq_refl) as (Ha1 & _).
  destruct Hb as (Hb1 & Hb2 & _).
  split; [exact Ha1|]. split; [exact Hb1|exact Hb2].
Defined.

(** * Further properties *)

(** ** Scripts that stay offline *)

Section Offline.
Context {L : Type}.

Lemma offline_bind {A B} (p : prog L A) (f : A → prog L B) :
  offline p → (∀ a, offline (f a)) → offline (p ≫= f).
Proof.
  unfold mbind, prog_bind. intros Hp Hf. induction Hp; simpl; auto; by constructor.
Qed.

Lemma offline_try_except {A} (p : prog L A) cls h :
  offline p → (∀ x, offline (h x)) → offline (try_except p cls h).
Proof.
  intros Hp Hh. induction Hp; simpl; auto; try by constructor.
  destruct r as [x|c]; [destruct (cls (exn_cls x))|]; auto; constructor.
Qed.

Lemma offline_try_bare {A} (p h : prog L A) :
  offline p → offline h → offline (try_bare p h).
Proof. intros Hp Hh. induction Hp; simpl; auto; by constructor. Qed.

Lemma offline_for_each {X} (xs : list X) (body : X → prog L unit) :
  (∀ x, offline (body x)) → offline (for_each xs body).
Proof.
  intros Hb. induction xs as [|x xs IH]; simpl; [constructor|].
  apply offline_bind; auto.
Qed.

Lemma offline_print ln : offline (print (L:=L) ln).
Proof. repeat constructor. Qed.
Lemma offline_load : offline (load (L:=L)).
Proof. repeat constructor. Qed.
Lemma offline_store v : offline (store (L:=L) v).
Proof. repeat constructor. Qed.
Lemma offline_response_json r : offline (response_json (L:=L) r).
Proof. unfold response_json. destruct (resp_json r); constructor. Qed.
Lemma offline_len x : offline (len (L:=L) x).
Proof. unfold len. destruct (py_len x); constructor. Qed.
Lemma offline_py_get x key d : offline (py_get (L:=L) x key d).
Proof. destruct x; constructor. Qed.
Lemma offline_py_item x key : offline (py_item (L:=L) x key).
Proof. destruct x; try constructor. simpl. destruct (dict_lookup d key); constructor. Qed.
Lemma offline_py_index0 x : offline (py_index0 (L:=L) x).
Proof. destruct x as [| | |[|c s]|[|v l]|]; constructor. Qed.
Lemma offline_py_iter x : offline (py_iter (L:=L) x).
Proof. destruct x; constructor. Qed.

Lemma offline_run {A} (p : prog L A) e l w :
  offline p →
  http_log (final (run p e l w)) = http_log w ∧
  db_log (final (run p e l w)) = db_log w ∧
  file_log (final (run p e l w)) = file_log w.
Proof.
  intros Hp. revert l w. induction Hp as [a|r|ln k _ IH|k _ IH|v k _ IH];
    intros l w; simpl; auto.
  apply (IH l (emit w ln)).
Qed.

(** A request followed by work on its reply, under a handler: one entry is added to the request log. *)
Lemma run_send_then_offline {A} q (f : response → prog L A) e l w :
  (∀ r, offline (f r)) →
  http_log (final (run (send q ≫= f) e l w)) =
  http_log w ++ [(q, http_reply e (length (http_log w)))].
Proof.
  intros Hf. rewrite run_bind, run_send. cbv zeta.
  destruct (http_reply e (length (http_log w))) as [x|r]; cbn [res frame final]; [done|].
  by destruct (offline_run (f r) e l (log_http w q (Returned r)) (Hf r)) as [-> _].
Qed.

End Offline.

Create HintDb offline.
#[export] Hint Resolve offline_bind offline_try_except offline_try_bare offline_for_each
  offline_print offline_load offline_store offline_response_json offline_len
  offline_py_get offline_py_item offline_py_index0 offline_py_iter
  offline_Ret offline_Raise : offline.

Ltac offline_step :=
  match goal with
  | |- ∀ _, _ => intro
  | |- offline (if ?b then _ else _) => destruct b
  | |- offline (match ?x with _ => _ end) => destruct x
  | |- offline (_ ≫= _) => apply offline_bind
  | |- offline (try_except _ _ _) => apply offline_try_except
  | |- offline (try_bare _ _) => apply offline_try_bare
  | |- offline (for_each _ _) => apply offline_for_each
  | |- offline _ => solve [auto with offline]
  end.
Ltac offline_tac := repeat offline_step.

Lemma run_try_bare_log {L A} q (f : response → prog L A) (h : prog L A) e l w :
  (∀ r, offline (f r)) → offline h →
  http_log (final (run (try_bare (send q ≫= f) h) e l w)) =
  http_log w ++ [(q, http_reply e (length (http_log w)))].
Proof.
  intros Hf Hh. rewrite run_try_bare.
  pose proof (run_send_then_offline q f e l w Hf) as Hlog.
  destruct (res (run (send q ≫= f) e l w)); [done|].
  destruct (offline_run h e (frame (run (send q ≫= f) e l w))
              (final (run (send q ≫= f) e l w)) Hh) as [-> _]. done.
Qed.

Lemma check_sample_data_log e l w :
  http_log (final (run VerifySchema.check_sample_data e l w)) =
  http_log w ++ [(VerifySchema.get_request (VerifySchema.base_url +:+ "/properties"),
                  http_reply e (length (http_log w)))].
Proof.
  unfold VerifySchema.check_sample_data. rewrite run_bind, run_print. cbn [res frame final].
  rewrite run_try_bare_log; [done| |auto with offline].
  intros r. unfold VerifySchema.print_property. offline_tac.
Qed.

Lemma check_site_settings_log e l w :
  http_log (final (run VerifySchema.check_site_settings e l w)) =
  http_log w ++ [(VerifySchema.get_request (VerifySchema.base_url +:+ "/site_settings"),
                  http_reply e (length (http_log w)))].
Proof.
  unfold VerifySchema.check_site_settings. rewrite run_bind, run_print. cbn [res frame final].
  rewrite run_try_bare_log; [done| |auto with offline].
  intros r. offline_tac.
Qed.

(** ** verify_schema.py: exit status and requests *)

Lemma elem_of_replies e start n o :
  o ∈ replies e start n ↔ ∃ k, (k < n)%nat ∧ o = http_reply e (start + k).
Proof.
  unfold replies. rewrite list_elem_of_fmap. split.
  - intros (i & -> & Hi). apply elem_of_seq in Hi. exists (i - start)%nat.
    split; [lia|]. f_equal. lia.
  - intros (k & Hk & ->). exists (start + k)%nat. split; [done|].
    apply elem_of_seq. lia.
Qed.

Lemma clean_spec o :
  VerifySchema.clean o = true ↔
  ∃ r j, o = Returned r ∧ status_code r = 200 ∧ resp_json r = Some j ∧
         (truthy j = true → is_Some (py_len j)).
Proof.
  destruct o as [x|r]; simpl.
  - split; [done|]. by intros (r & j & ? & _).
  - rewrite andb_true_iff, Z.eqb_eq. split.
    + intros [Hst Hj]. destruct (resp_json r) as [j|] eqn:Ej; [|done].
      exists r, j. repeat split; try done. intros Ht. rewrite Ht in Hj.
      unfold sized in Hj. destruct (py_len j); [eauto|done].
    + intros (r' & j & [= <-] & Hst & Ej & Hlen). split; [done|]. rewrite Ej.
      destruct (truthy j); [|done]. unfold sized. by destruct (Hlen eq_refl) as [n ->].
Qed.

(** X1. [verify_schema.py] exits with status 0 exactly when each of its
    five existence requests is answered 200 with a JSON body on which
    nothing is raised ([len] is defined on it, or it is empty); in every
    other case the status is 1. *)
Theorem verify_schema_exit_status e w :
  (exit_code (res (run VerifySchema.main e tt w)) = 0 ↔
   ∀ k, (k < 5)%nat →
     ∃ r j, http_reply e (length (http_log w) + k) = Returned r ∧
            status_code r = 200 ∧ resp_json r = Some j ∧
            (truthy j = true → is_Some (py_len j))) ∧
  (exit_code (res (run VerifySchema.main e tt w)) = 0 ∨
   exit_code (res (run VerifySchema.main e tt w)) = 1).
Proof.
  split.
  - rewrite verify_schema_exits_0_iff. split.
    + intros H k Hk. destruct (proj1 (clean_spec _) (H _ (proj2 (elem_of_replies _ _ _ _)
        (ex_intro _ k (conj Hk eq_refl))))) as (r & j & ? & ?). eauto.
    + intros H o (k & Hk & ->)%elem_of_replies. apply clean_spec.
      destruct (H k Hk) as (r & j & ? & ?). eauto.
  - unfold VerifySchema.main. rewrite run_bind, run_call. cbn [res frame final].
    pose proof (run_verify_tables e true w) as H. cbv zeta in H.
    destruct (forallb VerifySchema.handled _).
    + rewrite H. destruct (forallb VerifySchema.clean _); cbn; auto.
    + destruct H as [x [-> _]]. cbn. auto.
Qed.

(** X2. When [verify_tables] returns [True] it has sent seven requests:
    the five existence requests, then one for the sample properties and
    one for the site settings.  When it returns [False] it has sent the
    five existence requests and nothing else. *)
Theorem verify_tables_requests e l w :
  let r := run VerifySchema.verify_tables e l w in
  (res r = Returns true →
   issued w (final r) =
     (VerifySchema.existence_request <$> VerifySchema.tables_to_check) ++
     [VerifySchema.get_request (VerifySchema.base_url +:+ "/properties");
      VerifySchema.get_request (VerifySchema.base_url +:+ "/site_settings")]) ∧
  (res r = Returns false →
   issued w (final r) = VerifySchema.existence_request <$> VerifySchema.tables_to_check).
Proof.
  cbv zeta. unfold VerifySchema.verify_tables.
  rewrite run_bind, run_print. cbn [res frame final].
  rewrite run_bind, run_print. cbn [res frame final].
  rewrite run_bind. cbn [run store res frame final].
  rewrite run_bind. unfold VerifySchema.check_tables.
  pose proof (run_check_tables VerifySchema.tables_to_check e true
    (emit (emit w [Lit "Verifying Cozy Condo schema execution..."]) [Lit (repeat_str "=" 50)]))
    as [_ Hloop].
  cbv zeta in Hloop. cbn [http_log emit] in Hloop.
  change (length VerifySchema.tables_to_check) with 5%nat in Hloop.
  set (os := replies e (length (http_log w)) 5) in *.
  assert (length os = 5%nat) as Hlen by apply length_replies. clearbody os.
  destruct (forallb VerifySchema.handled os).
  2:{ destruct Hloop as [x [-> _]]. cbn [res]. split; intros [=]. }
  destruct Hloop as (-> & Hfr & Hlog).
  rewrite run_bind, run_print. cbn [res frame final].
  rewrite run_bind. cbn [run load res frame final]. rewrite Hfr, andb_true_l.
  destruct (forallb VerifySchema.clean os); cbv beta iota.
  - rewrite run_bind, run_print. cbn [res frame final].
    rewrite run_bind, run_print. cbn [res frame final].
    rewrite run_bind, check_sample_data_returns. 
    rewrite run_bind, check_site_settings_returns. cbn [run res final].
    split; [intros _|intros [=]].
    unfold issued, requests. rewrite check_site_settings_log, check_sample_data_log.
    cbn [emit http_log]. rewrite Hlog, !fmap_app, <- !app_assoc.
    rewrite <- (length_fmap fst (http_log w)), drop_app_length.
    rewrite fst_zip by (rewrite length_fmap, Hlen; simpl; lia). done.
  - do 7 (rewrite run_bind, run_print; cbn [res frame final]). cbn [run res final].
    split; [intros [=]|intros _].
    unfold issued, requests. cbn [emit http_log]. rewrite Hlog, !fmap_app.
    rewrite <- (length_fmap fst (http_log w)), drop_app_length.
    rewrite fst_zip by (rewrite length_fmap, Hlen; simpl; lia). done.
Qed.

Lemma verify_tables_requests_witness :
  res (run VerifySchema.verify_tables one_row_env true world0) = Returns true ∧
  issued world0 (final (run VerifySchema.verify_tables one_row_env true world0)) =
    (VerifySchema.existence_request <$> VerifySchema.tables_to_check) ++
    [VerifySchema.get_request (VerifySchema.base_url +:+ "/properties");
     VerifySchema.get_request (VerifySchema.base_url +:+ "/site_settings")].
Proof.
  assert (res (run VerifySchema.verify_tables one_row_env true world0) = Returns true) as H
    by (vm_compute; reflexivity).
  split; [exact H|].
  exact (proj1 (verify_tables_requests one_row_env true world0) H).
Defined.

(** ** Scripts that never exit *)

Section NoExit.
Context {L : Type}.

Lemma no_exit_bind {A B} (p : prog L A) (f : A → prog L B) :
  no_exit p → (∀ a, no_exit (f a)) → no_exit (p ≫= f).
Proof.
  unfold mbind, prog_bind. intros Hp Hf. induction Hp; simpl; auto; by constructor.
Qed.

Lemma no_exit_try_except {A} (p : prog L A) cls h :
  no_exit p → (∀ x, no_exit (h x)) → no_exit (try_except p cls h).
Proof.
  intros Hp Hh. induction Hp; simpl; auto; try by constructor.
  destruct (cls (exn_cls x)); auto; constructor.
Qed.

Lemma no_exit_try_bare {A} (p h : prog L A) :
  no_exit p → no_exit h → no_exit (try_bare p h).
Proof. intros Hp Hh. induction Hp; simpl; auto; by constructor. Qed.

Lemma no_exit_call {L' A} (p : prog L' A) (l' : L') :
  no_exit p → no_exit (call (L:=L) p l').
Proof.
  intros Hp. revert l'. induction Hp; intros l'; simpl; auto; by constructor.
Qed.

Lemma no_exit_for_each {X} (xs : list X) (body : X → prog L unit) :
  (∀ x, no_exit (body x)) → no_exit (for_each xs body).
Proof.
  intros Hb. induction xs as [|x xs IH]; simpl; [constructor|].
  apply no_exit_bind; auto.
Qed.

Lemma no_exit_print ln : no_exit (print (L:=L) ln).
Proof. repeat constructor. Qed.
Lemma no_exit_load : no_exit (load (L:=L)).
Proof. repeat constructor. Qed.
Lemma no_exit_store v : no_exit (store (L:=L) v).
Proof. repeat constructor. Qed.
Lemma no_exit_send q : no_exit (send (L:=L) q).
Proof. constructor. intros [x|r]; constructor. Qed.
Lemma no_exit_db op : no_exit (ExecuteSchema.db (L:=L) op).
Proof. constructor. intros [x|r]; constructor. Qed.
Lemma no_exit_response_json r : no_exit (response_json (L:=L) r).
Proof. unfold response_json. destruct (resp_json r); constructor. Qed.
Lemma no_exit_len x : no_exit (len (L:=L) x).
Proof. unfold len. destruct (py_len x); constructor. Qed.
Lemma no_exit_py_get x key d : no_exit (py_get (L:=L) x key d).
Proof. destruct x; constructor. Qed.
Lemma no_exit_py_item x key : no_exit (py_item (L:=L) x key).
Proof. destruct x; try constructor. simpl. destruct (dict_lookup d key); constructor. Qed.
Lemma no_exit_py_index0 x : no_exit (py_index0 (L:=L) x).
Proof. destruct x as [| | |[|c s]|[|v l]|]; constructor. Qed.
Lemma no_exit_py_iter x : no_exit (py_iter (L:=L) x).
Proof. destruct x; constructor. Qed.
Lemma no_exit_content_range_count r : no_exit (content_range_count (L:=L) r).
Proof. unfold content_range_count. destruct (_ !! _); constructor. Qed.
Lemma no_exit_int py_int s : no_exit (ExecuteSchemaApi.int (L:=L) py_int s).
Proof. unfold ExecuteSchemaApi.int. destruct (py_int s); constructor. Qed.
Lemma no_exit_column row i : no_exit (ExecuteSchema.column (L:=L) row i).
Proof. unfold ExecuteSchema.column. destruct (_ !! _); constructor. Qed.
Lemma no_exit_positive x : no_exit (ExecuteSchema.positive (L:=L) x).
Proof. destruct x; constructor. Qed.

(** What such a script raises is an [Exception]. *)
Lemma no_exit_run {A} (p : prog L A) e l w :
  no_exit p → ∀ c, res (run p e l w) ≠ Raises (SysExit c).
Proof.
  intros Hp. revert l w.
  induction Hp as [a|x|q k _ IH|ln k _ IH|k _ IH|v k _ IH|path k _ IH|op k _ IH];
    intros l w c; simpl; try done; apply IH.
Qed.

(** Under [except Exception] with a handler that prints one line, it
    always ends normally. *)
Lemma run_try_except_print (p : prog L unit) (ln : exn → line) e l w :
  no_exit p →
  res (run (try_except p is_exception (λ x, print (ln x))) e l w) = Returns tt.
Proof.
  intros Hp. rewrite run_try_except.
  destruct (res (run p e l w)) as [[]|[x|c]] eqn:Hr; cbn [is_exception]; try done.
  by destruct (no_exit_run p e l w Hp c).
Qed.

End NoExit.

Create HintDb no_exit.
#[export] Hint Resolve no_exit_bind no_exit_try_except no_exit_try_bare no_exit_call
  no_exit_for_each no_exit_print no_exit_load no_exit_store no_exit_send no_exit_db
  no_exit_response_json no_exit_len no_exit_py_get no_exit_py_item no_exit_py_index0
  no_exit_py_iter no_exit_content_range_count no_exit_int no_exit_column
  no_exit_positive no_exit_Ret no_exit_Raise : no_exit.

Ltac no_exit_step :=
  match goal with
  | |- ∀ _, _ => intro
  | |- no_exit (if ?b then _ else _) => destruct b
  | |- no_exit (match ?x with _ => _ end) => destruct x
  | |- no_exit (_ ≫= _) => apply no_exit_bind
  | |- no_exit (try_except _ _ _) => apply no_exit_try_except
  | |- no_exit (try_bare _ _) => apply no_exit_try_bare
  | |- no_exit (for_each _ _) => apply no_exit_for_each
  | |- no_exit (call _ _) => apply no_exit_call
  | |- no_exit _ => solve [auto with no_exit]
  end.
Ltac no_exit_tac := repeat no_exit_step.

(** ** The count taken from Content-Range *)

Lemma split_on_sep sep a b :
  has_char sep a = false →
  split_on sep (a +:+ String sep b) = a :: split_on sep b.
Proof.
  induction a as [|c a IH]; simpl.
  - intros _. by rewrite Ascii.eqb_refl.
  - intros [Hc Ha]%orb_false_iff. rewrite Hc, (IH Ha). done.
Qed.

Lemma split_on_has_sep sep s :
  has_char sep s = true → ∃ a b, split_on sep s = a :: b :: drop 2 (split_on sep s).
Proof.
  induction s as [|c s IH]; simpl; [done|].
  destruct (Ascii.eqb c sep) eqn:Hc; simpl.
  - intros _. destruct s as [|c' s']; simpl; eauto.
    destruct (Ascii.eqb c' sep); eauto.
    destruct (split_on sep s'); eauto.
  - intros Hs. destruct (IH Hs) as (a & b & ->). eauto.
Qed.

(** X3. The count that the count checks read from a reply is the field
    between the first and the second slash of its [Content-Range]
    header: for a header [range/total] it is [total].  An [IndexError]
    is raised exactly when the header is absent or has no slash. *)
Theorem content_range_count_spec {L} (r : response) e (l : L) w :
  (∀ range total,
     resp_headers r !! "content-range" = Some (range +:+ String slash total) →
     has_char slash range = false → has_char slash total = false →
     run (content_range_count r) e l w = RunResult (Returns total) l w) ∧
  (res (run (content_range_count r) e l w) =
     Raises (Exc (Exn IndexError "list index out of range")) ↔
   has_char slash (default "0" (resp_headers r !! "content-range")) = false).
Proof.
  split.
  - intros range total Hh Hr Ht. unfold content_range_count. rewrite Hh. simpl.
    by rewrite (split_on_sep _ _ _ Hr), (split_on_no_sep _ _ Ht).
  - unfold content_range_count.
    destruct (has_char slash (default "0" (resp_headers r !! "content-range"))) eqn:Hs.
    + destruct (split_on_has_sep _ _ Hs) as (a & b & ->). simpl. split; intros [=].
    + rewrite (split_on_no_sep _ _ Hs). simpl. done.
Qed.

Lemma content_range_count_spec_witness :
  ({[ "content-range" := "0-24/100" ]} : gmap string string) !! "content-range" =
    Some ("0-24" +:+ String slash "100") ∧
  has_char slash "0-24" = false ∧ has_char slash "100" = false ∧
  run (content_range_count (L:=unit)
         (Response 200 "[]" (Some (JArr [])) {[ "content-range" := "0-24/100" ]}))
      counted_env tt world0 = RunResult (Returns "100") tt world0.
Proof.
  split; [reflexivity|]. split; [reflexivity|]. split; [reflexivity|].
  exact (proj1 (content_range_count_spec
    (Response 200 "[]" (Some (JArr [])) {[ "content-range" := "0-24/100" ]})
    counted_env tt world0) "0-24" "100" eq_refl eq_refl eq_refl).
Defined.

Lemma forallb_false {A} (f : A → bool) (xs : list A) :
  forallb f xs = false → ∃ x, x ∈ xs ∧ f x = false.
Proof.
  induction xs as [|x xs IH]; simpl; [done|].
  destruct (f x) eqn:Hx; simpl.
  - intros (y & Hy & Hfy)%IH. exists y. split; [by right|done].
  - intros _. exists x. split; [by left|done].
Qed.

(** ** verify_setup.py: result and total *)

Section VerifySetupFacts.
Import VerifySetup.
Variable py_int : string → option Z.

Lemma run_verify_table_counted item e l w :
  let o := http_reply e (length (http_log w)) in
  let r := run (verify_table py_int item) e l w in
  res r = Returns tt ∧
  frame r = match record_count py_int o with
            | Some n => Locals (all_tables_exist l) (total_records l + n)
            | None => Locals false (total_records l)
            end ∧
  http_log (final r) = http_log w ++ [(count_request item.1, o)].
Proof.
  destruct item as [table description]. cbv zeta.
  unfold verify_table, record_count, count_text, mbind, prog_bind. simpl.
  destruct (http_reply e (length (http_log w))) as [x|r]; simpl; [done|].
  destruct (Z.eqb (status_code r) 200); simpl; [|done].
  unfold content_range_count. destruct (_ !! 1%nat) as [count|]; simpl; [|done].
  unfold ExecuteSchemaApi.int, option_bind. destruct (py_int count); simpl; done.
Qed.

Lemma run_verify_loop_counted items e l w :
  let cs := record_count py_int <$> replies e (length (http_log w)) (length items) in
  let r := run (for_each items (verify_table py_int)) e l w in
  res r = Returns tt ∧
  frame r = Locals (all_tables_exist l && forallb counted cs) (total_records l + sum_counts cs).
Proof.
  revert l w. induction items as [|item items IH]; intros l w; cbv zeta.
  - simpl. rewrite andb_true_r, Z.add_0_r. by destruct l.
  - rewrite run_for_each_cons.
    destruct (run_verify_table_counted item e l w) as (Hres & Hfr & Hlog).
    cbv zeta in Hres, Hfr, Hlog. rewrite Hres.
    destruct (IH (frame (run (verify_table py_int item) e l w))
                 (final (run (verify_table py_int item) e l w))) as [IHres IHfr].
    cbv zeta in IHfr. rewrite Hlog, length_app in IHfr. simpl length in IHfr.
    replace (length (http_log w) + 1)%nat with (S (length (http_log w))) in IHfr by lia.
    split; [done|]. rewrite IHfr, Hfr. simpl length. rewrite replies_S.
    cbn [fmap list_fmap forallb sum_counts].
    destruct (record_count py_int (http_reply e (length (http_log w)))) as [n|];
      cbn [counted default all_tables_exist total_records andb].
    + unfold id. f_equal; lia.
    + rewrite andb_false_r. f_equal; lia.
Qed.

Lemma sample_properties_returns e l w :
  res (run sample_properties e l w) = Returns tt.
Proof.
  unfold sample_properties. apply run_try_except_print.
  unfold print_property. no_exit_tac.
Qed.

Lemma site_settings_returns e l w :
  res (run site_settings e l w) = Returns tt.
Proof. unfold site_settings. apply run_try_except_print. no_exit_tac. Qed.

Lemma run_verify_database_setup e l w :
  let cs := record_count py_int <$> replies e (length (http_log w)) 5 in
  let r := run (verify_database_setup py_int) e l w in
  res r = Returns (forallb counted cs) ∧
  (forallb counted cs = true →
   [Lit "✓ Total records found: "; Num (sum_counts cs)] ∈ printed w (final r)).
Proof.
  cbv zeta. unfold verify_database_setup.
  rewrite run_bind, run_print. cbn [res frame final].
  rewrite run_bind, run_print. cbn [res frame final].
  rewrite run_bind. cbn [run store res frame final].
  rewrite run_bind. unfold verify_tables_loop.
  match goal with |- context [run (for_each ?items _) e ?l0 ?w0] =>
    destruct (run_verify_loop_counted items e l0 w0) as [Hres Hfr] end.
  cbv zeta in Hres, Hfr. cbn [emit http_log all_tables_exist total_records] in Hfr.
  change (length tables_to_verify) with 5%nat in Hfr.
  set (cs := record_count py_int <$> replies e (length (http_log w)) 5) in *. clearbody cs.
  rewrite Hres. rewrite run_bind, run_print. cbn [res frame final].
  rewrite run_bind. cbn [run load res frame final]. rewrite Hfr.
  cbn [all_tables_exist total_records]. rewrite andb_true_l, Z.add_0_l.
  destruct (forallb counted cs); cbv beta iota.
  - rewrite run_bind, run_print. cbn [res frame final].
    rewrite run_bind, run_print. cbn [res frame final].
    rewrite run_bind, run_print. cbn [res frame final].
    rewrite run_bind, sample_properties_returns.
    rewrite run_bind, site_settings_returns.
    rewrite run_bind, run_print. cbn [res frame final run]. split; [done|]. intros _.
    unfold printed. cbn [stdout emit].
    match goal with |- context [run site_settings e ?l1 (final (run sample_properties e ?l2 ?w2))] =>
      pose proof (run_extends sample_properties e l2 w2) as (_ & _ & _ & [s1 Hs1]);
      pose proof (run_extends site_settings e l1 (final (run sample_properties e l2 w2)))
        as (_ & _ & _ & [s2 Hs2])
    end.
    match goal with |- context [run (for_each ?items ?body) e ?l0 ?w0] =>
      pose proof (run_extends (for_each items body) e l0 w0) as (_ & _ & _ & [s0 Hs0])
    end.
    rewrite Hs2, Hs1. cbn [stdout emit]. rewrite Hs0. cbn [stdout emit].
    rewrite <- !app_assoc. rewrite drop_app_length.
    repeat (rewrite elem_of_app || rewrite elem_of_cons). intuition.
  - do 3 (rewrite run_bind, run_print; cbn [res frame final]). cbn [run res]. split; [done|].
    intros [=].
Qed.

(** X4. [verify_database_setup] never lets an exception out.  It returns
    [True] exactly when each of the five count requests is answered 200
    with a [Content-Range] whose count field [int] accepts, and [False]
    in every other case. *)
Theorem verify_database_setup_result e l w :
  let r := run (verify_database_setup py_int) e l w in
  (res r = Returns true ↔
   ∀ k, (k < 5)%nat → is_Some (record_count py_int (http_reply e (length (http_log w) + k)))) ∧
  (res r = Returns false ↔
   ∃ k, (k < 5)%nat ∧ record_count py_int (http_reply e (length (http_log w) + k)) = None).
Proof.
  cbv zeta. destruct (run_verify_database_setup e l w) as [-> _].
  set (n0 := length (http_log w)).
  assert (forallb counted (record_count py_int <$> replies e n0 5) = true ↔
          ∀ k, (k < 5)%nat → is_Some (record_count py_int (http_reply e (n0 + k)))) as Hall.
  { rewrite forallb_forall. split.
    - intros H k Hk.
      assert (In (record_count py_int (http_reply e (n0 + k)))
                 (record_count py_int <$> replies e n0 5)) as Hin.
      { apply list_elem_of_In, list_elem_of_fmap. eexists. split; [done|].
        apply elem_of_replies. eauto. }
      apply H in Hin. by destruct (record_count _ _).
    - intros H c (o & -> & (k & Hk & ->)%elem_of_replies)%list_elem_of_In%list_elem_of_fmap.
      by destruct (H k Hk) as [n ->]. }
  split.
  - split; [intros [= H]; by apply Hall|intros H; f_equal; by apply Hall].
  - split.
    + destruct (forallb counted (record_count py_int <$> replies e n0 5)) eqn:Hf;
        [intros [=]|intros _].
      apply forallb_false in Hf as (c & Hin & Hc).
      apply list_elem_of_fmap in Hin as (o & -> & (k & Hk & ->)%elem_of_replies).
      exists k. split; [done|]. by destruct (record_count _ _).
    + intros (k & Hk & Hc). f_equal. apply not_true_iff_false. rewrite Hall.
      intros H. destruct (H k Hk) as [n Hn]. congruence.
Qed.

(** X5. When all five counts are read, the line "Total records found"
    carries their sum. *)
Theorem verify_database_setup_total e l w (n : nat → Z) :
  (∀ k, (k < 5)%nat →
     record_count py_int (http_reply e (length (http_log w) + k)) = Some (n k)) →
  [Lit "✓ Total records found: ";
   Num (n 0%nat + n 1%nat + n 2%nat + n 3%nat + n 4%nat)]
    ∈ printed w (final (run (verify_database_setup py_int) e l w)).
Proof.
  intros Hn. destruct (run_verify_database_setup e l w) as [_ Htot]. cbv zeta in Htot.
  set (n0 := length (http_log w)) in *.
  assert (record_count py_int <$> replies e n0 5 =
          [Some (n 0%nat); Some (n 1%nat); Some (n 2%nat); Some (n 3%nat); Some (n 4%nat)])
    as Hcs.
  { pose proof (Hn 0%nat ltac:(lia)) as H0. pose proof (Hn 1%nat ltac:(lia)) as H1.
    pose proof (Hn 2%nat ltac:(lia)) as H2. pose proof (Hn 3%nat ltac:(lia)) as H3.
    pose proof (Hn 4%nat ltac:(lia)) as H4.
    replace (n0 + 0)%nat with n0 in H0 by lia.
    replace (n0 + 1)%nat with (S n0) in H1 by lia.
    replace (n0 + 2)%nat with (S (S n0)) in H2 by lia.
    replace (n0 + 3)%nat with (S (S (S n0))) in H3 by lia.
    replace (n0 + 4)%nat with (S (S (S (S n0)))) in H4 by lia.
    unfold replies. cbn [seq fmap list_fmap]. by rewrite H0, H1, H2, H3, H4. }
  rewrite Hcs in Htot. cbn [forallb counted andb sum_counts default] in Htot.
  replace (n 0%nat + n 1%nat + n 2%nat + n 3%nat + n 4%nat)
    with (n 0%nat + (n 1%nat + (n 2%nat + (n 3%nat + (n 4%nat + 0))))) by lia.
  by apply Htot.
Qed.

End VerifySetupFacts.

Lemma verify_database_setup_total_witness :
  (∀ k, (k < 5)%nat →
     record_count digit_int (http_reply counted_env (length (http_log world0) + k)) =
     Some (nth k [3; 0; 2; 1; 1] 0)) ∧
  [Lit "✓ Total records found: "; Num 7]
    ∈ printed world0 (final (run (VerifySetup.verify_database_setup digit_int) counted_env
                               (VerifySetup.Locals true 0) world0)).
Proof.
  assert (∀ k, (k < 5)%nat →
     record_count digit_int (http_reply counted_env (length (http_log world0) + k)) =
     Some (nth k [3; 0; 2; 1; 1] 0)) as H.
  { intros k Hk. do 5 (destruct k as [|k]; [reflexivity|]). lia. }
  split; [exact H|].
  exact (verify_database_setup_total digit_int counted_env (VerifySetup.Locals true 0) world0
           (λ k, nth k [3; 0; 2; 1; 1] 0) H).
Defined.

(** ** execute_schema_api.py: result and exit status *)

Section ExecuteSchemaApiFacts.
Import ExecuteSchemaApi.
Variable py_int : string → option Z.

Lemma run_api_check_table table e l w :
  let o := http_reply e (length (http_log w)) in
  let r := run (check_table table) e l w in
  res r = Returns tt ∧
  frame r = match count_text o with Some c => l ++ [(table, c)] | None => l end ∧
  http_log (final r) = http_log w ++ [(count_request table, o)].
Proof.
  cbv zeta. unfold check_table, count_text, mbind, prog_bind. simpl.
  destruct (http_reply e (length (http_log w))) as [x|r]; simpl; [done|].
  destruct (Z.eqb (status_code r) 200); simpl; [|done].
  unfold content_range_count. destruct (_ !! 1%nat) as [count|]; simpl; done.
Qed.

Lemma run_api_check_tables ts e l w :
  let os := replies e (length (http_log w)) (length ts) in
  let r := run (for_each ts check_table) e l w in
  res r = Returns tt ∧
  frame r = l ++ found_tables ts os ∧
  http_log (final r) = http_log w ++ zip (count_request <$> ts) os.
Proof.
  revert l w. induction ts as [|t ts IH]; intros l w; cbv zeta.
  - simpl. by rewrite !app_nil_r.
  - rewrite run_for_each_cons.
    destruct (run_api_check_table t e l w) as (Hres & Hfr & Hlog).
    cbv zeta in Hres, Hfr, Hlog. rewrite Hres.
    destruct (IH (frame (run (check_table t) e l w)) (final (run (check_table t) e l w)))
      as (IHres & IHfr & IHlog).
    cbv zeta in IHfr, IHlog. rewrite Hlog, length_app in IHfr, IHlog.
    simpl length in IHfr, IHlog.
    replace (length (http_log w) + 1)%nat with (S (length (http_log w))) in IHfr, IHlog by lia.
    split; [done|]. rewrite IHfr, IHlog, Hfr. simpl length. rewrite replies_S.
    cbn [found_tables fmap list_fmap zip zip_with].
    destruct (count_text (http_reply e (length (http_log w)))); rewrite <- !app_assoc; done.
Qed.

Lemma found_tables_cons t ts o os :
  found_tables (t :: ts) (o :: os) =
  match count_text o with
  | Some c => (t, c) :: found_tables ts os
  | None => found_tables ts os
  end.
Proof. reflexivity. Qed.

Lemma found_tables_length ts os : (length (found_tables ts os) ≤ length ts)%nat.
Proof.
  revert os. induction ts as [|t ts IH]; intros [|o os]; simpl; try lia.
  destruct (count_text o); simpl; specialize (IH os); lia.
Qed.

Lemma found_tables_all ts os :
  length os = length ts →
  (length (found_tables ts os) = length ts ↔ forallb counted (count_text <$> os) = true).
Proof.
  revert os. induction ts as [|t ts IH]; intros [|o os] Hlen; simpl in *; try done.
  injection Hlen as Hlen. destruct (count_text o) eqn:Ho; simpl.
  - rewrite <- (IH os Hlen). lia.
  - pose proof (found_tables_length ts os). split; [lia|done].
Qed.

Lemma report_sample_data_others {L} (xs : list (string * string)) e (l : L) w :
  Forall (λ tc, tc.1 ≠ "properties") xs →
  run (report_sample_data py_int xs) e l w = RunResult (Returns tt) l w.
Proof.
  induction 1 as [|[t c] xs Ht _ IH]; simpl; [done|].
  simpl in Ht. by destruct (String.eqb_spec t "properties").
Qed.

Lemma found_tables_others ts os :
  Forall (λ t, t ≠ "properties") ts →
  Forall (λ tc : string * string, tc.1 ≠ "properties") (found_tables ts os).
Proof.
  intros Hts. revert os. induction Hts as [|t ts Ht _ IH]; intros [|o os]; simpl;
    try constructor.
  destruct (count_text o); [constructor; [done|]|]; apply IH.
Qed.

Lemma run_check_if_tables_exist e l w :
  let os := replies e (length (http_log w)) 5 in
  let r := run (check_if_tables_exist py_int) e l w in
  res r =
    if forallb counted (count_text <$> os) then
      match count_text (http_reply e (length (http_log w))) ≫= py_int with
      | Some _ => Returns true
      | None =>
          Raises (Exc (Exn ValueError
                         ("invalid literal for int() with base 10: '" +:+
                          default EmptyString (count_text (http_reply e (length (http_log w))))
                          +:+ "'")))
      end
    else Returns false.
Proof.
  cbv zeta. unfold check_if_tables_exist.
  rewrite run_bind. cbn [run store res frame final].
  rewrite run_bind, run_print. cbn [res frame final].
  rewrite run_bind.
  match goal with |- context [run (for_each ?ts _) e ?l0 ?w0] =>
    destruct (run_api_check_tables ts e l0 w0) as (Hres & Hfr & _) end.
  cbv zeta in Hres, Hfr. cbn [emit http_log] in Hfr. rewrite app_nil_l in Hfr.
  change (length tables_to_check) with 5%nat in Hfr.
  rewrite Hres. rewrite run_bind. cbn [run load res frame final]. rewrite Hfr.
  pose proof (found_tables_all tables_to_check (replies e (length (http_log w)) 5)
                (length_replies _ _ _)) as Hall.
  change (length tables_to_check) with 5%nat in *.
  destruct (forallb counted (count_text <$> replies e (length (http_log w)) 5)) eqn:Hc.
  - rewrite (proj2 Hall eq_refl). cbn [Nat.eqb].
    rewrite run_bind, run_print. cbn [res frame final].
    rewrite run_bind. unfold tables_to_check. rewrite replies_S in Hc |- *.
    rewrite found_tables_cons. cbn [fmap list_fmap forallb] in Hc.
    destruct (count_text (http_reply e (length (http_log w)))) as [c0|]; [|done].
    cbn [report_sample_data mbind option_bind]. change (String.eqb "properties" "properties") with true.
    cbv iota. unfold int.
    destruct (py_int c0) as [n|]; [|done].
    rewrite run_bind. cbn [run res frame final].
    destruct (Z.ltb 0 n).
    + rewrite run_print. done.
    + rewrite report_sample_data_others; [done|].
      apply found_tables_others. repeat constructor; discriminate.
  - destruct (Nat.eqb_spec (length (found_tables tables_to_check
                (replies e (length (http_log w)) 5))) 5) as [Heq|Hne].
    + apply Hall in Heq. congruence.
    + rewrite run_bind, run_print. cbn [res frame final].
      rewrite run_bind, run_print. done.
Qed.

Lemma forallb_counted_replies e n0 :
  forallb counted (count_text <$> replies e n0 5) = true ↔
  ∀ k, (k < 5)%nat → is_Some (count_text (http_reply e (n0 + k))).
Proof.
  rewrite forallb_forall. split.
  - intros H k Hk.
    assert (In (count_text (http_reply e (n0 + k))) (count_text <$> replies e n0 5)) as Hin.
    { apply list_elem_of_In, list_elem_of_fmap. eexists. split; [done|].
      apply elem_of_replies. eauto. }
    apply H in Hin. by destruct (count_text _).
  - intros H c (o & -> & (k & Hk & ->)%elem_of_replies)%list_elem_of_In%list_elem_of_fmap.
    by destruct (H k Hk) as [n ->].
Qed.

Lemma run_execute_schema_via_api_exit e (l : unit) w :
  exit_code (res (run (call execute_schema_via_api tt ≫= λ _ : bool, sys_exit (A:=unit) 1)
                    e l w)) = 1.
Proof.
  rewrite run_bind, run_call. cbn [res frame final].
  unfold execute_schema_via_api. rewrite run_bind, run_print. cbn [res frame final].
  rewrite run_bind.
  destruct (file_reply e schema_path) as [sql|x] eqn:Hf.
  - rewrite (run_read_schema_file _ _ _ _ Hf). cbn [res frame final].
    rewrite run_bind, run_for_each_print. done.
  - unfold read_schema_file, read_file. simpl. rewrite Hf. simpl.
    destruct (is_file_not_found (exn_cls x)); simpl; done.
Qed.

(** X6. [execute_schema_api.py] exits with status 0 exactly when each of
    the five count requests is answered 200 with a [Content-Range] that
    has a field after its first slash, and [int] accepts that field for
    the first table, [properties]; in every other case it exits with
    status 1. *)
Theorem execute_schema_api_exit_status e w :
  (exit_code (res (run (main py_int) e tt w)) = 0 ↔
   (∀ k, (k < 5)%nat → is_Some (count_text (http_reply e (length (http_log w) + k)))) ∧
   is_Some (count_text (http_reply e (length (http_log w))) ≫= py_int)) ∧
  (exit_code (res (run (main py_int) e tt w)) = 0 ∨
   exit_code (res (run (main py_int) e tt w)) = 1).
Proof.
  unfold main.
  rewrite run_bind, run_print. cbn [res frame final].
  rewrite run_bind, run_print. cbn [res frame final].
  rewrite run_bind, run_call. cbn [res frame final].
  rewrite run_check_if_tables_exist. cbn [emit http_log].
  rewrite <- forallb_counted_replies.
  destruct (forallb counted (count_text <$> replies e (length (http_log w)) 5)).
  - destruct (count_text (http_reply e (length (http_log w))) ≫= py_int) as [n|]; cbn.
    + split; [|by left]. split; [eauto|done].
    + split; [|by right]. split; [done|]. by intros [_ [? ?]].
  - cbv iota. rewrite run_bind, run_print. cbn [res frame final].
    rewrite run_execute_schema_via_api_exit. split; [|by right].
    split; [done|]. by intros [? _].
Qed.

(** X7. When all five tables are counted but [int] rejects the count of
    [properties], [check_if_tables_exist] prints that all tables exist
    and then raises [ValueError]: the conversion is outside the [try],
    and the script ends with status 1. *)
Theorem check_if_tables_exist_count_not_int e l w c0 :
  (∀ k, (k < 5)%nat → is_Some (count_text (http_reply e (length (http_log w) + k)))) →
  count_text (http_reply e (length (http_log w))) = Some c0 →
  py_int c0 = None →
  let r := run (check_if_tables_exist py_int) e l w in
  res r = Raises (Exc (Exn ValueError
                         ("invalid literal for int() with base 10: '" +:+ c0 +:+ "'"))) ∧
  [Lit (nl +:+ "🎉 All "); Num 5; Lit " tables exist! Database schema appears to be set up."]
    ∈ printed w (final r).
Proof.
  intros Hall Hc0 Hint. cbv zeta. split.
  - rewrite run_check_if_tables_exist.
    rewrite (proj2 (forallb_counted_replies e _) Hall), Hc0. simpl. by rewrite Hint.
  - unfold check_if_tables_exist.
    rewrite run_bind. cbn [run store res frame final].
    rewrite run_bind, run_print. cbn [res frame final].
    rewrite run_bind.
    match goal with |- context [run (for_each ?ts ?body) e ?l0 ?w0] =>
      destruct (run_api_check_tables ts e l0 w0) as (Hres & Hfr & _);
      pose proof (run_extends (for_each ts body) e l0 w0) as (_ & _ & _ & [s0 Hs0])
    end.
    cbv zeta in Hres, Hfr. cbn [emit http_log] in Hfr. rewrite app_nil_l in Hfr.
    change (length tables_to_check) with 5%nat in Hfr.
    rewrite Hres. rewrite run_bind. cbn [run load res frame final]. rewrite Hfr.
    pose proof (found_tables_all tables_to_check (replies e (length (http_log w)) 5)
                  (length_replies _ _ _)) as Hlen.
    rewrite (proj2 Hlen (proj2 (forallb_counted_replies e _) Hall)).
    change (length tables_to_check) with 5%nat. cbn [Nat.eqb].
    rewrite run_bind, run_print. cbn [res frame final].
    match goal with |- context [run ?p e ?l1 ?w1] =>
      pose proof (run_extends p e l1 w1) as (_ & _ & _ & [s1 Hs1]) end.
    unfold printed. rewrite Hs1. cbn [stdout emit]. rewrite Hs0. cbn [stdout emit].
    rewrite <- !app_assoc, drop_app_length.
    repeat (rewrite elem_of_app || rewrite elem_of_cons). intuition.
Qed.

End ExecuteSchemaApiFacts.

Lemma check_if_tables_exist_count_not_int_witness :
  (∀ k, (k < 5)%nat →
     is_Some (count_text (http_reply star_count_env (length (http_log world0) + k)))) ∧
  count_text (http_reply star_count_env (length (http_log world0))) = Some "*" ∧
  digit_int "*" = None ∧
  res (run (ExecuteSchemaApi.check_if_tables_exist digit_int) star_count_env [] world0) =
    Raises (Exc (Exn ValueError "invalid literal for int() with base 10: '*'")).
Proof.
  assert (∀ k, (k < 5)%nat →
     is_Some (count_text (http_reply star_count_env (length (http_log world0) + k)))) as H
    by (intros k _; by eexists).
  split; [exact H|]. split; [reflexivity|]. split; [reflexivity|].
  exact (proj1 (check_if_tables_exist_count_not_int digit_int star_count_env [] world0 "*"
                  H eq_refl eq_refl)).
Defined.

(** ** The schema file *)

(** X8. When the schema file is missing, both schema scripts print one
    error line after "Reading schema file..." and leave through
    [sys.exit(1)]: no connection is attempted, no instructions are
    printed.  Any other failure to read the file is not caught and
    reaches the top level as it is. *)
Theorem schema_file_unreadable e (l : unit) w x :
  file_reply e ExecuteSchemaApi.schema_path = FileFailed x →
  let missing := [[Lit "Reading schema file..."];
                  [Lit "ERROR: Schema file not found at "; Lit ExecuteSchemaApi.schema_path]] in
  let r1 := run ExecuteSchema.execute_schema e l w in
  let r2 := run ExecuteSchemaApi.execute_schema_via_api e l w in
  db_log (final r1) = db_log w ∧ http_log (final r2) = http_log w ∧
  (is_file_not_found (exn_cls x) = true →
     res r1 = Raises (SysExit 1) ∧ printed w (final r1) = missing ∧
     res r2 = Raises (SysExit 1) ∧ printed w (final r2) = missing) ∧
  (is_file_not_found (exn_cls x) = false →
     res r1 = Raises (Exc x) ∧ printed w (final r1) = [[Lit "Reading schema file..."]] ∧
     res r2 = Raises (Exc x) ∧ printed w (final r2) = [[Lit "Reading schema file..."]]).
Proof.
  intros Hf. cbv zeta.
  unfold ExecuteSchema.execute_schema, ExecuteSchemaApi.execute_schema_via_api,
    ExecuteSchemaApi.read_schema_file, read_file, mbind, prog_bind, printed.
  simpl. rewrite Hf. simpl.
  destruct (is_file_not_found (exn_cls x)); simpl;
    rewrite <- ?app_assoc; simpl; rewrite ?drop_app_length; repeat split; done.
Qed.

Lemma schema_file_unreadable_witness :
  file_reply no_schema_env ExecuteSchemaApi.schema_path =
    FileFailed (Exn FileNotFoundError "No such file or directory") ∧
  res (run ExecuteSchema.execute_schema no_schema_env tt world0) = Raises (SysExit 1) ∧
  res (run ExecuteSchemaApi.execute_schema_via_api no_schema_env tt world0) =
    Raises (SysExit 1) ∧
  file_reply unreadable_schema_env ExecuteSchemaApi.schema_path =
    FileFailed (Exn OtherException "Permission denied") ∧
  res (run ExecuteSchema.execute_schema unreadable_schema_env tt world0) =
    Raises (Exc (Exn OtherException "Permission denied")).
Proof.
  split; [reflexivity|].
  destruct (schema_file_unreadable no_schema_env tt world0 _ eq_refl) as (_ & _ & H1 & _).
  destruct (H1 eq_refl) as (Ha & _ & Hb & _).
  split; [exact Ha|]. split; [exact Hb|]. split; [reflexivity|].
  destruct (schema_file_unreadable unreadable_schema_env tt world0 _ eq_refl)
    as (_ & _ & _ & H2).
  exact (proj1 (H2 eq_refl)).
Defined.

(** ** setup_storage.py: listings and requests *)

Section SetupStorageMore.
Import SetupStorage.

Ltac each_bucket names e w :=
  unfold provision, bucket_step, buckets;
  cbn [bucket_id bucket_public bucket_name fst snd length];
  destruct (name_in "property-photos" names);
  [|destruct (outcome_created (http_reply e (S (length (http_log w)))))];
  cbn [fst snd length app Nat.add];
  (destruct (name_in "blog-images" names);
   [|match goal with |- context [outcome_created ?o] => destruct (outcome_created o) end]);
  cbn [fst snd length app Nat.add].

Lemma names_of_nameless items b :
  b ∈ items → item_name b = None → names_of items = None.
Proof.
  induction 1 as [b items|b b' items _ IH]; intros Hb; simpl.
  - by rewrite Hb.
  - rewrite (IH Hb). by destruct (item_name b').
Qed.

Lemma nothing_listed_all_created e l w :
  listed (http_reply e (length (http_log w))) = [] →
  existing_bucket_names (frame (run check_existing_buckets e l w)) = [] ∧
  ∀ b, b ∈ buckets →
    create_request b ∈ issued w (final (run setup_storage_buckets e l w)).
Proof.
  intros Hnone. split.
  - destruct (run_check_existing_buckets e l w) as (_ & -> & _). by rewrite Hnone.
  - destruct (run_setup_storage_buckets e l w) as [_ Hlog]. cbv zeta in Hlog.
    rewrite (issued_app _ _ _ Hlog), Hnone. clear Hlog.
    unfold provision, bucket_step, buckets.
    intros b [->|[->|[]%elem_of_nil]%elem_of_cons]%elem_of_cons.
    all: cbn [name_in existsb bucket_id bucket_public fst snd].
    all: destruct (outcome_created (http_reply e (S (length (http_log w)))));
      cbn [fst snd length app Nat.add];
      match goal with |- context [outcome_created ?o] => destruct (outcome_created o) end;
      cbn [fst snd length app fmap list_fmap];
      simpl; by repeat constructor.
Qed.

(** X9. One entry without a ["name"] key spoils the whole listing: the
    names of the other entries are dropped with it, the list of existing
    buckets is empty, and a creation request is sent for every required
    bucket, the listed ones included. *)
Theorem nameless_entry_discards_listing e l w r items b :
  http_reply e (length (http_log w)) = Returned r →
  status_code r = 200 →
  resp_json r = Some (JArr items) →
  b ∈ items → item_name b = None →
  existing_bucket_names (frame (run check_existing_buckets e l w)) = [] ∧
  ∀ bk, bk ∈ buckets →
    create_request bk ∈ issued w (final (run setup_storage_buckets e l w)).
Proof.
  intros Ho Hst Hj Hb Hname. apply nothing_listed_all_created.
  rewrite Ho. unfold listed. rewrite Hst, Hj. simpl.
  by rewrite (names_of_nameless _ _ Hb Hname).
Qed.

Lemma nameless_entry_discards_listing_witness :
  item_name (JObj [("id", JStr "blog-images")]) = None ∧
  existing_bucket_names
    (frame (run check_existing_buckets nameless_entry_env (Locals [] 0) world0)) = [] ∧
  ∀ bk, bk ∈ buckets →
    create_request bk ∈
      issued world0 (final (run setup_storage_buckets nameless_entry_env (Locals [] 0) world0)).
Proof.
  split; [reflexivity|].
  refine (nameless_entry_discards_listing nameless_entry_env (Locals [] 0) world0 _
            _ (JObj [("id", JStr "blog-images")]) eq_refl eq_refl eq_refl _ eq_refl).
  right. left.
Defined.

(** X10. No exception leaves [setup_storage_buckets], and it sends at
    least one and at most five requests: the listing, then for each of
    the two buckets at most a creation and a request for the public
    flag. *)
Theorem setup_storage_buckets_bounded e l w :
  let r := run setup_storage_buckets e l w in
  (∃ ok, res r = Returns ok) ∧
  (1 ≤ length (issued w (final r)) ≤ 5)%nat.
Proof.
  cbv zeta. destruct (run_setup_storage_buckets e l w) as [Hres Hlog].
  cbv zeta in Hres, Hlog. split; [eauto|].
  rewrite (issued_app _ _ _ Hlog), length_fmap. clear Hres Hlog.
  set (names := listed (http_reply e (length (http_log w)))). clearbody names.
  each_bucket names e w; simpl; lia.
Qed.

(** X11. Whether a created bucket counts as ready does not depend on
    the request that sets its public flag: when no bucket is listed and
    both creations are answered 200 or 201, the function returns [True]
    whatever the two flag requests do. *)
Theorem result_ignores_public_flag_requests e l w :
  listed (http_reply e (length (http_log w))) = [] →
  outcome_created (http_reply e (length (http_log w) + 1)) = true →
  outcome_created (http_reply e (length (http_log w) + 3)) = true →
  res (run setup_storage_buckets e l w) = Returns true.
Proof.
  intros Hnone Hc1 Hc2. destruct (run_setup_storage_buckets e l w) as [-> _].
  rewrite Hnone. unfold provision, bucket_step, buckets.
  cbn [name_in existsb bucket_id bucket_public fst snd].
  replace (length (http_log w) + 1)%nat with (S (length (http_log w))) in Hc1 by lia.
  replace (length (http_log w) + 3)%nat with (S (length (http_log w)) + 2)%nat in Hc2 by lia.
  rewrite Hc1. cbn [fst snd length]. rewrite Hc2. reflexivity.
Qed.

Lemma result_ignores_public_flag_requests_witness :
  listed (http_reply put_fails_env (length (http_log world0))) = [] ∧
  outcome_created (http_reply put_fails_env (length (http_log world0) + 1)) = true ∧
  outcome_created (http_reply put_fails_env (length (http_log world0) + 3)) = true ∧
  http_reply put_fails_env 2 = Failed (Exn RequestException "Read timed out") ∧
  res (run setup_storage_buckets put_fails_env (Locals [] 0) world0) = Returns true.
Proof.
  split; [reflexivity|]. split; [reflexivity|]. split; [reflexivity|].
  split; [reflexivity|].
  exact (result_ignores_public_flag_requests put_fails_env (Locals [] 0) world0
           eq_refl eq_refl eq_refl).
Defined.

End SetupStorageMore.

(** ** schema_verification.py: tables that cannot be read *)

Section SchemaVerificationMore.
Import SchemaVerification.

(** X12. A table whose request is answered with another status than 200
    (a table that does not exist, say) is reported with the line "Table
    exists but is empty": [check_table_schema] gives [None] for it as for
    an empty table, and the loop goes on. *)
Theorem missing_table_reported_as_empty set_listing e (l : unit) w table_name
    expected_columns r :
  http_reply e (length (http_log w)) = Returned r →
  status_code r ≠ 200 →
  let out := run (check_table set_listing (table_name, expected_columns)) e l w in
  res out = Returns tt ∧
  printed w (final out) =
    [[Lit (nl +:+ "Checking "); Lit (upper table_name); Lit " table:"];
     [Lit (repeat_str "-" 40)];
     [Lit "⚠️  Table exists but is empty - cannot verify full schema"]].
Proof.
  intros Ho Hst. cbv zeta. apply Z.eqb_neq in Hst.
  unfold check_table, check_table_schema, printed, mbind, prog_bind. simpl.
  rewrite Ho. simpl. rewrite Hst. simpl.
  rewrite <- !app_assoc. simpl. by rewrite drop_app_length.
Qed.

Lemma missing_table_reported_as_empty_witness :
  http_reply not_found_env (length (http_log world0)) =
    Returned (Response 404 "Not Found" (Some (JObj [("message", JStr "Not Found")])) ∅) ∧
  404 ≠ 200 ∧
  printed world0 (final (run (check_table sorted_listing ("blog_posts", ["id"; "title"]))
                           not_found_env tt world0)) =
    [[Lit (nl +:+ "Checking "); Lit "BLOG_POSTS"; Lit " table:"];
     [Lit (repeat_str "-" 40)];
     [Lit "⚠️  Table exists but is empty - cannot verify full schema"]].
Proof.
  split; [reflexivity|]. split; [discriminate|].
  exact (proj2 (missing_table_reported_as_empty sorted_listing not_found_env tt world0 "blog_posts"
                  ["id"; "title"] _ eq_refl ltac:(discriminate))).
Defined.

(** X13. Nothing in schema_verification.py catches an exception: when
    the request of a table raises, the loop stops there, the tables
    after it are not requested, and the error reaches the top level. *)
Theorem schema_check_stops_at_first_error set_listing e (l : unit) w item rest x :
  http_reply e (length (http_log w)) = Failed x →
  let out := run (for_each (item :: rest) (check_table set_listing)) e l w in
  res out = Raises (Exc x) ∧
  issued w (final out) = [schema_request item.1] ∧
  exit_code (res out) = 1.
Proof.
  intros Ho. cbv zeta. destruct item as [table_name expected_columns].
  rewrite run_for_each_cons.
  unfold check_table, check_table_schema, issued, requests, mbind, prog_bind. simpl.
  rewrite Ho. simpl. rewrite fmap_app, <- (length_fmap fst (http_log w)), drop_app_length.
  done.
Qed.

Lemma schema_check_stops_at_first_error_witness :
  http_reply offline_env (length (http_log world0)) =
    Failed (Exn RequestException "Connection refused") ∧
  res (run (for_each expected_schemas (check_table sorted_listing)) offline_env tt world0) =
    Raises (Exc (Exn RequestException "Connection refused")) ∧
  issued world0 (final (run (for_each expected_schemas (check_table sorted_listing)) offline_env tt world0)) =
    [schema_request "properties"].
Proof.
  split; [reflexivity|].
  destruct (schema_check_stops_at_first_error sorted_listing offline_env tt world0
              ("properties", ["id"; "name"; "slug"; "description"; "short_description";
                "location"; "address"; "map_url"; "airbnb_url"; "airbnb_ical_url";
                "amenities"; "featured"; "active"; "display_order"; "created_at"; "updated_at"])
              (tail expected_schemas) _ eq_refl) as (H1 & H2 & _).
  split; [exact H1|exact H2].
Defined.

End SchemaVerificationMore.

(** ** detailed_data_check.py: the report *)

Lemma dict_get_lookup d key v default :
  dict_lookup d key = Some v → dict_get d key default = v.
Proof.
  induction d as [|[k x] d IH]; simpl; [done|].
  destruct (String.eqb k key); [by intros [= ->]|done].
Qed.

Section DetailedDataCheckFacts.
Import DetailedDataCheck.

(** X14. A property whose [description] is [null] ends the report:
    [.get('description', 'N/A')] gives [None], not the default, since the
    key is there, slicing it raises [TypeError], and nothing catches it.
    The lines up to the slug of that property are printed, and no other
    table is requested. *)
Theorem null_description_ends_report e (l : unit) w r d rest :
  http_reply e (length (http_log w)) = Returned r →
  status_code r = 200 →
  resp_json r = Some (JArr (JObj d :: rest)) →
  dict_lookup d "description" = Some JNull →
  let out := run main e l w in
  res out = Raises (Exc (Exn TypeError "'NoneType' object is not subscriptable")) ∧
  issued w (final out) = [table_request "properties"] ∧
  printed w (final out) =
    [[Lit "DETAILED DATA VERIFICATION"];
     [Lit (repeat_str "=" 50)];
     [Lit (nl +:+ "1. PROPERTIES TABLE:")];
     [Lit (repeat_str "-" 30)];
     [Lit "Total properties: "; Num (Z.of_nat (S (length rest)))];
     [Lit (nl +:+ "Property "); Num 1; Lit ":"];
     [Lit "  ID: "; Val (dict_get d "id" JNull)];
     [Lit "  Name: "; Val (dict_get d "name" JNull)];
     [Lit "  Slug: "; Val (dict_get d "slug" JNull)]].
Proof.
  intros Ho Hst Hj Hd. cbv zeta.
  unfold main, properties_part, get_data, response_json, issued, requests, printed,
    mbind, prog_bind.
  cbn [bind print send run http_log emit]. rewrite Ho. cbn [bind run]. rewrite Hst.
  cbn [Z.eqb Pos.eqb bind run]. rewrite Hj.
  cbn -[repeat_str nl Z.of_nat String.append]. 
  rewrite (dict_get_lookup _ _ _ _ Hd).
  cbn -[repeat_str nl Z.of_nat String.append].
  split; [done|]. split.
  - by rewrite fmap_app, <- (length_fmap fst (http_log w)), drop_app_length.
  - rewrite <- !app_assoc. cbn [app]. by rewrite drop_app_length.
Qed.

Lemma null_description_ends_report_witness :
  dict_lookup [("id", JNum 1); ("name", JStr "Cozy Loft"); ("slug", JStr "cozy-loft");
               ("description", JNull)] "description" = Some JNull ∧
  res (run main null_description_env tt world0) =
    Raises (Exc (Exn TypeError "'NoneType' object is not subscriptable")) ∧
  issued world0 (final (run main null_description_env tt world0)) =
    [table_request "properties"].
Proof.
  split; [reflexivity|].
  destruct (null_description_ends_report null_description_env tt world0 _
              [("id", JNum 1); ("name", JStr "Cozy Loft"); ("slug", JStr "cozy-loft");
               ("description", JNull)] [] eq_refl eq_refl eq_refl eq_refl) as (H1 & H2 & _).
  split; [exact H1|exact H2].
Defined.

(** [get_data] on a reply that leaves nothing to show. *)
Lemma run_get_data_nothing table_name e (l : unit) w :
  let o := http_reply e (length (http_log w)) in
  nothing_to_show o = true →
  ∃ j, truthy j = false ∧
    run (get_data table_name) e l w =
    RunResult (Returns j) l
      (World (http_log w ++ [(table_request table_name, o)]) (db_log w) (file_log w)
             (stdout w ++ fetch_error table_name o)).
Proof.
  cbv zeta. unfold get_data, response_json, nothing_to_show, fetch_error, mbind, prog_bind.
  cbn [bind send run]. destruct (http_reply e (length (http_log w))) as [x|r]; [done|].
  cbn [bind run]. destruct (Z.eqb (status_code r) 200).
  - destruct (resp_json r) as [j|]; [|done]. intros Hj. exists j.
    split; [by destruct (truthy j)|]. cbn [run log_http]. by rewrite app_nil_r.
  - intros _. exists JNull. split; [done|]. reflexivity.
Qed.

Lemma run_unlisted_part heading table_name (f : json → prog unit unit) e (l : unit) w :
  let o := http_reply e (length (http_log w)) in
  nothing_to_show o = true →
  run (print [Lit heading];; print [Lit (repeat_str "-" 30)];;
       rows ← get_data table_name; if truthy rows then f rows else Ret tt) e l w =
  RunResult (Returns tt) l
    (World (http_log w ++ [(table_request table_name, o)]) (db_log w) (file_log w)
           (stdout w ++ [[Lit heading]; [Lit (repeat_str "-" 30)]] ++ fetch_error table_name o)).
Proof.
  cbv zeta. intros Ho. rewrite run_bind, run_print. cbn [res frame final].
  rewrite run_bind, run_print. cbn [res frame final]. rewrite run_bind.
  destruct (run_get_data_nothing table_name e l
              (emit (emit w [Lit heading]) [Lit (repeat_str "-" 30)]) Ho) as (j & Hj & ->).
  cbn [res frame final]. rewrite Hj. cbn [run emit http_log db_log file_log stdout].
  by rewrite <- !app_assoc.
Qed.

Lemma run_listed_part heading table_name total none show e (l : unit) w :
  let o := http_reply e (length (http_log w)) in
  nothing_to_show o = true →
  run (listed_part heading table_name total none show) e l w =
  RunResult (Returns tt) l
    (World (http_log w ++ [(table_request table_name, o)]) (db_log w) (file_log w)
           (stdout w ++ [[Lit (nl +:+ heading)]; [Lit (repeat_str "-" 30)]] ++
              fetch_error table_name o ++ [[Lit none]])).
Proof.
  cbv zeta. intros Ho. unfold listed_part.
  rewrite run_bind, run_print. cbn [res frame final].
  rewrite run_bind, run_print. cbn [res frame final]. rewrite run_bind.
  destruct (run_get_data_nothing table_name e l
              (emit (emit w [Lit (nl +:+ heading)]) [Lit (repeat_str "-" 30)]) Ho)
    as (j & Hj & ->).
  cbn [res frame final]. rewrite Hj, run_print.
  unfold emit. cbn [http_log db_log file_log stdout].
  by rewrite <- !app_assoc.
Qed.

Lemma run_properties_part e (l : unit) w :
  let o := http_reply e (length (http_log w)) in
  nothing_to_show o = true →
  run properties_part e l w =
  RunResult (Returns tt) l
    (World (http_log w ++ [(table_request "properties", o)]) (db_log w) (file_log w)
           (stdout w ++ [[Lit (nl +:+ "1. PROPERTIES TABLE:")]; [Lit (repeat_str "-" 30)]] ++
              fetch_error "properties" o)).
Proof. apply run_unlisted_part. Qed.

Lemma run_settings_part e (l : unit) w :
  let o := http_reply e (length (http_log w)) in
  nothing_to_show o = true →
  run settings_part e l w =
  RunResult (Returns tt) l
    (World (http_log w ++ [(table_request "site_settings", o)]) (db_log w) (file_log w)
           (stdout w ++ [[Lit (nl +:+ "2. SITE_SETTINGS TABLE:")]; [Lit (repeat_str "-" 30)]] ++
              fetch_error "site_settings" o)).
Proof. apply run_unlisted_part. Qed.

Lemma run_main_nothing e (l : unit) w :
  (∀ k, (k < 5)%nat → nothing_to_show (http_reply e (length (http_log w) + k)) = true) →
  let o k := http_reply e (length (http_log w) + k) in
  run main e l w =
  RunResult (Returns tt) l
    (World
       (http_log w ++
          [(table_request "properties", o 0%nat); (table_request "site_settings", o 1%nat);
           (table_request "property_photos", o 2%nat);
           (table_request "calendar_events", o 3%nat);
           (table_request "blog_posts", o 4%nat)])
       (db_log w) (file_log w)
       (stdout w ++
          [[Lit "DETAILED DATA VERIFICATION"]; [Lit (repeat_str "=" 50)]] ++
          [[Lit (nl +:+ "1. PROPERTIES TABLE:")]; [Lit (repeat_str "-" 30)]] ++
          fetch_error "properties" (o 0%nat) ++
          [[Lit (nl +:+ "2. SITE_SETTINGS TABLE:")]; [Lit (repeat_str "-" 30)]] ++
          fetch_error "site_settings" (o 1%nat) ++
          [[Lit (nl +:+ "3. PROPERTY_PHOTOS TABLE:")]; [Lit (repeat_str "-" 30)]] ++
          fetch_error "property_photos" (o 2%nat) ++ [[Lit "No photos found"]] ++
          [[Lit (nl +:+ "4. CALENDAR_EVENTS TABLE:")]; [Lit (repeat_str "-" 30)]] ++
          fetch_error "calendar_events" (o 3%nat) ++ [[Lit "No events found"]] ++
          [[Lit (nl +:+ "5. BLOG_POSTS TABLE:")]; [Lit (repeat_str "-" 30)]] ++
          fetch_error "blog_posts" (o 4%nat) ++ [[Lit "No blog posts found"]])).
Proof.
  intros Hall. cbv zeta.
  pose proof (Hall 0%nat ltac:(lia)) as H0. pose proof (Hall 1%nat ltac:(lia)) as H1.
  pose proof (Hall 2%nat ltac:(lia)) as H2. pose proof (Hall 3%nat ltac:(lia)) as H3.
  pose proof (Hall 4%nat ltac:(lia)) as H4. clear Hall.
  rewrite Nat.add_0_r in *.
  unfold main, photos_part, events_part, posts_part.
  rewrite run_bind, run_print. cbn [res frame final].
  rewrite run_bind, run_print. cbn [res frame final].
  rewrite run_bind, run_properties_part by exact H0.
  cbn [res frame final http_log emit].
  rewrite run_bind, run_settings_part
    by (cbn [http_log]; rewrite length_app; exact H1).
  cbn [res frame final http_log db_log file_log stdout].
  rewrite run_bind, run_listed_part
    by (cbn [http_log]; rewrite !length_app; cbn [length];
        by replace (length (http_log w) + 1 + 1)%nat with (length (http_log w) + 2)%nat by lia).
  cbn [res frame final http_log db_log file_log stdout].
  rewrite run_bind, run_listed_part
    by (cbn [http_log]; rewrite !length_app; cbn [length];
        by replace (length (http_log w) + 1 + 1 + 1)%nat
          with (length (http_log w) + 3)%nat by lia).
  cbn [res frame final http_log db_log file_log stdout].
  rewrite run_listed_part
    by (cbn [http_log]; rewrite !length_app; cbn [length];
        by replace (length (http_log w) + 1 + 1 + 1 + 1)%nat
          with (length (http_log w) + 4)%nat by lia).
  cbn [res frame final http_log db_log file_log stdout emit].
  rewrite !length_app. cbn [length].
  replace (length (http_log w) + 1 + 1 + 1 + 1)%nat with (length (http_log w) + 4)%nat by lia.
  replace (length (http_log w) + 1 + 1 + 1)%nat with (length (http_log w) + 3)%nat by lia.
  replace (length (http_log w) + 1 + 1)%nat with (length (http_log w) + 2)%nat by lia.
  rewrite <- !app_assoc, !Nat.add_0_r. reflexivity.
Qed.

(** X15. When each of the five replies leaves nothing to show (another
    status than 200, or an empty list), the report ends normally after
    its five requests.  A failed request is told by the line of
    [get_data] alone for the first two tables; the last three add their
    "No ... found" line, as they do for a table that is empty. *)
Theorem empty_report e (l : unit) w :
  (∀ k, (k < 5)%nat → nothing_to_show (http_reply e (length (http_log w) + k)) = true) →
  let out := run main e l w in
  let o k := http_reply e (length (http_log w) + k) in
  res out = Returns tt ∧
  issued w (final out) =
    table_request <$>
      ["properties"; "site_settings"; "property_photos"; "calendar_events"; "blog_posts"] ∧
  printed w (final out) =
    [[Lit "DETAILED DATA VERIFICATION"]; [Lit (repeat_str "=" 50)]] ++
    [[Lit (nl +:+ "1. PROPERTIES TABLE:")]; [Lit (repeat_str "-" 30)]] ++
    fetch_error "properties" (o 0%nat) ++
    [[Lit (nl +:+ "2. SITE_SETTINGS TABLE:")]; [Lit (repeat_str "-" 30)]] ++
    fetch_error "site_settings" (o 1%nat) ++
    [[Lit (nl +:+ "3. PROPERTY_PHOTOS TABLE:")]; [Lit (repeat_str "-" 30)]] ++
    fetch_error "property_photos" (o 2%nat) ++ [[Lit "No photos found"]] ++
    [[Lit (nl +:+ "4. CALENDAR_EVENTS TABLE:")]; [Lit (repeat_str "-" 30)]] ++
    fetch_error "calendar_events" (o 3%nat) ++ [[Lit "No events found"]] ++
    [[Lit (nl +:+ "5. BLOG_POSTS TABLE:")]; [Lit (repeat_str "-" 30)]] ++
    fetch_error "blog_posts" (o 4%nat) ++ [[Lit "No blog posts found"]].
Proof.
  intros Hall. cbv zeta. rewrite run_main_nothing by exact Hall.
  cbv zeta. cbn [res final]. split; [done|]. split.
  - by erewrite issued_app by reflexivity.
  - unfold printed. cbn [stdout]. by rewrite drop_app_length.
Qed.

Lemma empty_report_witness :
  (∀ k, (k < 5)%nat →
     nothing_to_show (http_reply not_found_env (length (http_log world0) + k)) = true) ∧
  res (run main not_found_env tt world0) = Returns tt ∧
  [Lit "No photos found"] ∈ printed world0 (final (run main not_found_env tt world0)).
Proof.
  assert (H : ∀ k, (k < 5)%nat →
     nothing_to_show (http_reply not_found_env (length (http_log world0) + k)) = true).
  { intros k _. simpl. by destruct k as [|[|k]]. }
  split; [exact H|].
  destruct (empty_report not_found_env tt world0 H) as (H1 & _ & H3).
  split; [exact H1|]. rewrite H3. vm_compute. repeat constructor.
Defined.

End DetailedDataCheckFacts.

(** ** final_verification.py: storage, summary and the closing lines *)

Section FinalVerificationFacts.
Import FinalVerification.
Variable py_str : json → string.

Lemma no_exit_check_bucket bucket : no_exit (check_bucket py_str bucket).
Proof. unfold check_bucket. no_exit_tac. Qed.

Lemma no_exit_list_buckets : no_exit (list_buckets py_str).
Proof. unfold list_buckets. no_exit_tac. apply no_exit_check_bucket. Qed.

(** X16. [check_storage_access] never raises: whatever the storage API
    answers, and whatever the listing of the files of a bucket does, the
    function returns. *)
Theorem check_storage_access_returns e (l : unit) w :
  res (run (check_storage_access py_str) e l w) = Returns tt.
Proof.
  unfold check_storage_access.
  rewrite run_bind, run_print. cbn [res frame final].
  rewrite run_bind, run_print. cbn [res frame final].
  apply run_try_except_print, no_exit_list_buckets.
Qed.

(** X17. The [try] of [check_storage_access] is around the loop, not in
    it: when the file listing of the first bucket raises, the error is
    printed as a storage API error and the buckets after it are not
    looked at. *)
Theorem failed_file_listing_skips_rest e (l : unit) w r d rest x :
  http_reply e (length (http_log w)) = Returned r →
  status_code r = 200 →
  resp_json r = Some (JArr (JObj d :: rest)) →
  http_reply e (S (length (http_log w))) = Failed x →
  let out := run (check_storage_access py_str) e l w in
  issued w (final out) = [storage_request; files_request py_str (dict_get d "name" JNull)] ∧
  printed w (final out) =
    [[Lit (nl +:+ "TESTING STORAGE ACCESS")];
     [Lit (repeat_str "=" 50)];
     [Lit "✅ Storage API accessible - "; Num (Z.of_nat (S (length rest))); Lit " buckets found"];
     [Lit "  - "; Val (dict_get d "name" JNull); Lit ": ";
      Lit (if truthy (dict_get d "public" (JBool false)) then "Public" else "Private")];
     storage_error x].
Proof.
  intros Ho Hst Hj Hf. cbv zeta.
  unfold check_storage_access, list_buckets, check_bucket, response_json, issued, requests,
    printed, mbind, prog_bind.
  cbn [bind print send run try_except http_log emit]. rewrite Ho.
  cbn [bind run try_except]. rewrite Hst. cbn [Z.eqb Pos.eqb bind run try_except]. rewrite Hj.
  cbn -[repeat_str nl Z.of_nat String.append truthy dict_get].
  rewrite length_app. cbn [length]. rewrite Nat.add_1_r, Hf.
  cbn -[repeat_str nl Z.of_nat String.append truthy dict_get]. split.
  - rewrite !fmap_app, <- (length_fmap fst (http_log w)), <- app_assoc.
    by rewrite drop_app_length.
  - rewrite <- !app_assoc. cbn [app]. by rewrite drop_app_length.
Qed.

(** X18. [get_sample_data_summary] reads the fields of a property with
    [prop[key]] and catches nothing: a first property without one of
    the keys [name], [location], [featured] raises [KeyError], and the
    site settings are not requested. *)
Theorem missing_key_ends_summary e (l : unit) w r d rest key :
  http_reply e (length (http_log w)) = Returned r →
  status_code r = 200 →
  resp_json r = Some (JArr (JObj d :: rest)) →
  key ∈ ["name"; "location"; "featured"] →
  dict_lookup d key = None →
  let out := run get_sample_data_summary e l w in
  (∃ k, res out = Raises (Exc (Exn KeyError ("'" +:+ k +:+ "'"))) ∧ dict_lookup d k = None) ∧
  issued w (final out) = [summary_request "properties"].
Proof.
  intros Ho Hst Hj Hkey Hd. cbv zeta.
  unfold get_sample_data_summary, properties_summary, summarize_property, response_json,
    issued, requests, mbind, prog_bind.
  cbn [bind print send run http_log emit]. rewrite Ho.
  cbn [bind run]. rewrite Hst. cbn [Z.eqb Pos.eqb bind run]. rewrite Hj.
  cbn -[repeat_str nl Z.of_nat String.append dict_lookup].
  assert (Hlog : drop (length (http_log w))
            (http_log w ++ [(summary_request "properties", Returned r)]).*1 =
          [summary_request "properties"]).
  { by rewrite fmap_app, <- (length_fmap fst (http_log w)), drop_app_length. }
  destruct (dict_lookup d "name") as [v1|] eqn:H1;
    cbn -[repeat_str nl Z.of_nat String.append dict_lookup]; [|by split; [exists "name"|]].
  destruct (dict_lookup d "location") as [v2|] eqn:H2;
    cbn -[repeat_str nl Z.of_nat String.append dict_lookup]; [|by split; [exists "location"|]].
  destruct (dict_lookup d "featured") as [v3|] eqn:H3;
    cbn -[repeat_str nl Z.of_nat String.append dict_lookup]; [|by split; [exists "featured"|]].
  exfalso. repeat (apply elem_of_cons in Hkey as [->|Hkey]; [congruence|]).
  by apply elem_of_nil in Hkey.
Qed.

Lemma run_test_anon_access e (l : unit) w :
  let out := run test_anon_access e l w in
  res out = Returns tt ∧
  http_log (final out) =
    http_log w ++ zip (anon_request <$> tables) (replies e (length (http_log w)) 5).
Proof.
  cbv zeta. unfold test_anon_access.
  rewrite run_bind, run_print. cbn [res frame final].
  rewrite run_bind, run_print. cbn [res frame final].
  apply (run_test_tables tables e l (emit (emit w _) _)).
Qed.

Lemma run_check_storage_access_down e (l : unit) w :
  let o := http_reply e (length (http_log w)) in
  (refused o = true ∨ ∃ x, o = Failed x) →
  let out := run (check_storage_access py_str) e l w in
  res out = Returns tt ∧
  http_log (final out) = http_log w ++ [(storage_request, o)].
Proof.
  cbv zeta. intros Ho.
  unfold check_storage_access, list_buckets, mbind, prog_bind.
  cbn [bind print send run try_except http_log emit].
  destruct (http_reply e (length (http_log w))) as [x|r].
  - done.
  - destruct Ho as [Ho|[x [=]]]. simpl in Ho. cbn [bind run try_except].
    by destruct (Z.eqb (status_code r) 200).
Qed.

Lemma run_summary_refused e (l : unit) w :
  let o1 := http_reply e (length (http_log w)) in
  let o2 := http_reply e (S (length (http_log w))) in
  refused o1 = true → refused o2 = true →
  run get_sample_data_summary e l w =
  RunResult (Returns tt) l
    (World (http_log w ++ [(summary_request "properties", o1);
                           (summary_request "site_settings", o2)])
           (db_log w) (file_log w)
           (stdout w ++ [[Lit (nl +:+ "SAMPLE DATA SUMMARY")]; [Lit (repeat_str "=" 50)]])).
Proof.
  cbv zeta.
  unfold get_sample_data_summary, properties_summary, settings_summary, mbind, prog_bind.
  cbn [bind print send run http_log emit].
  destruct (http_reply e (length (http_log w))) as [x|r1]; [done|].
  cbn [refused bind run]. intros H1%negb_true_iff. rewrite H1.
  cbn [bind run log_http http_log emit]. rewrite length_app. cbn [length]. rewrite Nat.add_1_r.
  destruct (http_reply e (S (length (http_log w)))) as [x|r2]; [done|].
  cbn [refused bind run]. intros H2%negb_true_iff. rewrite H2.
  cbn [run]. unfold log_http, emit. cbn [http_log db_log file_log stdout].
  by rewrite <- !app_assoc.
Qed.

Lemma run_summary_failed e (l : unit) w x :
  http_reply e (length (http_log w)) = Failed x →
  run get_sample_data_summary e l w =
  RunResult (Raises (Exc x)) l
    (World (http_log w ++ [(summary_request "properties", Failed x)])
           (db_log w) (file_log w)
           (stdout w ++ [[Lit (nl +:+ "SAMPLE DATA SUMMARY")]; [Lit (repeat_str "=" 50)]])).
Proof.
  intros Ho.
  unfold get_sample_data_summary, properties_summary, mbind, prog_bind.
  cbn [bind print send run http_log emit]. rewrite Ho.
  cbn [bind run]. unfold log_http, emit. cbn [http_log db_log file_log stdout].
  by rewrite <- !app_assoc.
Qed.

(** X19. The closing lines of [main] do not depend on what was found:
    when the storage request and the two summary requests are answered
    with another status than 200, whatever the five anonymous reads
    gave, [main] ends normally after eight requests and its last lines
    say that all five tables exist and that the database is ready. *)
Theorem closing_lines_whatever_was_found e (l : unit) w :
  (∀ k, (5 ≤ k < 8)%nat → refused (http_reply e (length (http_log w) + k)) = true) →
  let out := run (main py_str) e l w in
  res out = Returns tt ∧
  issued w (final out) =
    (anon_request <$> tables) ++
    [storage_request; summary_request "properties"; summary_request "site_settings"] ∧
  closing_lines `suffix_of` stdout (final out).
Proof.
  intros Hall. cbv zeta.
  pose proof (Hall 5%nat ltac:(lia)) as H5. pose proof (Hall 6%nat ltac:(lia)) as H6.
  pose proof (Hall 7%nat ltac:(lia)) as H7. clear Hall.
  unfold main.
  do 3 (rewrite run_bind, run_print; cbn [res frame final]).
  set (w0 := emit _ _).
  assert (Hw0 : http_log w0 = http_log w) by reflexivity.
  rewrite run_bind, run_call. cbn [res frame final].
  destruct (run_test_anon_access e tt w0) as [-> Hlog1]. revert Hlog1.
  generalize (final (run test_anon_access e tt w0)). intros w1 Hlog1.
  rewrite Hw0 in Hlog1.
  assert (Hlen1 : length (http_log w1) = (length (http_log w) + 5)%nat).
  { rewrite Hlog1, length_app, length_zip, length_fmap, length_replies. by simpl. }
  rewrite run_bind, run_call. cbn [res frame final].
  destruct (run_check_storage_access_down e tt w1) as [-> Hlog2].
  { left. by rewrite Hlen1. }
  revert Hlog2. generalize (final (run (check_storage_access py_str) e tt w1)).
  intros w2 Hlog2.
  assert (Hlen2 : length (http_log w2) = (length (http_log w) + 6)%nat).
  { rewrite Hlog2, length_app, Hlen1. simpl. lia. }
  rewrite run_bind, run_call, run_summary_refused;
    [|by rewrite Hlen2
     |rewrite Hlen2;
      by replace (S (length (http_log w) + 6)) with (length (http_log w) + 7)%nat by lia].
  cbn [res frame final]. rewrite run_for_each_print. cbn [res final stdout].
  split; [done|]. split.
  - unfold issued, requests. cbn [http_log]. rewrite Hlog2, Hlog1, <- !app_assoc.
    rewrite fmap_app, <- (length_fmap fst (http_log w)), drop_app_length.
    by rewrite !fmap_app.
  - by eexists.
Qed.

(** X20. Of the three parts of [main] only the first two catch what
    their requests raise.  When the storage request and the first
    summary request fail, [main] ends with the exception of the latter
    after seven requests, and the closing lines are not printed: the
    last line is the rule under the heading of the summary. *)
Theorem failed_summary_request_ends_main e (l : unit) w x5 x6 :
  http_reply e (length (http_log w) + 5) = Failed x5 →
  http_reply e (length (http_log w) + 6) = Failed x6 →
  let out := run (main py_str) e l w in
  res out = Raises (Exc x6) ∧
  issued w (final out) =
    (anon_request <$> tables) ++ [storage_request; summary_request "properties"] ∧
  last (stdout (final out)) = Some [Lit (repeat_str "=" 50)].
Proof.
  intros H5 H6. cbv zeta. unfold main.
  do 3 (rewrite run_bind, run_print; cbn [res frame final]).
  set (w0 := emit _ _).
  assert (Hw0 : http_log w0 = http_log w) by reflexivity.
  rewrite run_bind, run_call. cbn [res frame final].
  destruct (run_test_anon_access e tt w0) as [-> Hlog1]. revert Hlog1.
  generalize (final (run test_anon_access e tt w0)). intros w1 Hlog1.
  rewrite Hw0 in Hlog1.
  assert (Hlen1 : length (http_log w1) = (length (http_log w) + 5)%nat).
  { rewrite Hlog1, length_app, length_zip, length_fmap, length_replies. by simpl. }
  rewrite run_bind, run_call. cbn [res frame final].
  destruct (run_check_storage_access_down e tt w1) as [-> Hlog2].
  { right. exists x5. by rewrite Hlen1. }
  revert Hlog2. generalize (final (run (check_storage_access py_str) e tt w1)).
  intros w2 Hlog2.
  assert (Hlen2 : length (http_log w2) = (length (http_log w) + 6)%nat).
  { rewrite Hlog2, length_app, Hlen1. simpl. lia. }
  rewrite run_bind, run_call, (run_summary_failed e tt w2 x6) by (by rewrite Hlen2).
  cbn [res frame final stdout]. split; [done|]. split.
  - unfold issued, requests. cbn [http_log]. rewrite Hlog2, Hlog1, <- !app_assoc.
    rewrite fmap_app, <- (length_fmap fst (http_log w)), drop_app_length.
    by rewrite !fmap_app.
  - change (stdout w2 ++ [?a; ?b]) with (stdout w2 ++ [a] ++ [b]).
    by rewrite (assoc_L (++)), last_snoc.
Qed.

End FinalVerificationFacts.

Lemma failed_file_listing_skips_rest_witness :
  http_reply files_down_env 1 = Failed (Exn RequestException "Connection refused") ∧
  issued world0 (final (run (FinalVerification.check_storage_access str_of_name)
                          files_down_env tt world0)) =
    [FinalVerification.storage_request;
     FinalVerification.files_request str_of_name (JStr "property-photos")] ∧
  last (printed world0 (final (run (FinalVerification.check_storage_access str_of_name)
                                 files_down_env tt world0))) =
    Some [Lit "❌ Storage API error: "; Lit "Connection refused"].
Proof.
  split; [reflexivity|].
  destruct (failed_file_listing_skips_rest str_of_name files_down_env tt world0 _
              [("name", JStr "property-photos"); ("public", JBool true)]
              [JObj [("name", JStr "blog-images"); ("public", JBool false)]]
              _ eq_refl eq_refl eq_refl eq_refl) as [H1 H2].
  split; [exact H1|]. by rewrite H2.
Defined.

Lemma missing_key_ends_summary_witness :
  "location" ∈ ["name"; "location"; "featured"] ∧
  dict_lookup [("name", JStr "Cozy Loft"); ("featured", JBool true)] "location" = None ∧
  issued world0 (final (run FinalVerification.get_sample_data_summary
                          no_location_env tt world0)) =
    [FinalVerification.summary_request "properties"].
Proof.
  assert (H : "location" ∈ ["name"; "location"; "featured"]) by repeat constructor.
  split; [exact H|]. split; [reflexivity|].
  exact (proj2 (missing_key_ends_summary no_location_env tt world0 _
                  [("name", JStr "Cozy Loft"); ("featured", JBool true)] [] "location"
                  eq_refl eq_refl eq_refl H eq_refl)).
Defined.

Lemma closing_lines_whatever_was_found_witness :
  (∀ k, (5 ≤ k < 8)%nat →
     refused (http_reply not_found_env (length (http_log world0) + k)) = true) ∧
  res (run (FinalVerification.main str_of_name) not_found_env tt world0) = Returns tt ∧
  [Lit "- All 5 required tables exist"] ∈
    stdout (final (run (FinalVerification.main str_of_name) not_found_env tt world0)).
Proof.
  assert (H : ∀ k, (5 ≤ k < 8)%nat →
     refused (http_reply not_found_env (length (http_log world0) + k)) = true).
  { intros k _. simpl. by destruct k as [|[|k]]. }
  split; [exact H|].
  destruct (closing_lines_whatever_was_found str_of_name not_found_env tt world0 H)
    as (H1 & _ & k & ->).
  split; [exact H1|]. apply elem_of_app. right. vm_compute. repeat constructor.
Defined.

Lemma failed_summary_request_ends_main_witness :
  http_reply offline_env (length (http_log world0) + 5) =
    Failed (Exn RequestException "Connection refused") ∧
  http_reply offline_env (length (http_log world0) + 6) =
    Failed (Exn RequestException "Connection refused") ∧
  res (run (FinalVerification.main str_of_name) offline_env tt world0) =
    Raises (Exc (Exn RequestException "Connection refused")).
Proof.
  split; [reflexivity|]. split; [reflexivity|].
  exact (proj1 (failed_summary_request_ends_main str_of_name offline_env tt world0 _ _
                  eq_refl eq_refl)).
Defined.

(** ** execute_schema.py: the result and the connection *)

Section Tracks.
Context {L : Type}.

Lemma tracks_mono {A} (post post' : bool → A → Prop) c (p : prog L A) :
  (∀ c' a, post c' a → post' c' a) → tracks post c p → tracks post' c p.
Proof. intros Hpost Hp. induction Hp; constructor; auto. Qed.

Lemma tracks_bind {A B} (post : bool → B → Prop) c (p : prog L A) (f : A → prog L B) :
  tracks (λ c' a, tracks post c' (f a)) c p → tracks post c (p ≫= f).
Proof.
  unfold mbind, prog_bind. intros Hp. induction Hp; simpl; auto; by constructor.
Qed.

(** A step that leaves the connection open, then the rest. *)
Lemma tracks_seq {A B} (post : bool → B → Prop) (p : prog L A) (f : A → prog L B) :
  stays_open p → (∀ a, tracks post false (f a)) → tracks post false (p ≫= f).
Proof.
  intros Hp Hf. apply tracks_bind. eapply tracks_mono; [|exact Hp].
  intros c' a ->. apply Hf.
Qed.

Lemma stays_open_bind {A B} (p : prog L A) (f : A → prog L B) :
  stays_open p → (∀ a, stays_open (f a)) → stays_open (p ≫= f).
Proof. apply tracks_seq. Qed.

Lemma stays_open_for_each {X} (xs : list X) (body : X → prog L unit) :
  (∀ x, stays_open (body x)) → stays_open (for_each xs body).
Proof.
  intros Hb. induction xs as [|x xs IH]; simpl; [by constructor|].
  apply stays_open_bind; auto.
Qed.

Lemma stays_open_print ln : stays_open (print (L:=L) ln).
Proof. by repeat constructor. Qed.

Lemma stays_open_db op : op ≠ DbConnClose → stays_open (ExecuteSchema.db (L:=L) op).
Proof.
  intros Hop. constructor. intros [x|rows]; destruct op; try done; by constructor.
Qed.

Lemma stays_open_column row i : stays_open (ExecuteSchema.column (L:=L) row i).
Proof. unfold ExecuteSchema.column. destruct (_ !! _); by constructor. Qed.

Lemma stays_open_fetchone : stays_open (ExecuteSchema.fetchone (L:=L)).
Proof.
  unfold ExecuteSchema.fetchone. apply stays_open_bind; [by apply stays_open_db|].
  intros [|row rows]; by constructor.
Qed.

Lemma stays_open_positive x : stays_open (ExecuteSchema.positive (L:=L) x).
Proof. destruct x; by constructor. Qed.

Lemma stays_open_print_property prop : stays_open (ExecuteSchema.print_property (L:=L) prop).
Proof.
  unfold ExecuteSchema.print_property.
  repeat (apply stays_open_bind; [apply stays_open_column|intros ?]).
  apply stays_open_print.
Qed.

Lemma stays_open_print_on row : stays_open (ExecuteSchema.print_on (L:=L) row).
Proof.
  unfold ExecuteSchema.print_on.
  repeat (apply stays_open_bind; [apply stays_open_column|intros ?]).
  apply stays_open_print.
Qed.

(** What [tracks] says of a run. *)
Lemma tracks_run {A} (post : bool → A → Prop) c (p : prog L A) e l w :
  tracks post c p →
  let out := run p e l w in
  let c' := c || existsb closed_ok (db_calls w (final out)) in
  match res out with
  | Returns a => post c' a
  | Raises (Exc _) => c' = false
  | Raises (SysExit _) => False
  end.
Proof.
  intros Hp. revert l w. cbv zeta. unfold db_calls.
  induction Hp as [c a Ha|x|c q k _ IH|c ln k _ IH|c k _ IH|c v k _ IH|c path k _ IH|c op k _ IH];
    intros l w; cbn [run res final].
  - by rewrite drop_all, orb_false_r.
  - by rewrite drop_all.
  - exact (IH _ l (log_http w q _)).
  - exact (IH l (emit w ln)).
  - apply IH.
  - apply IH.
  - exact (IH _ l (log_file w path _)).
  - set (o := db_reply e (length (db_log w))).
    specialize (IH o l (log_db w op o)).
    destruct (run_extends (k o) e l (log_db w op o)) as (_ & [rest Hrest] & _).
    rewrite Hrest in IH |- *. cbn [log_db db_log] in IH |- *.
    rewrite drop_app_length in IH.
    rewrite <- app_assoc, drop_app_length. cbn [app existsb].
    by rewrite orb_assoc.
Qed.

End Tracks.

Section ExecuteSchemaFacts.
Import ExecuteSchema.

Ltac open_step :=
  match goal with
  | |- stays_open (_ ≫= _) => apply stays_open_bind; [|intros ?]
  | |- stays_open (for_each _ _) => apply stays_open_for_each; intros ?
  | |- stays_open (if ?b then _ else _) => destruct b
  | |- stays_open (Ret _) => by constructor
  | |- stays_open (print _) => apply stays_open_print
  | |- stays_open (db _) => by apply stays_open_db
  | |- stays_open fetchone => apply stays_open_fetchone
  | |- stays_open (column _ _) => apply stays_open_column
  | |- stays_open (positive _) => apply stays_open_positive
  | |- stays_open (print_property _) => apply stays_open_print_property
  | |- stays_open (print_on _) => apply stays_open_print_on
  end.

(** The [try] block of [execute_schema] gives [True] exactly when it has
    closed the connection, and raises only before that. *)
Lemma tracks_connect_and_execute schema_sql :
  tracks (λ c (b : bool), b = c) false (connect_and_execute schema_sql).
Proof.
  unfold connect_and_execute.
  repeat (apply tracks_seq; [solve [repeat open_step]|intros ?]).
  unfold db, mbind, prog_bind. cbn [bind print].
  constructor. intros [x|rows]; by repeat constructor.
Qed.

Lemma existsb_closed_ok calls :
  existsb closed_ok calls = true ↔ ∃ rows, (DbConnClose, DbRows rows) ∈ calls.
Proof.
  rewrite existsb_exists. split.
  - intros ([op o] & Hin%list_elem_of_In & Hc).
    destruct op, o; try done. by eexists.
  - intros (rows & Hin%list_elem_of_In). by eexists.
Qed.

(** X21. Once the schema file is read, [execute_schema] always returns,
    whatever the database does and whatever rows it yields: no exception
    escapes it and it never exits.  The result is [True] exactly when
    [conn.close()] was called and returned; on every failure the
    connection, if it was opened, is left open. *)
Theorem execute_schema_true_iff_closed e (l : unit) w sql :
  file_reply e ExecuteSchemaApi.schema_path = FileContent sql →
  let out := run execute_schema e l w in
  ∃ b, res out = Returns b ∧
       (b = true ↔ ∃ rows, (DbConnClose, DbRows rows) ∈ db_calls w (final out)).
Proof.
  intros Hf. cbv zeta. unfold execute_schema.
  rewrite run_bind, run_print. cbn [res frame final].
  rewrite run_bind, (run_read_schema_file _ _ _ sql) by exact Hf. cbn [res frame final].
  set (w0 := log_file _ _ _).
  assert (Hdb : db_calls w = db_calls w0) by reflexivity. rewrite Hdb. clear Hdb.
  rewrite run_try_except.
  pose proof (tracks_run _ _ _ e l w0 (tracks_connect_and_execute sql)) as Hrun.
  cbv zeta in Hrun. cbn [orb] in Hrun.
  destruct (res (run (connect_and_execute sql) e l w0)) as [b|[x|code]] eqn:Hres;
    [| |done].
  - exists b. rewrite Hres. split; [done|]. by rewrite Hrun, existsb_closed_ok.
  - cbn [is_exception]. exists false.
    rewrite <- existsb_closed_ok.
    destruct (is_psycopg2_error (exn_cls x));
      rewrite run_bind, run_print; cbn [res frame final run];
      (split; [done|]);
      change (db_calls w0 (emit ?v _)) with (db_calls w0 v); by rewrite Hrun.
Qed.

End ExecuteSchemaFacts.

Lemma execute_schema_true_iff_closed_witness :
  file_reply db_up_env ExecuteSchemaApi.schema_path = FileContent "CREATE TABLE properties ();" ∧
  res (run ExecuteSchema.execute_schema db_up_env tt world0) = Returns true.
Proof.
  split; [reflexivity|].
  destruct (execute_schema_true_iff_closed db_up_env tt world0 _ eq_refl) as (b & Hb & Hiff).
  rewrite Hb. f_equal. apply Hiff. exists [[JNum 0; JNum 0]].
  vm_compute. repeat constructor.
Defined.

(** ** verify_database.py: what the replies decide *)

Section VerifyDatabaseFacts.
Import VerifyDatabase.
Variable msg : response → string.

Lemma run_make_request {L} endpoint role e (l : L) w :
  let o := http_reply e (length (http_log w)) in
  run (make_request msg endpoint role) e l w =
  RunResult
    (match o with
     | Failed x => if is_request_exception (exn_cls x)
                   then Returns (Failure (exn_msg x) None) else Raises (Exc x)
     | Returned r =>
         Returns (if http_error r then Failure (msg r) (Some (status_code r))
                  else match resp_json r with
                       | Some data => Success data (status_code r)
                       | None => Failure "Expecting value" None
                       end)
     end) l (log_http w (rest_request endpoint role) o).
Proof.
  cbv zeta. unfold make_request, raise_for_status, response_json, mbind, prog_bind.
  cbn [bind send try_except run].
  destruct (http_reply e (length (http_log w))) as [x|r]; cbn [bind try_except run].
  - by destruct (is_request_exception (exn_cls x)).
  - destruct (http_error r); cbn [raise bind try_except run is_request_exception exn_cls];
      [done|].
    destruct (resp_json r); cbn [raise bind try_except run is_request_exception exn_cls];
      by rewrite ?Tauto.if_same.
Qed.

Lemma run_make_request_result {L} endpoint role e (l : L) w v :
  res (run (make_request msg endpoint role) e l w) = Returns v →
  result_of msg (http_reply e (length (http_log w))) = Some v ∧
  success v = usable (http_reply e (length (http_log w))).
Proof.
  rewrite run_make_request. cbv zeta. cbn [res]. unfold result_of, usable.
  destruct (http_reply e (length (http_log w))) as [x|r].
  - destruct (is_request_exception (exn_cls x)); [|done]. by intros [= <-].
  - intros [= <-]. split; [done|]. destruct (http_error r); [done|].
    by destruct (resp_json r).
Qed.

Lemma printed_test_rls e (l : unit) w table :
  printed w (final (run (test_rls msg table) e l w)) =
  [Lit (nl +:+ "Testing RLS for '"); Lit table; Lit "' table..."] ::
  match http_reply e (length (http_log w)) with
  | Failed x =>
      if is_request_exception (exn_cls x)
      then [[Lit "⚠️  Unexpected response for '"; Lit table; Lit "': ";
             Val (JStr (exn_msg x))]]
      else []
  | Returned r =>
      if http_error r then
        if bool_decide (status_code r = 401)
        then [[Lit "🔒 Anon access to '"; Lit table; Lit "' is restricted (RLS is active)"]]
        else [[Lit "⚠️  Unexpected response for '"; Lit table; Lit "': "; Val (JStr (msg r))]]
      else
        match resp_json r with
        | Some _ =>
            [[Lit "✅ Anon access to '"; Lit table; Lit "' is allowed (good for public reads)"]]
        | None =>
            [[Lit "⚠️  Unexpected response for '"; Lit table; Lit "': ";
              Val (JStr "Expecting value")]]
        end
  end.
Proof.
  unfold test_rls, printed.
  rewrite run_bind, run_print. cbn [res frame final].
  rewrite run_bind, run_make_request. cbv zeta. cbn [res frame final emit http_log].
  destruct (http_reply e (length (http_log w))) as [x|r].
  - destruct (is_request_exception (exn_cls x)); cbn [success status_of error_of].
    + rewrite bool_decide_eq_false_2 by done. rewrite run_print.
      cbn [final emit log_http stdout]. by rewrite <- !app_assoc, drop_app_length.
    + cbn [final emit log_http stdout]. by rewrite drop_app_length.
  - destruct (http_error r) eqn:Herr; cbn [success status_of error_of].
    + destruct (decide (status_code r = 401)) as [Hst|Hst].
      * rewrite !bool_decide_eq_true_2 by (by rewrite ?Hst). rewrite run_print.
        cbn [final emit log_http stdout]. by rewrite <- !app_assoc, drop_app_length.
      * rewrite !bool_decide_eq_false_2 by (by intros ?; simplify_eq). rewrite run_print.
        cbn [final emit log_http stdout]. by rewrite <- !app_assoc, drop_app_length.
    + destruct (resp_json r) as [data|]; cbn [success status_of error_of].
      * rewrite run_print.
        cbn [final emit log_http stdout]. by rewrite <- !app_assoc, drop_app_length.
      * rewrite bool_decide_eq_false_2 by done. rewrite run_print.
        cbn [final emit log_http stdout]. by rewrite <- !app_assoc, drop_app_length.
Qed.

(** X22. [verify_rls_policies] reports a table as restricted by RLS
    exactly when its request is answered 401.  Since the status is read
    from [e.response], any other failure is an "unexpected response": a
    403, a network error, a body that is not JSON. *)
Theorem restricted_only_on_401 e (l : unit) w table :
  [Lit "🔒 Anon access to '"; Lit table; Lit "' is restricted (RLS is active)"] ∈
    printed w (final (run (test_rls msg table) e l w)) ↔
  ∃ r, http_reply e (length (http_log w)) = Returned r ∧ status_code r = 401.
Proof.
  rewrite printed_test_rls.
  destruct (http_reply e (length (http_log w))) as [x|r].
  - split; [|by intros (r & [=] & _)].
    destruct (is_request_exception (exn_cls x)).
    + intros [[=]|[[=]|[]%elem_of_nil]%elem_of_cons]%elem_of_cons.
    + intros [[=]|[]%elem_of_nil]%elem_of_cons.
  - destruct (http_error r) eqn:Herr.
    + destruct (decide (status_code r = 401)) as [Hst|Hst].
      * rewrite bool_decide_eq_true_2 by done. split; [by eauto|]. intros _.
        repeat constructor.
      * rewrite bool_decide_eq_false_2 by done.
        split; [|by intros (r' & [= <-] & ?)].
        intros [[=]|[[=]|[]%elem_of_nil]%elem_of_cons]%elem_of_cons.
    + assert (Hst : status_code r ≠ 401).
      { intros Hst. unfold http_error in Herr. by rewrite Hst in Herr. }
      split; [|by intros (r' & [= <-] & ?)].
      destruct (resp_json r) as [data|];
        intros [[=]|[[=]|[]%elem_of_nil]%elem_of_cons]%elem_of_cons.
Qed.

Lemma run_verify_table_exists {L} table e (l : L) w b :
  let out := run (verify_table_exists msg table) e l w in
  res out = Returns b →
  b = usable (http_reply e (length (http_log w))) ∧
  length (http_log (final out)) = S (length (http_log w)).
Proof.
  cbv zeta. unfold verify_table_exists.
  rewrite run_bind, run_print. cbn [res frame final].
  rewrite run_bind.
  pose proof (run_make_request_result (limit_1 table) true e l
                (emit w [Lit "Checking if table '"; Lit table; Lit "' exists..."])) as Hres.
  rewrite run_make_request in Hres |- *. cbv zeta in Hres |- *.
  cbn [res frame final emit http_log] in Hres |- *.
  destruct (match http_reply e (length (http_log w)) with
            | Failed x => _ | Returned r => _ end) as [v|x] eqn:Hv; [|done].
  destruct (Hres v eq_refl) as [_ <-].
  destruct (success v); rewrite run_bind, run_print; cbn [res frame final run];
    [|rewrite run_bind, run_print; cbn [res frame final run]];
    intros [= <-]; (split; [done|]);
    cbn [emit log_http http_log]; rewrite length_app; cbn [length]; lia.
Qed.

Lemma run_existence_loop {L} ts e (l : L) w tr :
  let out := run (check_tables msg ts) e l w in
  res out = Returns tr →
  tr = zip ts (usable <$> replies e (length (http_log w)) (length ts)) ∧
  length (http_log (final out)) = (length (http_log w) + length ts)%nat.
Proof.
  cbv zeta. revert l w tr. induction ts as [|t ts IH]; intros l w tr.
  - cbn. intros [= <-]. split; [done|lia].
  - cbn [check_tables]. rewrite run_bind.
    pose proof (run_verify_table_exists t e l w) as Hex. cbv zeta in Hex.
    destruct (run (verify_table_exists msg t) e l w) as [[b|x] l1 w1]; [|done].
    cbn [res frame final] in Hex |- *.
    destruct (Hex b eq_refl) as [Hb Hlen1].
    rewrite run_bind. specialize (IH l1 w1).
    destruct (run (check_tables msg ts) e l1 w1) as [[tr'|x] l2 w2]; [|done].
    cbn [res frame final] in IH |- *.
    destruct (IH tr' eq_refl) as [Htr Hlen2]. cbn [run res final].
    intros [= <-]. rewrite Hlen2, Hlen1, Htr, Hlen1, Hb. split; [|cbn [length]; lia].
    cbn [length]. rewrite replies_S. reflexivity.
Qed.

End VerifyDatabaseFacts.

(** ** verify_database.py: the requests of a full verification *)

Section Sends.
Context {L : Type}.

Lemma asks_bind {A B} q (p : prog L A) (f : A → prog L B) :
  asks q p → (∀ a, offline (f a)) → asks q (p ≫= f).
Proof.
  unfold mbind, prog_bind. intros Hp Hf.
  induction Hp as [k Hk|ln k _ IH|k _ IH|v k _ IH]; simpl; constructor; auto.
  intros o. by apply offline_bind.
Qed.

Lemma asks_try_except {A} q (p : prog L A) cls h :
  asks q p → (∀ x, offline (h x)) → asks q (try_except p cls h).
Proof.
  intros Hp Hh.
  induction Hp as [k Hk|ln k _ IH|k _ IH|v k _ IH]; simpl; constructor; auto.
  intros o. by apply offline_try_except.
Qed.

Lemma asks_after_print {A} q ln (p : prog L A) : asks q p → asks q (print ln ;; p).
Proof. intros Hp. by constructor. Qed.

Lemma asks_send q : asks q (send (L:=L) q).
Proof. constructor. intros [x|r]; constructor. Qed.

Lemma asks_run {A} q (p : prog L A) e l w :
  asks q p → requests (final (run p e l w)) = requests w ++ [q].
Proof.
  intros Hp. revert l w.
  induction Hp as [k Hk|ln k _ IH|k _ IH|v k _ IH]; intros l w; simpl; auto.
  - unfold requests.
    destruct (offline_run (k (http_reply e (length (http_log w)))) e l
                (log_http w q (http_reply e (length (http_log w)))) (Hk _)) as [-> _].
    simpl. by rewrite fmap_app.
  - apply (IH l (emit w ln)).
Qed.

Lemma sends_asks {A} q (p : prog L A) : asks q p → sends [q] p.
Proof. intros Hp e l w a _. apply asks_run, Hp. Qed.

Lemma sends_offline {A} (p : prog L A) : offline p → sends [] p.
Proof.
  intros Hp e l w a _. unfold requests.
  destruct (offline_run p e l w Hp) as [-> _]. by rewrite app_nil_r.
Qed.

Lemma sends_bind {A B} qs qs' (p : prog L A) (f : A → prog L B) :
  sends qs p → (∀ a, sends qs' (f a)) → sends (qs ++ qs') (p ≫= f).
Proof.
  intros Hp Hf e l w b. rewrite run_bind.
  specialize (Hp e l w).
  destruct (run p e l w) as [[a|x] l1 w1]; cbn [res frame final] in *; [|done].
  intros Hb. by rewrite (Hf a e l1 w1 b Hb), (Hp a eq_refl), app_assoc.
Qed.

Lemma sends_call {L' A} qs (p : prog L' A) (l' : L') :
  sends qs p → sends qs (call (L:=L) p l').
Proof. intros Hp e l w a. rewrite run_call. cbn [res final]. apply Hp. Qed.

Lemma sends_for_each {X} (g : X → request) (xs : list X) (body : X → prog L unit) :
  (∀ x, sends [g x] (body x)) → sends (g <$> xs) (for_each xs body).
Proof.
  intros Hb. induction xs as [|x xs IH].
  - intros e l w a _. simpl. by rewrite app_nil_r.
  - cbn [for_each fmap list_fmap]. apply (sends_bind [g x]); auto.
Qed.

End Sends.

Section VerifyDatabaseRequests.
Import VerifyDatabase.
Variable msg : response → string.

Lemma asks_make_request {L} endpoint role :
  asks (rest_request endpoint role) (make_request (L:=L) msg endpoint role).
Proof.
  unfold make_request. apply asks_try_except; [|intros; offline_tac].
  apply asks_bind; [apply asks_send|]. intros r.
  unfold raise_for_status, raise. offline_tac.
Qed.

Lemma offline_show_each {L} (show : json → prog L unit) rows :
  (∀ x, offline (show x)) → offline (show_each show rows).
Proof. intros Hs. unfold show_each. offline_tac. Qed.

Lemma asks_sample_block {L} table what (after : json → prog L unit) :
  (∀ data, offline (after data)) →
  asks (rest_request table true) (sample_block msg table what after).
Proof.
  intros Ha. unfold sample_block. apply asks_after_print.
  apply asks_bind; [apply asks_make_request|].
  intros [data st|err st]; offline_tac.
Qed.

Lemma sends_verify_sample_data {L} :
  sends ((λ table, rest_request table true) <$>
           ["properties"; "property_photos"; "calendar_events"; "site_settings"; "blog_posts"])
    (verify_sample_data (L:=L) msg).
Proof.
  unfold verify_sample_data.
  apply (sends_bind [] _); [apply sends_offline; offline_tac|intros _].
  cbn [fmap list_fmap].
  apply (sends_bind [_] _); [|intros _; apply (sends_bind [_] _);
    [|intros _; apply (sends_bind [_] _); [|intros _; apply (sends_bind [_] [_]); [|intros _]]]].
  all: apply sends_asks, asks_sample_block; intros data.
  - apply offline_show_each. intros x. unfold show_property. offline_tac.
  - apply offline_bind; [destruct data; constructor|]. intros shown.
    apply offline_show_each. intros x. unfold show_photo. offline_tac.
  - constructor.
  - apply offline_show_each. intros x. unfold show_setting. offline_tac.
  - constructor.
Qed.

Lemma asks_test_rls {L} table :
  asks (rest_request (limit_1 table) false) (test_rls (L:=L) msg table).
Proof.
  unfold test_rls. apply asks_after_print.
  apply asks_bind; [apply asks_make_request|]. intros v. offline_tac.
Qed.

Lemma sends_verify_rls_policies {L} :
  sends ((λ table, rest_request (limit_1 table) false) <$> tables_to_test)
    (verify_rls_policies (L:=L) msg).
Proof.
  unfold verify_rls_policies.
  apply (sends_bind [] _); [apply sends_offline; offline_tac|intros _].
  apply (sends_for_each (λ table, rest_request (limit_1 table) false) tables_to_test).
  intros t. apply sends_asks, asks_test_rls.
Qed.

Lemma offline_bucket_names {L} items : offline (bucket_names (L:=L) items).
Proof. induction items as [|b items IH]; simpl; [constructor|]. offline_tac. Qed.

Lemma sends_verify_storage_buckets {L} :
  sends [storage_request] (verify_storage_buckets (L:=L) msg).
Proof.
  unfold verify_storage_buckets.
  apply (sends_bind [] _); [apply sends_offline; offline_tac|intros _].
  apply sends_asks, asks_try_except; [|intros; offline_tac].
  apply asks_bind; [apply asks_send|]. intros r.
  unfold raise_for_status, check_expected, raise. offline_tac.
  apply offline_bucket_names.
Qed.

Lemma asks_verify_table_exists {L} table :
  asks (rest_request (limit_1 table) true) (verify_table_exists (L:=L) msg table).
Proof.
  unfold verify_table_exists. apply asks_after_print.
  apply asks_bind; [apply asks_make_request|]. intros v. offline_tac.
Qed.

Lemma sends_check_tables {L} ts :
  sends ((λ table, rest_request (limit_1 table) true) <$> ts) (check_tables (L:=L) msg ts).
Proof.
  induction ts as [|t ts IH]; cbn [check_tables fmap list_fmap].
  - apply sends_offline. constructor.
  - apply (sends_bind [_] _); [apply sends_asks, asks_verify_table_exists|intros b].
    rewrite <- (app_nil_r (_ <$> ts)).
    apply sends_bind; [exact IH|]. intros tr. apply sends_offline. constructor.
Qed.

Lemma asks_verify_table_structure {L} table :
  asks (rest_request (limit_1 table) true) (verify_table_structure (L:=L) msg table).
Proof.
  unfold verify_table_structure. apply asks_after_print.
  apply asks_bind; [apply asks_make_request|].
  intros [data st|err st]; offline_tac. unfold SchemaVerification.keys.
  destruct a; constructor.
Qed.

Lemma sends_check_structures {L} tr :
  sends ((λ table, rest_request (limit_1 table) true) <$> structure_tables tr)
    (check_structures (L:=L) msg tr).
Proof.
  unfold check_structures, structure_tables.
  induction expected_tables as [|t ts IH]; [by apply sends_offline; constructor|].
  cbn [for_each]. rewrite filter_cons.
  destruct (decide (found tr t = true)) as [Hf|Hf].
  - rewrite Hf. cbn [fmap list_fmap]. apply (sends_bind [_] _); [|intros _; exact IH].
    apply (sends_bind [_] []); [|intros; apply sends_offline; constructor].
    apply sends_asks, asks_verify_table_structure.
  - apply not_true_is_false in Hf. rewrite Hf.
    apply (sends_bind [] _); [|intros _; exact IH]. apply sends_offline. constructor.
Qed.

Lemma run_for_each_print_with {L X} (g : X → line) (xs : list X) e (l : L) w :
  run (for_each xs (λ x, print (g x))) e l w =
  RunResult (Returns tt) l
    (World (http_log w) (db_log w) (file_log w) (stdout w ++ (g <$> xs))).
Proof.
  revert w. induction xs as [|x xs IH]; intros w.
  - simpl. rewrite app_nil_r. by destruct w.
  - rewrite run_for_each_cons, run_print. cbn [res frame final].
    rewrite IH. simpl. by rewrite <- app_assoc.
Qed.

Lemma run_summary {L} tr e (l : L) w :
  ∃ pre, run (summary tr) e l w =
         RunResult (Returns tt) l
           (World (http_log w) (db_log w) (file_log w) (pre ++ verdict tr)).
Proof.
  unfold summary.
  rewrite run_bind, run_for_each_print. cbn [res frame final].
  rewrite run_bind, run_print. cbn [res frame final].
  rewrite run_bind, run_for_each_print_with. cbn [res frame final].
  rewrite run_for_each_print. cbn [emit http_log db_log file_log stdout].
  by eexists.
Qed.

(** What a run of [run_full_verification] that returns has done. *)
Lemma run_full_verification_returns e (l : unit) w :
  let out := run (run_full_verification msg) e l w in
  let table_results :=
    zip expected_tables (usable <$> replies e (length (http_log w)) 5) in
  res out = Returns tt →
  issued w (final out) =
    ((λ table, rest_request (limit_1 table) true) <$> expected_tables) ++
    ((λ table, rest_request (limit_1 table) true) <$> structure_tables table_results) ++
    ((λ table, rest_request table true) <$>
       ["properties"; "property_photos"; "calendar_events"; "site_settings"; "blog_posts"]) ++
    ((λ table, rest_request (limit_1 table) false) <$> tables_to_test) ++
    [storage_request] ∧
  ∃ pre, stdout (final out) = pre ++ verdict table_results.
Proof.
  cbv zeta. unfold run_full_verification.
  do 3 (rewrite run_bind, run_print; cbn [res frame final]).
  rewrite run_bind, run_for_each_print. cbn [res frame final].
  set (w0 := World _ _ _ _).
  assert (Hw0 : http_log w0 = http_log w) by reflexivity.
  rewrite run_bind.
  pose proof (run_existence_loop msg expected_tables e l w0) as Hct. cbv zeta in Hct.
  pose proof (sends_check_tables (L:=unit) expected_tables e l w0) as H1.
  destruct (run (check_tables msg expected_tables) e l w0) as [[tr|x] l1 w1]; [|done].
  cbn [res frame final] in Hct, H1 |- *.
  destruct (Hct tr eq_refl) as [Htr _]. rewrite Hw0 in Htr. clear Hct.
  specialize (H1 tr eq_refl).
  change (length expected_tables) with 5%nat in Htr. rewrite <- Htr. clear Htr.
  rewrite run_bind, run_for_each_print. cbn [res frame final].
  set (w2 := World _ _ _ _).
  assert (H2 : requests w2 = requests w ++
            ((λ table, rest_request (limit_1 table) true) <$> expected_tables))
    by exact H1.
  clearbody w2. clear H1 w0 Hw0.
  rewrite run_bind.
  pose proof (sends_check_structures (L:=unit) tr e l1 w2) as H3.
  destruct (run (check_structures msg tr) e l1 w2) as [[[]|x] l3 w3]; [|done].
  cbn [res frame final] in H3 |- *. specialize (H3 tt eq_refl).
  rewrite run_bind.
  pose proof (sends_call _ _ tt (sends_verify_sample_data (L:=unit)) e l3 w3) as H4.
  destruct (run (call (verify_sample_data msg) tt) e l3 w3) as [[[]|x] l4 w4]; [|done].
  cbn [res frame final] in H4 |- *. specialize (H4 tt eq_refl).
  rewrite run_bind.
  pose proof (sends_call _ _ tt (sends_verify_rls_policies (L:=unit)) e l4 w4) as H5.
  destruct (run (call (verify_rls_policies msg) tt) e l4 w4) as [[[]|x] l5 w5]; [|done].
  cbn [res frame final] in H5 |- *. specialize (H5 tt eq_refl).
  rewrite run_bind.
  pose proof (sends_call _ _ tt (sends_verify_storage_buckets (L:=unit)) e l5 w5) as H6.
  destruct (run (call (verify_storage_buckets msg) tt) e l5 w5) as [[[]|x] l6 w6]; [|done].
  cbn [res frame final] in H6 |- *. specialize (H6 tt eq_refl).
  destruct (run_summary tr e l6 w6) as [pre ->]. cbn [res final http_log stdout].
  intros _. split; [|by eexists].
  unfold issued. change (requests (World (http_log w6) _ _ _)) with (requests w6).
  rewrite H6, H5, H4, H3, H2, <- !app_assoc.
  rewrite <- (length_fmap fst (http_log w)). apply drop_app_length.
Qed.

Lemma all_found_replies e n :
  all_tables_exist (zip expected_tables (usable <$> replies e n 5)) =
  forallb usable (replies e n 5).
Proof. reflexivity. Qed.

Lemma structure_tables_replies e n :
  structure_tables (zip expected_tables (usable <$> replies e n 5)) =
  (filter (λ reply, usable reply.2 = true)
     (zip ["properties"; "property_photos"; "calendar_events"; "blog_posts"; "site_settings"]
          (replies e n 5))).*1.
Proof.
  unfold structure_tables, replies.
  cbn [seq fmap list_fmap zip zip_with expected_tables].
  rewrite !filter_cons, !filter_nil. cbn [snd].
  generalize (http_reply e n) (http_reply e (S n)) (http_reply e (S (S n)))
    (http_reply e (S (S (S n)))) (http_reply e (S (S (S (S n))))).
  intros o0 o1 o2 o3 o4.
  destruct (usable o0), (usable o1), (usable o2), (usable o3), (usable o4); reflexivity.
Qed.

(** X23. The verdict that ends [run_full_verification] is decided by
    the replies to the five existence requests alone: it is the success
    line exactly when each of them is a response with a status outside
    400 to 599 and a JSON body.  What the checks of the sample data, of
    the RLS policies and of the storage buckets found has no part in
    it. *)
Theorem verdict_from_existence_alone e (l : unit) w :
  let out := run (run_full_verification msg) e l w in
  res out = Returns tt →
  (last (stdout (final out)) =
     Some [Lit "Your Supabase database appears to be set up correctly."] ↔
   forallb usable (replies e (length (http_log w)) 5) = true).
Proof.
  cbv zeta. intros Hres.
  destruct (run_full_verification_returns e l w Hres) as [_ [pre ->]].
  unfold verdict. rewrite all_found_replies.
  destruct (forallb usable (replies e (length (http_log w)) 5)).
  - change (pre ++ [?a; ?b]) with (pre ++ [a] ++ [b]).
    by rewrite (assoc_L (++)), last_snoc.
  - change (pre ++ [?a; ?b]) with (pre ++ [a] ++ [b]).
    rewrite (assoc_L (++)), last_snoc. split; [intros [=]|done].
Qed.

(** X24. The requests of a run of [run_full_verification] that returns,
    by method, URL and key, in the order in which they are sent: the
    five existence requests; then the structure requests, which go to
    the tables whose existence request was answered with a usable reply,
    and to no other table; then the five requests of the sample data,
    the five anonymous requests of the RLS check and the listing of the
    storage buckets. *)
Theorem structure_requested_for_found_tables e (l : unit) w :
  let out := run (run_full_verification msg) e l w in
  let rest := "https://pzrdkijtktgdwayjzbfu.supabase.co/rest/v1/" in
  let tables :=
    ["properties"; "property_photos"; "calendar_events"; "blog_posts"; "site_settings"] in
  let found :=
    (filter (λ reply, usable reply.2 = true)
       (zip tables (replies e (length (http_log w)) 5))).*1 in
  res out = Returns tt →
  (λ q, (req_method q, req_url q, req_key q)) <$> issued w (final out) =
    ((λ table, (GET, rest +:+ table +:+ "?limit=1", SERVICE_ROLE_KEY)) <$> tables) ++
    ((λ table, (GET, rest +:+ table +:+ "?limit=1", SERVICE_ROLE_KEY)) <$> found) ++
    ((λ table, (GET, rest +:+ table, SERVICE_ROLE_KEY)) <$>
       ["properties"; "property_photos"; "calendar_events"; "site_settings"; "blog_posts"]) ++
    ((λ table, (GET, rest +:+ table +:+ "?limit=1", ANON_KEY)) <$> tables) ++
    [(GET, "https://pzrdkijtktgdwayjzbfu.supabase.co/storage/v1/bucket", SERVICE_ROLE_KEY)].
Proof.
  cbv zeta. intros Hres.
  destruct (run_full_verification_returns e l w Hres) as [-> _].
  rewrite structure_tables_replies, !fmap_app, <- !list_fmap_compose.
  reflexivity.
Qed.

End VerifyDatabaseRequests.

Lemma verdict_from_existence_alone_witness :
  res (run (VerifyDatabase.run_full_verification reason) two_found_env tt world0) =
    Returns tt ∧
  last (stdout (final (run (VerifyDatabase.run_full_verification reason)
                         two_found_env tt world0))) ≠
    Some [Lit "Your Supabase database appears to be set up correctly."].
Proof.
  assert (H : res (run (VerifyDatabase.run_full_verification reason) two_found_env tt world0) =
              Returns tt) by (vm_compute; reflexivity).
  split; [exact H|].
  intros Hl. apply (verdict_from_existence_alone reason two_found_env tt world0 H) in Hl.
  discriminate Hl.
Defined.

Lemma structure_requested_for_found_tables_witness :
  res (run (VerifyDatabase.run_full_verification reason) two_found_env tt world0) =
    Returns tt ∧
  req_url <$> take 4 (drop 5 (issued world0
    (final (run (VerifyDatabase.run_full_verification reason) two_found_env tt world0)))) =
    ["https://pzrdkijtktgdwayjzbfu.supabase.co/rest/v1/properties?limit=1";
     "https://pzrdkijtktgdwayjzbfu.supabase.co/rest/v1/property_photos?limit=1";
     "https://pzrdkijtktgdwayjzbfu.supabase.co/rest/v1/blog_posts?limit=1";
     "https://pzrdkijtktgdwayjzbfu.supabase.co/rest/v1/site_settings?limit=1"].
Proof.
  assert (H : res (run (VerifyDatabase.run_full_verification reason) two_found_env tt world0) =
              Returns tt) by (vm_compute; reflexivity).
  split; [exact H|].
  pose proof (structure_requested_for_found_tables reason two_found_env tt world0 H) as Hq.
  cbv zeta in Hq.
  apply (f_equal (λ qs, (λ q : method * string * api_key, q.1.2) <$> take 4 (drop 5 qs))) in Hq.
  rewrite <- fmap_drop, <- fmap_take, <- list_fmap_compose in Hq.
  etrans; [exact Hq|]. vm_compute. reflexivity.
Defined.
